(** * Ouroboros LLM client: provider routing, usage normalisation,
      cost reconciliation, usage accumulation and pricing fetch.

    A shallow embedding of [ouroboros/llm.py].  Python values are modelled
    by an inductive type of JSON-like trees, dictionaries by finite maps,
    floats by binary64 primitive floats, exceptions by an error monad and
    the network by a scripted oracle together with a trace of the requests
    that were issued. *)

From Stdlib Require Import ZArith String Ascii List Bool Lia DecimalString.
From Stdlib Require Import Floats.PrimFloat Floats.SpecFloat Floats.FloatOps.
From stdpp Require Import gmap strings list fin_maps.

(** A decimal float literal denotes the nearest binary64 value, as it does
    in the source language. *)
#[local] Set Warnings "-inexact-float".

Local Open Scope string_scope.
Local Open Scope Z_scope.

(* ===================================================================== *)
(** * The host language: values, exceptions, conversions                  *)
(* ===================================================================== *)

Module Py.

(** Exceptions that the modelled code can meet.  All of them derive from
    Python's [Exception], so [except Exception] catches each one. *)
Inductive exn : Type :=
| TypeError | ValueError | AttributeError | KeyError | IndexError
| OverflowError | ImportError | HTTPError | TransportError.

Inductive res (A : Type) : Type :=
| Ok (a : A)
| Raise (e : exn).
Arguments Ok {A} a.
Arguments Raise {A} e.

Definition bind {A B} (c : res A) (k : A -> res B) : res B :=
  match c with
  | Ok a => k a
  | Raise e => Raise e
  end.

Declare Scope py_scope.
Delimit Scope py_scope with py.
Notation "x <- c ;; k" := (bind c (fun x => k))
  (at level 100, c at next level, right associativity) : py_scope.

(** [try: c except Exception: h]. *)
Definition try_except {A} (c : res A) (h : exn -> res A) : res A :=
  match c with
  | Ok a => Ok a
  | Raise e => h e
  end.

(** JSON-like Python values.  Dictionaries are keyed by strings. *)
Inductive pyval : Type :=
| PNone
| PBool (b : bool)
| PInt (n : Z)
| PFloat (f : float)
| PStr (s : string)
| PList (l : list pyval)
| PDict (d : gmap string pyval).

(** Truth value testing ([bool(v)], [if v], [not v]). *)
Definition truthy (v : pyval) : bool :=
  match v with
  | PNone => false
  | PBool b => b
  | PInt n => negb (n =? 0)
  | PFloat f => negb (PrimFloat.eqb f 0%float)
  | PStr s => negb (String.eqb s "")
  | PList l => match l with [] => false | _ => true end
  | PDict d => negb (bool_decide (d = ∅))
  end.

(** [a or b]. *)
Definition py_or (a b : pyval) : pyval := if truthy a then a else b.

(** [d.get(k)] and [d.get(k, dflt)] on a dictionary. *)
Definition dict_get (d : gmap string pyval) (k : string) : pyval :=
  default PNone (d !! k).

Definition dict_get_or (d : gmap string pyval) (k : string) (dflt : pyval) : pyval :=
  default dflt (d !! k).

(** [v.get(k)] on an arbitrary value: only dictionaries have the method. *)
Definition py_get (v : pyval) (k : string) : res pyval :=
  match v with
  | PDict d => Ok (dict_get d k)
  | _ => Raise AttributeError
  end.

Definition py_get_or (v : pyval) (k : string) (dflt : pyval) : res pyval :=
  match v with
  | PDict d => Ok (dict_get_or d k dflt)
  | _ => Raise AttributeError
  end.

(** ** Strings *)

(** [s.startswith(p)]. *)
Definition startswith (s p : string) : bool := String.prefix p s.

(** [s.startswith((p1, p2, ...))]. *)
Definition startswith_any (s : string) (ps : list string) : bool :=
  existsb (startswith s) ps.

(** [s[n:]]. *)
Fixpoint str_drop (n : nat) (s : string) : string :=
  match n, s with
  | O, _ => s
  | S _, EmptyString => EmptyString
  | S n', String _ rest => str_drop n' rest
  end.

(** [needle in s]. *)
Fixpoint contains (needle s : string) : bool :=
  String.prefix needle s
  || match s with
     | EmptyString => false
     | String _ rest => contains needle rest
     end.

(** [s.replace(old, new)] for a non-empty [old]: the occurrences are found
    from the left and do not overlap.  [skip] counts the characters of the
    occurrence being replaced that are still to be passed over. *)
Fixpoint replace_from (old new : string) (skip : nat) (s : string) : string :=
  match s with
  | EmptyString => EmptyString
  | String c rest =>
      match skip with
      | S k => replace_from old new k rest
      | O =>
          if String.prefix old s
          then String.append new (replace_from old new (Nat.pred (String.length old)) rest)
          else String c (replace_from old new O rest)
      end
  end.

Definition replace (s old new : string) : string := replace_from old new O s.

(** [s.rstrip('/')]. *)
Fixpoint rstrip_slash (s : string) : string :=
  match s with
  | EmptyString => EmptyString
  | String c rest =>
      match rstrip_slash rest with
      | EmptyString => if Ascii.eqb c "/"%char then EmptyString else String c EmptyString
      | kept => String c kept
      end
  end.

(** ** Numbers *)

(** The conversions between strings and other values ([int(s)],
    [float(s)], and [str(v)] as an f-string applies it) belong to the host
    language; the development is parametric in them. *)
Class StrConv : Type := {
  str_to_int : string -> option Z;
  str_to_float : string -> option float;
  format_value : pyval -> string
}.

(** The nearest binary64 float to the integer [n] (ties to even). *)
Definition float_of_Z (n : Z) : float :=
  SF2Prim (binary_normalize prec emax n 0 false).

(** The nearest binary64 float to the fraction [num / den], [den > 0]. *)
Definition float_of_frac (s : bool) (num den : positive) : float :=
  SF2Prim (SFdiv prec emax (S754_finite s num 0) (S754_finite false den 0)).

(** The integer part of a finite float, rounded towards zero. *)
Definition trunc_float (f : float) : option Z :=
  match Prim2SF f with
  | S754_zero _ => Some 0
  | S754_finite s m e =>
      let mag := if 0 <=? e then Z.pos m * 2 ^ e else Z.pos m / 2 ^ (- e) in
      Some (if s then - mag else mag)
  | S754_infinity _ => None
  | S754_nan => None
  end.

Section conversions.
Context `{StrConv}.

(** [int(v)]. *)
Definition py_int (v : pyval) : res Z :=
  match v with
  | PInt n => Ok n
  | PBool b => Ok (if b then 1 else 0)
  | PFloat f =>
      match trunc_float f with
      | Some n => Ok n
      | None => Raise (if PrimFloat.is_nan f then ValueError else OverflowError)
      end
  | PStr s => match str_to_int s with Some n => Ok n | None => Raise ValueError end
  | PNone | PList _ | PDict _ => Raise TypeError
  end.

(** [float(v)]. *)
Definition py_float (v : pyval) : res float :=
  match v with
  | PFloat f => Ok f
  | PInt n =>
      let f := float_of_Z n in
      if PrimFloat.is_infinity f then Raise OverflowError else Ok f
  | PBool b => Ok (if b then 1%float else 0%float)
  | PStr s => match str_to_float s with Some f => Ok f | None => Raise ValueError end
  | PNone | PList _ | PDict _ => Raise TypeError
  end.
(** [f"{v}"]: a string is inserted as it is. *)
Definition py_format (v : pyval) : string :=
  match v with
  | PStr s => s
  | _ => format_value v
  end.
End conversions.

(** [round(x, 4)] on a float: the decimal with four fractional digits
    nearest to the exact value of [x] (ties to the even last digit),
    converted back to the nearest float.  Zeros, infinities and NaN round
    to themselves. *)
Definition round4 (x : float) : float :=
  match Prim2SF x with
  | S754_finite s m e =>
      let num := Z.pos m * 10000 in
      let n :=
        if 0 <=? e then num * 2 ^ e
        else
          let d := 2 ^ (- e) in
          let q := num / d in
          let r := num mod d in
          if 2 * r <? d then q
          else if d <? 2 * r then q + 1
          else if Z.even q then q else q + 1 in
      match n with
      | Z.pos p => float_of_frac s p 10000
      | _ => SF2Prim (S754_zero s)
      end
  | _ => x
  end.

End Py.
Import Py.
Local Open Scope py_scope.

(* ===================================================================== *)
(** * Provider routing                                                    *)
(* ===================================================================== *)

(** The process environment, read through [os.environ.get(name, "")]. *)
Definition environ_get (env : gmap string string) (name : string) : string :=
  default "" (env !! name).

Definition OPENAI_URL : string := "https://api.openai.com/v1".
Definition GOOGLE_URL : string :=
  "https://generativelanguage.googleapis.com/v1beta/openai/".
Definition OPENROUTER_URL : string := "https://openrouter.ai/api/v1".

(** [_detect_provider(model)]: [(base_url, api_key, clean_model_name)]. *)
Definition _detect_provider (env : gmap string string) (model : string)
  : string * string * string :=
  if startswith model "openai/" then
    (OPENAI_URL, environ_get env "OPENAI_API_KEY", str_drop 7 model)
  else if startswith model "google/" || startswith model "gemini" then
    let clean := replace model "google/" "" in
    (GOOGLE_URL, environ_get env "GOOGLE_API_KEY", clean)
  else if startswith model "anthropic/" then
    (OPENROUTER_URL, environ_get env "OPENROUTER_API_KEY", model)
  else if startswith_any model ["x-ai/"; "meta-llama/"; "qwen/"] then
    (OPENROUTER_URL, environ_get env "OPENROUTER_API_KEY", model)
  else
    (OPENAI_URL, environ_get env "OPENAI_API_KEY", model).

(** The canonical name that routing rule 2 documents: the identifier
    without its leading "google/", unchanged when it has none. *)
Definition strip_leading_google (model : string) : string :=
  if startswith model "google/" then str_drop 7 model else model.

(** [_is_openrouter(base_url)]. *)
Definition _is_openrouter (base_url : string) : bool :=
  contains "openrouter.ai" base_url.

(** [_is_anthropic_model(model)]. *)
Definition _is_anthropic_model (model : string) : bool :=
  startswith model "anthropic/".

(** The prefixes that the routing rules recognise. *)
Definition recognised_prefixes : list string :=
  ["openai/"; "google/"; "gemini"; "anthropic/"; "x-ai/"; "meta-llama/"; "qwen/"].

(* ===================================================================== *)
(** * Usage accumulation                                                  *)
(* ===================================================================== *)

(** The five integer counters of a usage record, in the order in which
    [add_usage] visits them. *)
Definition USAGE_KEYS : list string :=
  ["prompt_tokens"; "completion_tokens"; "total_tokens";
   "cached_tokens"; "cache_write_tokens"].

Section accumulation.
Context `{StrConv}.

(** [int(d.get(k) or 0)]: how the accumulator reads a counter. *)
Definition counter_of (d : gmap string pyval) (k : string) : res Z :=
  py_int (py_or (dict_get d k) (PInt 0)).

(** One turn of the loop: [total[k] = int(total.get(k) or 0) + int(usage.get(k) or 0)]. *)
Definition add_counter (k : string) (total usage : gmap string pyval)
  : res (gmap string pyval) :=
  a <- counter_of total k ;;
  b <- counter_of usage k ;;
  Ok (<[k := PInt (a + b)]> total).

(** The loop over the counters.  [total] is updated in place, so when a
    conversion raises the updates already made stay: the result is the
    state of [total] together with the outcome. *)
Fixpoint add_counters (keys : list string) (total usage : gmap string pyval)
  : gmap string pyval * res unit :=
  match keys with
  | [] => (total, Ok tt)
  | k :: ks =>
      match add_counter k total usage with
      | Ok total' => add_counters ks total' usage
      | Raise e => (total, Raise e)
      end
  end.

(** [float(total.get("cost") or 0) + float(usage["cost"])]. *)
Definition cost_sum (total usage : gmap string pyval) : res float :=
  a <- py_float (py_or (dict_get total "cost") (PInt 0)) ;;
  b <- py_float (dict_get usage "cost") ;;
  Ok (a + b)%float.

(** [add_usage(total, usage)]: the final state of [total] and the outcome. *)
Definition add_usage (total usage : gmap string pyval)
  : gmap string pyval * res unit :=
  match add_counters USAGE_KEYS total usage with
  | (total1, Ok _) =>
      if truthy (dict_get usage "cost") then
        match cost_sum total1 usage with
        | Ok c => (<["cost" := PFloat c]> total1, Ok tt)
        | Raise e => (total1, Raise e)
        end
      else (total1, Ok tt)
  | (total1, Raise e) => (total1, Raise e)
  end.

(** A caller accumulating a sequence of records into one running total,
    one [add_usage] call per record, stopping at the first exception. *)
Fixpoint add_usage_all (total : gmap string pyval) (records : list (gmap string pyval))
  : gmap string pyval * res unit :=
  match records with
  | [] => (total, Ok tt)
  | u :: us =>
      match add_usage total u with
      | (total', Ok _) => add_usage_all total' us
      | (total', Raise e) => (total', Raise e)
      end
  end.

(** Resuming an accumulation: carry on with [records] from the state that
    an earlier pass left, unless that pass raised. *)
Definition then_add_all (earlier : gmap string pyval * res unit)
  (records : list (gmap string pyval)) : gmap string pyval * res unit :=
  match earlier with
  | (total, Ok _) => add_usage_all total records
  | (total, Raise e) => (total, Raise e)
  end.

(** The integer that the accumulator reads for counter [k] of [d]
    ([0] when the conversion raises). *)
Definition counter_val (d : gmap string pyval) (k : string) : Z :=
  match counter_of d k with
  | Ok n => n
  | Raise _ => 0
  end.

(** The sum of counter [k] over a sequence of records. *)
Definition counter_total (k : string) (records : list (gmap string pyval)) : Z :=
  foldr (fun u acc => counter_val u k + acc) 0 records.

End accumulation.

(** A cost that is present and equal to zero: [0], [0.0] or [-0.0]. *)
Definition zero_cost (v : pyval) : bool :=
  match v with
  | PInt n => n =? 0
  | PFloat f => PrimFloat.eqb f 0%float
  | _ => false
  end.

(** String conversions that cover plain decimal numerals, and the
    printing of [None], the booleans and the integers: enough to run the
    model on concrete records. *)
Definition digit_of (c : ascii) : option Z :=
  let n := Z.of_nat (nat_of_ascii c) in
  if (48 <=? n) && (n <=? 57) then Some (n - 48) else None.

Fixpoint digits_value (acc : Z) (s : string) : option Z :=
  match s with
  | EmptyString => Some acc
  | String c rest =>
      match digit_of c with
      | Some d => digits_value (10 * acc + d) rest
      | None => None
      end
  end.

(** Splits ["12.345"] into the digits before and after the point. *)
Fixpoint split_point (s : string) : string * option string :=
  match s with
  | EmptyString => (EmptyString, None)
  | String c rest =>
      if Ascii.eqb c "."%char then (EmptyString, Some rest)
      else let '(whole, frac) := split_point rest in (String c whole, frac)
  end.

Definition decimal_to_int (s : string) : option Z :=
  match s with
  | EmptyString => None
  | _ => digits_value 0 s
  end.

Definition decimal_to_float (s : string) : option float :=
  let '(whole, frac) := split_point s in
  let frac := default EmptyString frac in
  match String.append whole frac with
  | EmptyString => None
  | ds =>
      match digits_value 0 ds with
      | Some (Z.pos p) =>
          Some (float_of_frac false p (Z.to_pos (10 ^ Z.of_nat (String.length frac))))
      | Some _ => Some 0%float
      | None => None
      end
  end.

Definition decimal_conv : StrConv :=
  {| str_to_int := decimal_to_int;
     str_to_float := decimal_to_float;
     format_value := fun v =>
       match v with
       | PNone => "None"
       | PBool true => "True"
       | PBool false => "False"
       | PInt n => NilZero.string_of_int (Z.to_int n)
       | _ => ""
       end |}.


(* ===================================================================== *)
(** * The network                                                         *)
(* ===================================================================== *)

(** What one [requests.get] call meets: a response with its status code
    and the outcome of [resp.json()], or an exception (time-out, refused
    connection, ...). *)
Inductive http_reply : Type :=
| Reply (status : Z) (body : res pyval)
| NoReply (e : exn).

(** [import requests]. *)
Definition import_requests (installed : bool) : res unit :=
  if installed then Ok tt else Raise ImportError.

(** [resp.raise_for_status()]. *)
Definition raise_for_status (status : Z) : res unit :=
  if (400 <=? status) && (status <? 600) then Raise HTTPError else Ok tt.

(** [for x in v]: the items that iterating over [v] yields.  The keys of a
    dictionary come in the order of the finite map. *)
Definition py_iter (v : pyval) : res (list pyval) :=
  match v with
  | PList l => Ok l
  | PDict d => Ok (map (fun kv => PStr (fst kv)) (map_to_list d))
  | PStr s => Ok (map (fun c => PStr (String c EmptyString)) (list_ascii_of_string s))
  | PNone | PBool _ | PInt _ | PFloat _ => Raise TypeError
  end.

(* ===================================================================== *)
(** * Pricing catalogue                                                   *)
(* ===================================================================== *)

Definition PRICING_PREFIXES : list string :=
  ["anthropic/"; "openai/"; "google/"; "meta-llama/"; "x-ai/"; "qwen/"].

(** [(input_per_1m, cached_per_1m, output_per_1m)]. *)
Definition prices : Type := float * float * float.

(** [x > 1000] on a float. *)
Definition exceeds_1000 (x : float) : bool := PrimFloat.ltb 1000%float x.

(** Per-token price to price per million tokens: [round(raw * 1_000_000, 4)]. *)
Definition per_million (raw : float) : float := round4 (raw * 1000000)%float.

(** The fallback for the cached price: [round(prompt_price * 0.1, 4)]. *)
Definition cached_fallback (prompt_price : float) : float :=
  round4 (prompt_price * 0.1)%float.

Section pricing.
Context `{StrConv}.

(** The prices derived from the [pricing] object of an entry, from
    [if not pricing or not pricing.get("prompt")] to the plausibility
    check: [None] when the entry is skipped ([continue]). *)
Definition entry_prices (pricing : pyval) : res (option prices) :=
  if negb (truthy pricing) then Ok None else
  prompt <- py_get pricing "prompt" ;;
  if negb (truthy prompt) then Ok None else
  p <- py_get_or pricing "prompt" (PInt 0) ;;
  raw_prompt <- py_float p ;;
  c <- py_get_or pricing "completion" (PInt 0) ;;
  raw_completion <- py_float c ;;
  raw_cached_str <- py_get pricing "input_cache_read" ;;
  raw_cached <- (if truthy raw_cached_str
                 then f <- py_float raw_cached_str ;; Ok (Some f)
                 else Ok None) ;;
  let prompt_price := per_million raw_prompt in
  let completion_price := per_million raw_completion in
  let cached_price :=
    match raw_cached with
    | Some rc => per_million rc
    | None => cached_fallback prompt_price
    end in
  if exceeds_1000 prompt_price || exceeds_1000 completion_price then Ok None
  else Ok (Some (prompt_price, cached_price, completion_price)).

(** The body of the loop over the catalogue for one entry: [None] when the
    entry is skipped, otherwise the key and the prices that are stored. *)
Definition price_entry (model : pyval) : res (option (string * prices)) :=
  model_id <- py_get_or model "id" (PStr "") ;;
  match model_id with
  | PStr id =>
      if negb (startswith_any id PRICING_PREFIXES) then Ok None else
      pricing <- py_get_or model "pricing" (PDict ∅) ;;
      ps <- entry_prices pricing ;;
      Ok (option_map (pair id) ps)
  | _ => Raise AttributeError
  end.

(** The loop over the catalogue, filling [pricing_dict]. *)
Fixpoint price_entries (models : list pyval) (pricing_dict : gmap string prices)
  : res (gmap string prices) :=
  match models with
  | [] => Ok pricing_dict
  | model :: rest =>
      r <- price_entry model ;;
      price_entries rest
        match r with
        | Some (id, ps) => <[id := ps]> pricing_dict
        | None => pricing_dict
        end
  end.

(** The statements under [try]: the request, the status check, the
    decoding of the body and the loop. *)
Definition pricing_request (reply : http_reply) : res (gmap string prices) :=
  match reply with
  | NoReply e => Raise e
  | Reply status body =>
      _ <- raise_for_status status ;;
      data <- body ;;
      models <- py_get_or data "data" (PList []) ;;
      items <- py_iter models ;;
      price_entries items ∅
  end.

(** [fetch_openrouter_pricing()], given the process environment, whether
    [requests] can be imported and what the request meets. *)
Definition fetch_openrouter_pricing (env : gmap string string)
  (requests_installed : bool) (reply : http_reply) : res (gmap string prices) :=
  if negb (truthy (PStr (environ_get env "OPENROUTER_API_KEY"))) then Ok ∅
  else
    match import_requests requests_installed with
    | Raise ImportError => Ok ∅
    | Raise e => Raise e
    | Ok _ => try_except (pricing_request reply) (fun _ => Ok ∅)
    end.

End pricing.

(* ===================================================================== *)
(** * Reasoning effort                                                    *)
(* ===================================================================== *)

(** ASCII white space, as [str.strip()] removes it. *)
Definition is_space (c : ascii) : bool :=
  let n := nat_of_ascii c in
  ((9 <=? n) && (n <=? 13) || (28 <=? n) && (n <=? 32))%nat.

(** [c.lower()] on an ASCII letter. *)
Definition lower_ascii (c : ascii) : ascii :=
  let n := nat_of_ascii c in
  if ((65 <=? n) && (n <=? 90))%nat then ascii_of_nat (n + 32) else c.

Fixpoint lstrip (s : string) : string :=
  match s with
  | String c rest => if is_space c then lstrip rest else s
  | EmptyString => EmptyString
  end.

Fixpoint rstrip (s : string) : string :=
  match s with
  | EmptyString => EmptyString
  | String c rest =>
      match rstrip rest with
      | EmptyString => if is_space c then EmptyString else String c EmptyString
      | kept => String c kept
      end
  end.

Fixpoint lower (s : string) : string :=
  match s with
  | EmptyString => EmptyString
  | String c rest => String (lower_ascii c) (lower rest)
  end.

Definition EFFORTS : list string :=
  ["none"; "minimal"; "low"; "medium"; "high"; "xhigh"].

(** [normalize_reasoning_effort(value, default="medium")], on ASCII text. *)
Definition normalize_reasoning_effort (value : string) (dflt : string) : string :=
  let v := lower (rstrip (lstrip value)) in
  if existsb (String.eqb v) EFFORTS then v else dflt.

(* ===================================================================== *)
(** * Objects, references and the state of a call                         *)
(* ===================================================================== *)

(** The arguments of [chat] are objects that the caller still holds:
    lists and dictionaries live in a store and are passed by reference. *)
Definition loc : Type := positive.

Inductive val : Type :=
| VLit (v : pyval)       (* a value that nobody updates in place *)
| VRef (l : loc).        (* a reference to a list or dictionary object *)

Inductive obj : Type :=
| OList (items : list val)
| ODict (fields : gmap string val).

(** A client handle, as [_get_client] builds it. *)
Record client : Type := {
  client_base_url : string;
  client_api_key : string;
  client_headers : gmap string string
}.

Inductive event : Type :=
| EvGet (url bearer : string) (timeout : Z)   (* [requests.get], seconds *)
| EvSleep (ms : Z)                            (* [time.sleep], milliseconds *)
| EvCreate (base_url : string) (kwargs : gmap string val).
                                              (* [chat.completions.create] *)

Record world : Type := {
  heap : gmap loc obj;
  clients : gmap string client;
  trace : list event
}.

(** What the process meets outside: the environment, the importable
    modules, the reply to the n-th [requests.get], and the outcome of the
    chat-completion request followed by [model_dump()]. *)
Record host : Type := {
  environ : gmap string string;
  requests_installed : bool;
  openai_installed : bool;
  replies : nat -> http_reply;
  completion : res (gmap string pyval)
}.

Definition is_get (e : event) : bool :=
  match e with EvGet _ _ _ => true | _ => false end.

(** The number of [requests.get] calls made so far. *)
Definition count_gets (tr : list event) : nat := length (filter is_get tr).

Definition record_event (w : world) (e : event) : world :=
  {| heap := heap w; clients := clients w; trace := trace w ++ [e] |}.

Definition with_heap (w : world) (h : gmap loc obj) : world :=
  {| heap := h; clients := clients w; trace := trace w |}.

(** Computations that read and update the state and may raise. *)
Definition M (A : Type) : Type := world -> res A * world.

Definition ret {A} (a : A) : M A := fun w => (Ok a, w).

Definition lift {A} (r : res A) : M A := fun w => (r, w).

Definition mbind {A B} (c : M A) (k : A -> M B) : M B :=
  fun w =>
    match c w with
    | (Ok a, w') => k a w'
    | (Raise e, w') => (Raise e, w')
    end.

(** [try: c except Exception: h]: the effects of [c] up to the exception
    stay. *)
Definition catch {A} (c : M A) (h : exn -> M A) : M A :=
  fun w =>
    match c w with
    | (Ok a, w') => (Ok a, w')
    | (Raise e, w') => h e w'
    end.

Declare Scope m_scope.
Delimit Scope m_scope with m.
Notation "x <- c ;; k" := (mbind c (fun x => k))
  (at level 100, c at next level, right associativity) : m_scope.

(** A computation that leaves the trace as it is: it talks to nobody. *)
Definition silent {A} (c : M A) : Prop :=
  forall w, trace (snd (c w)) = trace w.

(** Allocation of a new object. *)
Definition alloc (o : obj) : M loc :=
  fun w =>
    let l := fresh (dom (heap w)) in
    (Ok l, with_heap w (<[l := o]> (heap w))).

(** Update of an object in place. *)
Definition store (l : loc) (o : obj) : M unit :=
  fun w => (Ok tt, with_heap w (<[l := o]> (heap w))).

(** The object behind a reference.  Python has no dangling references;
    the model stops with [TypeError] on one. *)
Definition deref (l : loc) : M obj :=
  fun w =>
    match heap w !! l with
    | Some o => (Ok o, w)
    | None => (Raise TypeError, w)
    end.

(** [bool(v)]. *)
Definition val_truthy (v : val) : M bool :=
  match v with
  | VLit x => ret (truthy x)
  | VRef l =>
      mbind (deref l) (fun o =>
        ret match o with
            | OList items => match items with [] => false | _ => true end
            | ODict fields => negb (bool_decide (fields = ∅))
            end)
  end.

(** The items that [for t in v] yields. *)
Definition val_iter (v : val) : M (list val) :=
  match v with
  | VLit x => mbind (lift (py_iter x)) (fun items => ret (map VLit items))
  | VRef l =>
      mbind (deref l) (fun o =>
        ret match o with
            | OList items => items
            | ODict fields => map (fun kv => VLit (PStr (fst kv))) (map_to_list fields)
            end)
  end.

(** The entries that [{**v}] copies: [v] has to be a mapping. *)
Definition val_fields (v : val) : M (gmap string val) :=
  match v with
  | VLit (PDict d) => ret (VLit <$> d)
  | VLit _ => lift (Raise TypeError)
  | VRef l =>
      mbind (deref l) (fun o =>
        match o with
        | ODict fields => ret fields
        | OList _ => lift (Raise TypeError)
        end)
  end.

(** The entries of the mapping that [v] denotes in the store [hp], if it
    denotes one. *)
Definition mapping_fields (hp : gmap loc obj) (v : val) : option (gmap string val) :=
  match v with
  | VLit (PDict d) => Some (VLit <$> d)
  | VLit _ => None
  | VRef l =>
      match hp !! l with
      | Some (ODict fields) => Some fields
      | _ => None
      end
  end.

(** [{"type": "ephemeral", "ttl": "1h"}]. *)
Definition cache_marker : pyval :=
  PDict (<["type" := PStr "ephemeral"]> (<["ttl" := PStr "1h"]> ∅)).

(** [l[-1] = x] on a non-empty list. *)
Definition set_last (items : list val) (x : val) : list val :=
  <[Nat.pred (length items) := x]> items.

(* ===================================================================== *)
(** * The client                                                          *)
(* ===================================================================== *)

Module LLMClient.

(** [choices[0]] for a truthy [choices]. *)
Definition first_item (choices : pyval) : res pyval :=
  match choices with
  | PList (x :: _) => Ok x
  | PList [] => Raise IndexError
  | PStr (String c _) => Ok (PStr (String c EmptyString))
  | PStr EmptyString => Raise IndexError
  | PDict _ => Raise KeyError
  | PNone | PBool _ | PInt _ | PFloat _ => Raise TypeError
  end.

(** [(choices[0] if choices else {}).get("message") or {}]. *)
Definition response_message (resp_dict : gmap string pyval) : res pyval :=
  let choices := py_or (dict_get resp_dict "choices") (PList [PDict ∅]) in
  first <- (if truthy choices then first_item choices else Ok (PDict ∅)) ;;
  message <- py_get first "message" ;;
  Ok (py_or message (PDict ∅)).

(** [resp_dict.get("usage") or {}], which the following statements use as
    a dictionary. *)
Definition response_usage (resp_dict : gmap string pyval) : res (gmap string pyval) :=
  match py_or (dict_get resp_dict "usage") (PDict ∅) with
  | PDict usage => Ok usage
  | _ => Raise AttributeError
  end.

(** The keys under which a provider may report cache writes, in the order
    in which they are consulted. *)
Definition CACHE_WRITE_KEYS : list string :=
  ["cache_write_tokens"; "cache_creation_tokens"; "cache_creation_input_tokens"].

(** The value that [a.get(k1) or a.get(k2) or ...] settles on when one
    of the values is truthy. *)
Fixpoint first_truthy (d : gmap string pyval) (keys : list string) : option pyval :=
  match keys with
  | [] => None
  | k :: ks => if truthy (dict_get d k) then Some (dict_get d k) else first_truthy d ks
  end.

(** The first value that is present under one of [keys], a null counting
    as absent: the search as the specification words it. *)
Fixpoint first_present (d : gmap string pyval) (keys : list string) : option pyval :=
  match keys with
  | [] => None
  | k :: ks =>
      match d !! k with
      | Some PNone | None => first_present d ks
      | Some v => Some v
      end
  end.

(** [cost = data.get("total_cost") or data.get("usage", {}).get("cost")]
    for [data = resp.json().get("data") or {}]. *)
Definition generation_cost (body : res pyval) : res pyval :=
  json <- body ;;
  d <- py_get json "data" ;;
  let data := py_or d (PDict ∅) in
  total_cost <- py_get data "total_cost" ;;
  if truthy total_cost then Ok total_cost
  else
    usage <- py_get_or data "usage" (PDict ∅) ;;
    py_get usage "cost".

Section methods.
Context `{StrConv}.

(** "Extract cached_tokens from prompt_tokens_details if available". *)
Definition promote_cached (usage : gmap string pyval) : res (gmap string pyval) :=
  if negb (truthy (dict_get usage "cached_tokens")) then
    match py_or (dict_get usage "prompt_tokens_details") (PDict ∅) with
    | PDict prompt_details =>
        let found := dict_get prompt_details "cached_tokens" in
        if truthy found then
          n <- py_int found ;;
          Ok (<["cached_tokens" := PInt n]> usage)
        else Ok usage
    | _ => Ok usage
    end
  else Ok usage.

(** "Extract cache_write_tokens from prompt_tokens_details if available". *)
Definition promote_cache_write (usage : gmap string pyval) : res (gmap string pyval) :=
  if negb (truthy (dict_get usage "cache_write_tokens")) then
    match py_or (dict_get usage "prompt_tokens_details") (PDict ∅) with
    | PDict prompt_details =>
        let cache_write :=
          py_or (dict_get prompt_details "cache_write_tokens")
            (py_or (dict_get prompt_details "cache_creation_tokens")
               (dict_get prompt_details "cache_creation_input_tokens")) in
        if truthy cache_write then
          n <- py_int cache_write ;;
          Ok (<["cache_write_tokens" := PInt n]> usage)
        else Ok usage
    | _ => Ok usage
    end
  else Ok usage.

(** The normalisation that [chat] applies to the response: the message
    and the usage record before cost reconciliation. *)
Definition normalize_usage (resp_dict : gmap string pyval)
  : res (pyval * gmap string pyval) :=
  let usage0 := response_usage resp_dict in
  msg <- response_message resp_dict ;;
  usage <- usage0 ;;
  usage <- promote_cached usage ;;
  usage <- promote_cache_write usage ;;
  Ok (msg, usage).

(** What one look-up concludes from the response: [Some cost] when it
    returns the cost, [None] when it goes on. *)
Definition cost_of_response (status : Z) (body : res pyval) : res (option float) :=
  if status =? 200 then
    cost <- generation_cost body ;;
    match cost with
    | PNone => Ok None
    | _ => f <- py_float cost ;; Ok (Some f)
    end
  else Ok None.

(** What one look-up attempt comes to for a given reply: it raises (the
    request failed, the body is malformed), concludes nothing ([None]), or
    yields the cost. *)
Definition attempt_outcome (reply : http_reply) : res (option float) :=
  match reply with
  | Reply status body => cost_of_response status body
  | NoReply e => Raise e
  end.

(** An attempt that yields no usable cost. *)
Definition no_cost (reply : http_reply) : Prop :=
  forall c, attempt_outcome reply <> Ok (Some c).

(** The URL of the generation-detail endpoint. *)
Definition generation_url (base_url generation_id : string) : string :=
  String.append (rstrip_slash base_url)
    (String.append "/generation?id=" generation_id).

Local Open Scope m_scope.

(** [_get_client(base_url, api_key)]. *)
Definition _get_client (h : host) (base_url api_key : string) : M client :=
  fun w =>
    match clients w !! base_url with
    | Some c => (Ok c, w)
    | None =>
        if openai_installed h then
          let headers : gmap string string := {[ "X-Title" := "Ouroboros" ]} in
          let headers :=
            if _is_openrouter base_url
            then <["HTTP-Referer" := "https://github.com/razzant/ouroboros"]> headers
            else headers in
          let c := {| client_base_url := base_url;
                      client_api_key := api_key;
                      client_headers := headers |} in
          (Ok c, {| heap := heap w;
                    clients := <[base_url := c]> (clients w);
                    trace := trace w |})
        else (Raise ImportError, w)
    end.

(** [requests.get(url, headers={"Authorization": f"Bearer {api_key}"}, timeout=5)]. *)
Definition requests_get (h : host) (url api_key : string) (timeout : Z)
  : M (Z * res pyval) :=
  fun w =>
    let w' := record_event w (EvGet url api_key timeout) in
    match replies h (count_gets (trace w)) with
    | Reply status body => (Ok (status, body), w')
    | NoReply e => (Raise e, w')
    end.

(** [time.sleep(0.5)]. *)
Definition sleep (ms : Z) : M unit :=
  fun w => (Ok tt, record_event w (EvSleep ms)).

(** One look-up: the request and what is concluded from the response. *)
Definition lookup_cost (h : host) (url api_key : string) : M (option float) :=
  resp <- requests_get h url api_key 5 ;;
  lift (cost_of_response (fst resp) (snd resp)).

(** [_fetch_generation_cost(generation_id, base_url, api_key)]. *)
Definition _fetch_generation_cost (h : host) (generation_id base_url api_key : string)
  : M (option float) :=
  if negb (_is_openrouter base_url) then ret None
  else
    catch
      (_ <- lift (import_requests (requests_installed h)) ;;
       let url := generation_url base_url generation_id in
       first <- lookup_cost h url api_key ;;
       match first with
       | Some cost => ret (Some cost)
       | None =>
           _ <- sleep 500 ;;
           second <- lookup_cost h url api_key ;;
           ret second
       end)
      (fun _ => ret None).

(** The tool list sent for an Anthropic model through the aggregator: a
    copy of the list whose last entry is a copy of the last tool with
    [cache_control] set. *)
Definition tools_with_cache_control (tools : val) : M val :=
  items <- val_iter tools ;;
  tools_with_cache <- alloc (OList items) ;;
  match last items with
  | Some last_item =>
      fields <- val_fields last_item ;;
      last_tool <- alloc (ODict fields) ;;
      _ <- store last_tool (ODict (<["cache_control" := VLit cache_marker]> fields)) ;;
      _ <- store tools_with_cache (OList (set_last items (VRef last_tool))) ;;
      ret (VRef tools_with_cache)
  | None => ret (VRef tools_with_cache)
  end.

(** [extra_body]: the reasoning extension and, for an Anthropic model
    through the aggregator, the provider pin. *)
Definition request_extra_body (model : string) (is_openrouter : bool)
  (effort : string) : gmap string pyval :=
  let reasoning : gmap string pyval :=
    <["effort" := PStr effort]> (<["exclude" := PBool true]> ∅) in
  let extra_body : gmap string pyval := {[ "reasoning" := PDict reasoning ]} in
  if is_openrouter && _is_anthropic_model model then
    <["provider" := PDict (<["order" := PList [PStr "Anthropic"]]>
                            (<["allow_fallbacks" := PBool false]>
                               (<["require_parameters" := PBool true]> ∅)))]>
      extra_body
  else extra_body.

(** [kwargs] as first built: model, messages, max_tokens, extra_body. *)
Definition request_kwargs (model clean_model : string) (is_openrouter : bool)
  (messages : val) (effort : string) (max_tokens : Z) : gmap string val :=
  <["model" := VLit (PStr clean_model)]>
    (<["messages" := messages]>
       (<["max_tokens" := VLit (PInt max_tokens)]>
          (<["extra_body" :=
               VLit (PDict (request_extra_body model is_openrouter effort))]> ∅))).

(** The keyword arguments of the chat-completion request, with the tools. *)
Definition build_kwargs (model clean_model : string) (is_openrouter : bool)
  (messages tools : val) (effort : string) (max_tokens : Z) (tool_choice : string)
  : M (gmap string val) :=
  let kwargs := request_kwargs model clean_model is_openrouter messages
                  effort max_tokens in
  given <- val_truthy tools ;;
  if given then
    sent <- (if is_openrouter && _is_anthropic_model model
             then tools_with_cache_control tools
             else ret tools) ;;
    ret (<["tool_choice" := VLit (PStr tool_choice)]> (<["tools" := sent]> kwargs))
  else ret kwargs.

(** [client.chat.completions.create] on the keyword arguments, and
    [resp.model_dump()]. *)
Definition create (h : host) (base_url : string) (kwargs : gmap string val)
  : M (gmap string pyval) :=
  fun w => (completion h, record_event w (EvCreate base_url kwargs)).

(** "Fetch cost from OpenRouter Generation API if not in usage". *)
Definition reconcile_cost (h : host) (resp_dict usage : gmap string pyval)
  (is_openrouter : bool) (base_url api_key : string) : M (gmap string pyval) :=
  if negb (truthy (dict_get usage "cost")) && is_openrouter then
    let gen_id := py_or (dict_get resp_dict "id") (PStr "") in
    if truthy gen_id then
      cost <- _fetch_generation_cost h (py_format gen_id) base_url api_key ;;
      match cost with
      | Some c => ret (<["cost" := PFloat c]> usage)
      | None => ret usage
      end
    else ret usage
  else ret usage.

(** The first half of [chat], up to [resp_dict = resp.model_dump()]: the
    client, the keyword arguments and the request. *)
Definition chat_request (h : host) (base_url api_key clean_model : string)
  (messages : val) (model : string) (tools : val)
  (reasoning_effort : string) (max_tokens : Z) (tool_choice : string)
  : M (gmap string pyval) :=
  _ <- _get_client h base_url api_key ;;
  let effort := normalize_reasoning_effort reasoning_effort "medium" in
  let is_openrouter := _is_openrouter base_url in
  kwargs <- build_kwargs model clean_model is_openrouter messages tools
              effort max_tokens tool_choice ;;
  create h base_url kwargs.

(** [chat(messages, model, tools, reasoning_effort, max_tokens, tool_choice)]:
    [(msg, usage)]. *)
Definition chat (h : host) (messages : val) (model : string) (tools : val)
  (reasoning_effort : string) (max_tokens : Z) (tool_choice : string)
  : M (pyval * gmap string pyval) :=
  let '(base_url, api_key, clean_model) := _detect_provider (environ h) model in
  resp_dict <- chat_request h base_url api_key clean_model messages model tools
                 reasoning_effort max_tokens tool_choice ;;
  normalized <- lift (normalize_usage resp_dict) ;;
  usage <- reconcile_cost h resp_dict (snd normalized)
             (_is_openrouter base_url) base_url api_key ;;
  ret (fst normalized, usage).

End methods.
End LLMClient.

(** Concrete records for running the accumulator. *)
Definition rec_A : gmap string pyval :=
  list_to_map [("prompt_tokens", PInt 3); ("total_tokens", PInt 5); ("cost", PFloat 0.5)].
Definition rec_B : gmap string pyval :=
  list_to_map [("prompt_tokens", PInt 4); ("cached_tokens", PStr "2")].
Definition rec_C : gmap string pyval :=
  list_to_map [("prompt_tokens", PInt 5); ("cost", PNone)].
Definition rec_free : gmap string pyval :=
  list_to_map [("prompt_tokens", PInt 5); ("cost", PFloat 0)].
Definition total_ten : gmap string pyval :=
  list_to_map [("prompt_tokens", PInt 10)].

(** A catalogue body for running the pricing fetch: one entry priced in
    strings, one implausibly expensive, one with an explicit cache-read
    price, one from a vendor that is not tracked. *)
Definition catalogue : pyval :=
  PDict (list_to_map [("data", PList [
    PDict (list_to_map [("id", PStr "anthropic/claude-sonnet");
      ("pricing", PDict (list_to_map
         [("prompt", PStr "0.000003"); ("completion", PStr "0.000015")]))]);
    PDict (list_to_map [("id", PStr "openai/gpt-x");
      ("pricing", PDict (list_to_map
         [("prompt", PStr "0.0011"); ("completion", PStr "0.000015")]))]);
    PDict (list_to_map [("id", PStr "qwen/q");
      ("pricing", PDict (list_to_map
         [("prompt", PFloat 0.00000025); ("completion", PInt 0);
          ("input_cache_read", PStr "0.0000001")]))]);
    PDict (list_to_map [("id", PStr "other/q"); ("pricing", PInt 5)])])]).

Definition env_with_key : gmap string string :=
  {[ "OPENROUTER_API_KEY" := "sk-or-test" ]}.

Definition usage_creation : gmap string pyval :=
  <["cache_write_tokens" := PInt 7]>
    (<["cached_tokens" := PInt 17]>
       {[ "prompt_tokens_details" :=
            PDict (<["cache_creation_tokens" := PInt 7]>
                     (<["cache_creation_input_tokens" := PInt 9]>
                        {[ "cached_tokens" := PInt 17 ]})) ]}).

(** An empty state, and hosts for running [chat] and the look-up. *)
Definition empty_world : world :=
  {| heap := ∅; clients := ∅; trace := [] |}.

Definition generation_body (cost : pyval) : pyval :=
  PDict {[ "data" := PDict {[ "total_cost" := cost ]} ]}.

(** The provider reports a cost of zero; the generation endpoint knows a
    cost of 0.25. *)
Definition host_zero_cost : host :=
  {| environ := env_with_key;
     requests_installed := true;
     openai_installed := true;
     replies := fun _ => Reply 200 (Ok (generation_body (PFloat 0.25)));
     completion := Ok (<["id" := PStr "gen-1"]>
                         {[ "usage" := PDict {[ "cost" := PFloat 0 ]} ]}) |}.

(** The provider reports a cost of 0.125 itself. *)
Definition host_with_cost : host :=
  {| environ := env_with_key;
     requests_installed := true;
     openai_installed := true;
     replies := fun _ => Reply 200 (Ok (generation_body (PFloat 0.25)));
     completion := Ok (<["id" := PStr "gen-1"]>
                         {[ "usage" := PDict {[ "cost" := PFloat 0.125 ]} ]}) |}.

(** The generation is not ready at the first look-up and is at the
    second. *)
Definition host_late_cost : host :=
  {| environ := env_with_key;
     requests_installed := true;
     openai_installed := true;
     replies := fun n =>
       match n with
       | O => Reply 200 (Ok (PDict {[ "data" := PDict ∅ ]}))
       | _ => Reply 200 (Ok (generation_body (PFloat 0.25)))
       end;
     completion := Ok ∅ |}.

(** Every look-up fails: a time-out, then a server error. *)
Definition host_down : host :=
  {| environ := env_with_key;
     requests_installed := true;
     openai_installed := true;
     replies := fun n =>
       match n with
       | O => Reply 503 (Raise ValueError)
       | _ => NoReply TransportError
       end;
     completion := Ok ∅ |}.

(** Responses for running the normalisation. *)
Definition resp_total_only : gmap string pyval :=
  {[ "usage" := PDict {[ "total_tokens" := PInt 42 ]} ]}.

(** Details that report a cache write of zero under the first key and of
    five under the second, and a usage body that holds them. *)
Definition details_zero_write : gmap string pyval :=
  <["cache_write_tokens" := PInt 0]> {[ "cache_creation_tokens" := PInt 5 ]}.

Definition usage_zero_write : gmap string pyval :=
  {[ "prompt_tokens_details" := PDict details_zero_write ]}.

Definition resp_creation : gmap string pyval :=
  {[ "usage" := PDict {[ "prompt_tokens_details" :=
       PDict (<["cache_creation_tokens" := PInt 7]>
                (<["cache_creation_input_tokens" := PInt 9]>
                   {[ "cached_tokens" := PInt 17 ]})) ]} ]}.

(** A caller's state with a list of two tools, at locations 1, 2 and 3. *)
Definition tool_a : gmap string val := {[ "name" := VLit (PStr "read_file") ]}.
Definition tool_b : gmap string val := {[ "name" := VLit (PStr "write_file") ]}.

Definition world_two_tools : world :=
  {| heap := <[1%positive := OList [VRef 2%positive; VRef 3%positive]]>
               (<[2%positive := ODict tool_a]> {[ 3%positive := ODict tool_b ]});
     clients := ∅;
     trace := [] |}.

(* ===================================================================== *)
(** * Further functions of the client module                              *)
(* ===================================================================== *)

(** The ranks of the efforts, as the dictionary [order] of
    [reasoning_rank] gives them. *)
Definition EFFORT_ORDER : gmap string Z :=
  <["none" := 0]> (<["minimal" := 1]> (<["low" := 2]>
    (<["medium" := 3]> (<["high" := 4]> (<["xhigh" := 5]> ∅))))).

(** [str(value or "").strip().lower()], on ASCII text: what both effort
    functions look up. *)
Definition effort_text (value : string) : string :=
  lower (rstrip (lstrip value)).

(** No character of [s] is white space. *)
Definition spaceless (s : string) : Prop :=
  Forall (fun c => is_space c = false) (list_ascii_of_string s).

(** Every character of [s] is white space. *)
Definition blank (s : string) : Prop :=
  Forall (fun c => is_space c = true) (list_ascii_of_string s).

(** [s.isascii()]: every character of [s] has a code below 128.  On such
    text [str.strip()] removes exactly the characters of [is_space] and
    [str.lower()] changes exactly the letters A to Z. *)
Definition ascii_text (s : string) : Prop :=
  Forall (fun c => (nat_of_ascii c < 128)%nat) (list_ascii_of_string s).

(** [reasoning_rank(value)], on ASCII text. *)
Definition reasoning_rank (value : string) : Z :=
  default 3 (EFFORT_ORDER !! lower (rstrip (lstrip value))).

(** [os.environ.get(name, dflt)]. *)
Definition environ_get_or (env : gmap string string) (name dflt : string) : string :=
  default dflt (env !! name).

(** [bool(s)] for a string. *)
Definition nonempty (s : string) : bool := negb (String.eqb s "").

(** [LLMClient.default_model()]. *)
Definition default_model (env : gmap string string) : string :=
  environ_get_or env "OUROBOROS_MODEL" "gpt-4.1".

(** [LLMClient.available_models()]. *)
Definition available_models (env : gmap string string) : list string :=
  let main := environ_get_or env "OUROBOROS_MODEL" "gpt-4.1" in
  let code := environ_get env "OUROBOROS_MODEL_CODE" in
  let light := environ_get env "OUROBOROS_MODEL_LIGHT" in
  let models := [main] in
  let models :=
    if nonempty code && negb (String.eqb code main)
    then (models ++ [code])%list else models in
  let models :=
    if nonempty light && negb (String.eqb light main) && negb (String.eqb light code)
    then (models ++ [light])%list else models in
  models.

(** The prefixes that route a model to the aggregator. *)
Definition AGGREGATOR_PREFIXES : list string :=
  ["anthropic/"; "x-ai/"; "meta-llama/"; "qwen/"].

(** A computation that leaves every object of the store as it is; it may
    allocate new ones. *)
Definition keeps_objects {A} (c : M A) : Prop :=
  forall w x o, heap w !! x = Some o -> heap (snd (c w)) !! x = Some o.

(** [key in v] for a string [key]. *)
Definition py_in (key : string) (v : pyval) : res bool :=
  match v with
  | PDict d => Ok (bool_decide (is_Some (d !! key)))
  | PStr s => Ok (contains key s)
  | PList l =>
      Ok (existsb (fun x => match x with PStr s => String.eqb s key | _ => false end) l)
  | PNone | PBool _ | PInt _ | PFloat _ => Raise TypeError
  end.

(** [v[key]] for a string [key]. *)
Definition py_item (v : pyval) (key : string) : res pyval :=
  match v with
  | PDict d => match d !! key with Some x => Ok x | None => Raise KeyError end
  | PNone | PBool _ | PInt _ | PFloat _ | PStr _ | PList _ => Raise TypeError
  end.

(** [list(v.keys())], evaluated for the log message only. *)
Definition py_keys (v : pyval) : res unit :=
  match v with
  | PDict _ => Ok tt
  | _ => Raise AttributeError
  end.

(** [{"type": "text", "text": prompt}]. *)
Definition text_part (prompt : string) : pyval :=
  PDict (<["type" := PStr "text"]> {[ "text" := PStr prompt ]}).

(** [{"type": "image_url", "image_url": {"url": url}}]. *)
Definition image_url_part (url : pyval) : pyval :=
  PDict (<["type" := PStr "image_url"]>
           {[ "image_url" := PDict {[ "url" := url ]} ]}).

(** An image that the loop of [vision_query] sends: it has a "url" or a
    "base64" key. *)
Definition sendable (img : gmap string pyval) : bool :=
  bool_decide (is_Some (img !! "url")) || bool_decide (is_Some (img !! "base64")).

Section vision.
Context `{StrConv}.
Import LLMClient.

(** One turn of the loop over the images: the part appended to the
    content, if any. *)
Definition image_part (img : pyval) : res (option pyval) :=
  has_url <- py_in "url" img ;;
  if has_url then
    url <- py_item img "url" ;;
    Ok (Some (image_url_part url))
  else
    has_base64 <- py_in "base64" img ;;
    if has_base64 then
      mime <- py_get_or img "mime" (PStr "image/png") ;;
      data <- py_item img "base64" ;;
      Ok (Some (image_url_part
                  (PStr (String.append "data:"
                           (String.append (py_format mime)
                              (String.append ";base64," (py_format data)))))))
    else
      _ <- py_keys img ;;
      Ok None.

(** The loop over the images: the parts appended, in order. *)
Fixpoint image_parts (images : list pyval) : res (list pyval) :=
  match images with
  | [] => Ok []
  | img :: rest =>
      part <- image_part img ;;
      parts <- image_parts rest ;;
      Ok match part with
         | Some p => p :: parts
         | None => parts
         end
  end.

(** [messages = [{"role": "user", "content": content}]]. *)
Definition vision_messages (prompt : string) (parts : list pyval) : pyval :=
  PList [PDict (<["role" := PStr "user"]>
                  {[ "content" := PList (text_part prompt :: parts) ]})].

(** [vision_query(prompt, images, model, max_tokens, reasoning_effort)]:
    [(text, usage)]. *)
Definition vision_query (h : host) (prompt : string) (images : list pyval)
  (model : string) (max_tokens : Z) (reasoning_effort : string)
  : M (pyval * gmap string pyval) :=
  mbind (lift (image_parts images)) (fun parts =>
  mbind (chat h (VLit (vision_messages prompt parts)) model (VLit PNone)
           reasoning_effort max_tokens "auto") (fun answered =>
  mbind (lift (py_get (fst answered) "content")) (fun content =>
  ret (py_or content (PStr ""), snd answered)))).

End vision.

(** A host whose chat-completion request fails in transport. *)
Definition host_failing : host :=
  {| environ := env_with_key;
     requests_installed := true;
     openai_installed := true;
     replies := fun _ => Reply 200 (Ok (generation_body (PFloat 0.25)));
     completion := Raise TransportError |}.

(** A generation record without a total cost, whose usage holds one. *)
Definition data_usage_cost : gmap string pyval :=
  <["total_cost" := PInt 0]> {[ "usage" := PDict {[ "cost" := PFloat 0.5 ]} ]}.

(** A response whose cached-token detail is not a number, and a host that
    answers with it. *)
Definition details_bad_cached : gmap string pyval :=
  {[ "cached_tokens" := PStr "many" ]}.

Definition usage_bad_cached : gmap string pyval :=
  {[ "prompt_tokens_details" := PDict details_bad_cached ]}.

Definition resp_bad_cached : gmap string pyval :=
  {[ "usage" := PDict usage_bad_cached ]}.

Definition host_bad_cached : host :=
  {| environ := env_with_key;
     requests_installed := true;
     openai_installed := true;
     replies := fun _ => NoReply TransportError;
     completion := Ok resp_bad_cached |}.

(** A catalogue whose second entry has a null id. *)
Definition catalogue_entries_bad : list pyval :=
  [PDict (list_to_map [("id", PStr "anthropic/claude-sonnet");
     ("pricing", PDict (list_to_map
        [("prompt", PStr "0.000003"); ("completion", PStr "0.000015")]))]);
   PDict (list_to_map [("id", PNone)])].

Definition catalogue_bad : pyval :=
  PDict {[ "data" := PList catalogue_entries_bad ]}.

(* ===================================================================== *)
(** * Properties of provider routing                                      *)
(* ===================================================================== *)

Section routing.
Variable env : gmap string string.

Lemma startswith_cons (c : ascii) (rest p : string) :
  startswith (String c rest) p =
  match p with
  | EmptyString => true
  | String a p' => if Ascii.ascii_dec a c then startswith rest p' else false
  end.
Proof. destruct p; reflexivity. Qed.

Ltac split_head c :=
  repeat match goal with
  | |- context [Ascii.ascii_dec ?a c] => destruct (Ascii.ascii_dec a c); subst
  end.

Lemma prefixes_exclusive (model : string) :
  (startswith model "openai/" = true ->
     startswith model "google/" = false /\ startswith model "gemini" = false /\
     startswith model "anthropic/" = false /\
     startswith_any model ["x-ai/"; "meta-llama/"; "qwen/"] = false) /\
  (startswith model "google/" || startswith model "gemini" = true ->
     startswith model "openai/" = false) /\
  (startswith model "anthropic/" = true ->
     startswith model "openai/" = false /\ startswith model "google/" = false /\
     startswith model "gemini" = false) /\
  (startswith_any model ["x-ai/"; "meta-llama/"; "qwen/"] = true ->
     startswith model "openai/" = false /\ startswith model "google/" = false /\
     startswith model "gemini" = false /\ startswith model "anthropic/" = false).
Proof.
  destruct model as [|c rest]; [cbn; intuition discriminate|].
  unfold startswith_any, existsb. rewrite !startswith_cons.
  split_head c; try discriminate; cbn; intuition (try discriminate; auto).
Qed.

Lemma detect_provider_anthropic (model : string) :
  startswith model "anthropic/" = true ->
  _detect_provider env model
    = (OPENROUTER_URL, environ_get env "OPENROUTER_API_KEY", model).
Proof.
  intros E. destruct (prefixes_exclusive model) as (_ & _ & Ha & _).
  destruct (Ha E) as (E1 & E2 & E3).
  unfold _detect_provider. now rewrite E1, E2, E3, E.
Qed.

(** C7: routing is total and follows the documented table: each
    recognised prefix yields its endpoint and credential, "openai/gpt-5"
    goes direct under the name "gpt-5", "anthropic/claude-3.7" goes to the
    aggregator under its full name, and an identifier with no recognised
    prefix falls back to the primary direct route under its own name. *)
Theorem detect_provider_total_documented (model : string) :
  (exists url key name, _detect_provider env model = (url, key, name)) /\
  (startswith model "openai/" = true ->
     _detect_provider env model =
       (OPENAI_URL, environ_get env "OPENAI_API_KEY", str_drop 7 model)) /\
  (startswith model "google/" || startswith model "gemini" = true ->
     exists name, _detect_provider env model =
       (GOOGLE_URL, environ_get env "GOOGLE_API_KEY", name)) /\
  (startswith model "anthropic/" = true ->
     _detect_provider env model =
       (OPENROUTER_URL, environ_get env "OPENROUTER_API_KEY", model)) /\
  (startswith_any model ["x-ai/"; "meta-llama/"; "qwen/"] = true ->
     _detect_provider env model =
       (OPENROUTER_URL, environ_get env "OPENROUTER_API_KEY", model)) /\
  (startswith_any model recognised_prefixes = false ->
     _detect_provider env model =
       (OPENAI_URL, environ_get env "OPENAI_API_KEY", model)) /\
  _detect_provider env "openai/gpt-5" =
    (OPENAI_URL, environ_get env "OPENAI_API_KEY", "gpt-5") /\
  _detect_provider env "anthropic/claude-3.7" =
    (OPENROUTER_URL, environ_get env "OPENROUTER_API_KEY", "anthropic/claude-3.7") /\
  _is_openrouter OPENROUTER_URL = true /\
  _is_openrouter OPENAI_URL = false /\ _is_openrouter GOOGLE_URL = false.
Proof.
  destruct (prefixes_exclusive model) as (Ho & Hg & Ha & Hx).
  repeat split; try reflexivity.
  - destruct (_detect_provider env model) as [[u k] n]. eauto.
  - intros E. unfold _detect_provider. now rewrite E.
  - intros E. unfold _detect_provider. rewrite (Hg E), E. eauto.
  - apply detect_provider_anthropic.
  - intros E. destruct (Hx E) as (E1 & E2 & E3 & E4).
    unfold _detect_provider. now rewrite E1, E2, E3, E4, E.
  - unfold recognised_prefixes, startswith_any. cbn [existsb].
    rewrite !orb_false_iff. intros (E1 & E2 & E3 & E4 & E5 & E6 & E7 & _).
    unfold _detect_provider, startswith_any. cbn [existsb].
    now rewrite E1, E2, E3, E4, E5, E6, E7.
Qed.

Lemma replace_from_absent old new s :
  contains old s = false -> replace_from old new O s = s.
Proof.
  induction s as [|c rest IH]; [reflexivity|].
  cbn [contains]. intros Hno. apply orb_false_iff in Hno as [Hp Hrest].
  cbn [replace_from]. rewrite Hp. now rewrite IH.
Qed.

Lemma replace_from_skip old new p : forall t,
  replace_from old new (String.length p) (String.append p t) = replace_from old new O t.
Proof.
  induction p as [|c p IH]; intros t; [reflexivity|].
  cbn. apply IH.
Qed.

Lemma prefix_append p t : String.prefix p (String.append p t) = true.
Proof.
  induction p as [|c p IH]; [now destruct t|].
  change (String.append (String c p) t) with (String c (String.append p t)).
  cbn [String.prefix]. destruct (Ascii.ascii_dec c c); [exact IH|contradiction].
Qed.

(** Where "google/" occurs only at the head of the identifier, or not at
    all, rule 2 yields the documented canonical name. *)
Lemma detect_provider_google_single (rest : string) :
  contains "google/" rest = false ->
  _detect_provider env (String.append "google/" rest)
    = (GOOGLE_URL, environ_get env "GOOGLE_API_KEY", rest) /\
  (startswith rest "gemini" = true ->
   _detect_provider env rest = (GOOGLE_URL, environ_get env "GOOGLE_API_KEY", rest)).
Proof.
  intros Hno. split.
  - unfold _detect_provider, replace.
    change (String.append "google/" rest)
      with (String "g" (String.append "oogle/" rest)).
    cbn -[String.append]. change 6%nat with (String.length "oogle/").
    rewrite replace_from_skip, prefix_append, replace_from_absent by assumption.
    reflexivity.
  - intros Hg. destruct (prefixes_exclusive rest) as (_ & Hx & _).
    unfold _detect_provider. rewrite Hx, Hg by (rewrite Hg; apply orb_true_r).
    rewrite orb_true_r. unfold replace. now rewrite replace_from_absent.
Qed.

(** C5 (at the failing inputs): rule 2 removes every occurrence of
    "google/", not only a leading one.  "gemini-google/exp" has no leading
    "google/" and still loses the inner one; "google/models/google/gemma"
    loses both. *)
Theorem detect_provider_google_replaces_all :
  startswith "gemini-google/exp" "gemini" = true /\
  _detect_provider env "gemini-google/exp"
    = (GOOGLE_URL, environ_get env "GOOGLE_API_KEY", "gemini-exp") /\
  strip_leading_google "gemini-google/exp" = "gemini-google/exp" /\
  _detect_provider env "google/models/google/gemma"
    = (GOOGLE_URL, environ_get env "GOOGLE_API_KEY", "models/gemma") /\
  strip_leading_google "google/models/google/gemma" = "models/google/gemma".
Proof. repeat split; reflexivity. Qed.

End routing.


(* ===================================================================== *)
(** * Properties of usage accumulation                                    *)
(* ===================================================================== *)

Section accumulation_facts.
Context `{StrConv}.

Implicit Types total usage : gmap string pyval.

Lemma counter_of_insert_ne total k k' v :
  k ≠ k' -> counter_of (<[k := v]> total) k' = counter_of total k'.
Proof. intros Hne. unfold counter_of, dict_get. now rewrite lookup_insert_ne. Qed.

Lemma counter_of_insert_int total k n :
  counter_of (<[k := PInt n]> total) k = Ok n.
Proof.
  unfold counter_of, dict_get, py_or. rewrite lookup_insert_eq. cbn.
  destruct (Z.eqb_spec n 0) as [->|]; reflexivity.
Qed.

(** The counters outside [keys] are not touched, whatever the outcome. *)
Lemma add_counters_frame keys total usage k :
  k ∉ keys -> fst (add_counters keys total usage) !! k = total !! k.
Proof.
  revert total. induction keys as [|k0 ks IH]; intros total Hk; [reflexivity|].
  apply not_elem_of_cons in Hk as [Hne Hks]. cbn.
  unfold add_counter.
  destruct (counter_of total k0) as [a|e]; cbn; [|reflexivity].
  destruct (counter_of usage k0) as [b|e]; cbn; [|reflexivity].
  rewrite IH by assumption. now apply lookup_insert_ne.
Qed.

(** When the loop completes, each counter of [keys] holds the sum of the
    two values read for it. *)
Lemma add_counters_sum keys total usage total' :
  NoDup keys ->
  add_counters keys total usage = (total', Ok tt) ->
  forall k, k ∈ keys ->
    exists a b, counter_of total k = Ok a /\ counter_of usage k = Ok b /\
                total' !! k = Some (PInt (a + b)).
Proof.
  intros Hnd. revert total. induction Hnd as [|k0 ks Hnotin Hnd IH];
    intros total Hrun k Hk; [now apply elem_of_nil in Hk|].
  cbn in Hrun. unfold add_counter in Hrun.
  destruct (counter_of total k0) as [a|e] eqn:Ea; cbn in Hrun; [|discriminate].
  destruct (counter_of usage k0) as [b|e] eqn:Eb; cbn in Hrun; [|discriminate].
  apply elem_of_cons in Hk as [->|Hk].
  - exists a, b. repeat split; try assumption.
    pose proof (add_counters_frame ks (<[k0:=PInt (a + b)]> total) usage k0 Hnotin) as Hfr.
    rewrite Hrun in Hfr. cbn in Hfr. rewrite Hfr. apply lookup_insert_eq.
  - destruct (IH _ Hrun k Hk) as (a' & b' & Ha' & Hb' & Hl).
    exists a', b'. repeat split; try assumption.
    rewrite <- Ha'. symmetry. apply counter_of_insert_ne.
    intros ->. contradiction.
Qed.

(** The loop reads [usage] only at the keys it visits. *)
Lemma add_counters_ext keys total usage usage' :
  (forall k, k ∈ keys -> usage !! k = usage' !! k) ->
  add_counters keys total usage = add_counters keys total usage'.
Proof.
  revert total. induction keys as [|k0 ks IH]; intros total Hext; [reflexivity|].
  cbn. unfold add_counter, counter_of at 2 4, dict_get.
  rewrite (Hext k0) by (apply elem_of_cons; now left).
  destruct (counter_of total k0); cbn; [|reflexivity].
  destruct (py_int _); cbn; [|reflexivity].
  apply IH. intros k Hk. apply Hext. apply elem_of_cons. now right.
Qed.

Lemma USAGE_KEYS_NoDup : NoDup USAGE_KEYS.
Proof. apply (bool_decide_unpack _). vm_compute. reflexivity. Qed.

Lemma cost_not_counter : "cost" ∉ USAGE_KEYS.
Proof. apply (bool_decide_unpack _). vm_compute. reflexivity. Qed.

Lemma counter_not_cost k : k ∈ USAGE_KEYS -> k ≠ "cost".
Proof. intros Hk ->. now apply cost_not_counter. Qed.

(** One call: every counter of the total becomes the sum of what was read. *)
Lemma add_usage_counter total usage total' k :
  add_usage total usage = (total', Ok tt) -> k ∈ USAGE_KEYS ->
  exists a b, counter_of total k = Ok a /\ counter_of usage k = Ok b /\
              total' !! k = Some (PInt (a + b)).
Proof.
  unfold add_usage. intros Hrun Hk.
  destruct (add_counters USAGE_KEYS total usage) as [t1 [[]|e]] eqn:Eloop;
    [|discriminate].
  destruct (add_counters_sum _ _ _ _ USAGE_KEYS_NoDup Eloop k Hk)
    as (a & b & Ha & Hb & Hl).
  exists a, b. repeat split; try assumption.
  destruct (truthy (dict_get usage "cost")).
  - destruct (cost_sum t1 usage); inversion Hrun; subst.
    rewrite lookup_insert_ne; [assumption|].
    intros E. now apply (counter_not_cost k).
  - now inversion Hrun; subst.
Qed.

(** A falsy cost (absent, null or zero) leaves the total's cost as it was. *)
Lemma add_usage_cost_kept total usage :
  truthy (dict_get usage "cost") = false ->
  fst (add_usage total usage) !! "cost" = total !! "cost".
Proof.
  intros Hc. unfold add_usage. rewrite Hc.
  pose proof (add_counters_frame USAGE_KEYS total usage "cost" cost_not_counter) as Hfr.
  destruct (add_counters USAGE_KEYS total usage) as [t1 [[]|e]]; exact Hfr.
Qed.

Lemma counter_of_stored total k n :
  total !! k = Some (PInt n) -> counter_of total k = Ok n.
Proof.
  intros Hl. unfold counter_of, dict_get, py_or. rewrite Hl. cbn.
  destruct (Z.eqb_spec n 0) as [->|]; reflexivity.
Qed.

Lemma counter_of_val total k n : counter_of total k = Ok n -> counter_val total k = n.
Proof. unfold counter_val. now intros ->. Qed.

(** A whole pass: each counter ends at its start value plus the sum over
    the records. *)
Lemma add_usage_all_counter records : forall total total' k a,
  add_usage_all total records = (total', Ok tt) -> k ∈ USAGE_KEYS ->
  counter_of total k = Ok a ->
  counter_of total' k = Ok (a + counter_total k records).
Proof.
  induction records as [|u us IH]; intros total total' k a Hrun Hk Hstart.
  - inversion Hrun; subst. cbn. now rewrite Z.add_0_r.
  - cbn in Hrun. destruct (add_usage total u) as [t1 [[]|e]] eqn:Eone; [|discriminate].
    destruct (add_usage_counter _ _ _ k Eone Hk) as (a' & b & Ha & Hb & Hl).
    rewrite Hstart in Ha. inversion Ha; subst a'.
    assert (Hc1 : counter_of t1 k = Ok (a + b)) by now apply counter_of_stored.
    rewrite (IH t1 total' k (a + b) Hrun Hk Hc1).
    change (counter_total k (u :: us)) with (counter_val u k + counter_total k us).
    rewrite (counter_of_val _ _ _ Hb). f_equal. lia.
Qed.

Lemma counter_total_perm k (xs ys : list (gmap string pyval)) :
  Permutation xs ys -> counter_total k xs = counter_total k ys.
Proof.
  unfold counter_total.
  induction 1 as [|u xs ys _ IH|u v xs|xs ys zs _ IH1 _ IH2]; cbn [foldr].
  - reflexivity.
  - now rewrite IH.
  - lia.
  - now rewrite IH1.
Qed.

Lemma add_usage_all_app total xs ys :
  add_usage_all total (xs ++ ys) = then_add_all (add_usage_all total xs) ys.
Proof.
  revert total. induction xs as [|u us IH]; intros total; [reflexivity|].
  cbn. destruct (add_usage total u) as [t1 [[]|e]]; [apply IH|reflexivity].
Qed.

Lemma add_usage_all_stored us : forall u total total' k a,
  add_usage_all total (u :: us) = (total', Ok tt) -> k ∈ USAGE_KEYS ->
  counter_of total k = Ok a ->
  total' !! k = Some (PInt (a + counter_total k (u :: us))).
Proof.
  induction us as [|u' us IH]; intros u total total' k a Hrun Hk Hstart;
    cbn [add_usage_all] in Hrun;
    destruct (add_usage total u) as [t1 [[]|e]] eqn:Eone; try discriminate;
    destruct (add_usage_counter _ _ _ k Eone Hk) as (a' & b & Ha & Hb & Hl);
    rewrite Hstart in Ha; inversion Ha; subst a';
    change (counter_total k (u :: ?l)) with (counter_val u k + counter_total k l);
    rewrite (counter_of_val _ _ _ Hb).
  - inversion Hrun; subst. rewrite Hl. cbn. do 2 f_equal. lia.
  - assert (Hc1 : counter_of t1 k = Ok (a + b)) by now apply counter_of_stored.
    rewrite (IH u' t1 total' k (a + b) Hrun Hk Hc1). do 2 f_equal. lia.
Qed.

(** When every counter converts, the loop over the counters completes. *)
Lemma add_counters_succeeds keys total usage :
  NoDup keys ->
  (forall k, k ∈ keys ->
     exists a b, counter_of total k = Ok a /\ counter_of usage k = Ok b) ->
  snd (add_counters keys total usage) = Ok tt.
Proof.
  intros Hnd. revert total. induction Hnd as [|k0 ks Hnotin Hnd IH];
    intros total Hconv; [reflexivity|].
  cbn. unfold add_counter.
  destruct (Hconv k0) as (a & b & Ha & Hb); [apply elem_of_cons; now left|].
  rewrite Ha, Hb. cbn. apply IH. intros k Hk.
  destruct (Hconv k) as (a' & b' & Ha' & Hb'); [apply elem_of_cons; now right|].
  exists a', b'. split; [|assumption].
  rewrite counter_of_insert_ne; [assumption|]. intros ->. contradiction.
Qed.

(** C8: accumulation is associative.  Accumulating a sequence in two
    passes, however it is split, is accumulating it in one pass; each
    integer counter ends at its start value plus the sum of that counter
    over the records, so the counters do not depend on the order either;
    merging sub-totals gives the same counters whichever pair is merged
    first; and a record without a cost leaves the accumulated cost as it
    was. *)
Theorem add_usage_associative :
  (forall total xs ys,
     add_usage_all total (xs ++ ys) = then_add_all (add_usage_all total xs) ys) /\
  (forall total A B C,
     then_add_all (add_usage_all total [A; B]) [C] = add_usage_all total [A; B; C] /\
     then_add_all (add_usage_all total [A]) [B; C] = add_usage_all total [A; B; C] /\
     then_add_all (then_add_all (add_usage total A) [B]) [C]
       = add_usage_all total [A; B; C]) /\
  (forall total records total' k a,
     k ∈ USAGE_KEYS ->
     add_usage_all total records = (total', Ok tt) ->
     counter_of total k = Ok a ->
     counter_of total' k = Ok (a + counter_total k records) /\
     (records <> [] -> total' !! k = Some (PInt (a + counter_total k records)))) /\
  (forall total xs ys t1 t2 k,
     k ∈ USAGE_KEYS -> Permutation xs ys ->
     add_usage_all total xs = (t1, Ok tt) ->
     add_usage_all total ys = (t2, Ok tt) ->
     t1 !! k = t2 !! k) /\
  (forall A B C AB AB_C BC A_BC k,
     k ∈ USAGE_KEYS ->
     add_usage A B = (AB, Ok tt) -> add_usage AB C = (AB_C, Ok tt) ->
     add_usage B C = (BC, Ok tt) -> add_usage A BC = (A_BC, Ok tt) ->
     AB_C !! k = A_BC !! k) /\
  (forall total usage,
     usage !! "cost" = None ->
     fst (add_usage total usage) !! "cost" = total !! "cost").
Proof.
  split; [exact add_usage_all_app|].
  split.
  { intros total A B C. repeat split.
    - symmetry. apply (add_usage_all_app total [A; B] [C]).
    - symmetry. apply (add_usage_all_app total [A] [B; C]).
    - cbn. destruct (add_usage total A) as [t1 [[]|e]]; cbn; [|reflexivity].
      destruct (add_usage t1 B) as [t2 [[]|e]]; cbn; reflexivity. }
  split.
  { intros total records total' k a Hk Hrun Ha. split.
    - now apply (add_usage_all_counter records total).
    - destruct records as [|u us]; [congruence|]. intros _.
      now apply (add_usage_all_stored us u total). }
  split.
  { intros total xs ys t1 t2 k Hk Hperm Hx Hy.
    destruct xs as [|x xs].
    - apply Permutation_nil in Hperm. subst ys.
      cbn in Hx, Hy. congruence.
    - destruct ys as [|y ys]; [now apply Permutation_sym, Permutation_nil in Hperm|].
      assert (exists a, counter_of total k = Ok a) as [a Ha].
      { cbn in Hx. destruct (add_usage total x) as [t [[]|e]] eqn:E; [|discriminate].
        destruct (add_usage_counter _ _ _ k E Hk) as (a & _ & Ha & _). eauto. }
      rewrite (add_usage_all_stored xs x total t1 k a Hx Hk Ha).
      rewrite (add_usage_all_stored ys y total t2 k a Hy Hk Ha).
      now rewrite (counter_total_perm k _ _ Hperm). }
  split.
  { intros A B C AB AB_C BC A_BC k Hk H1 H2 H3 H4.
    destruct (add_usage_counter _ _ _ k H1 Hk) as (a & b & Ha & Hb & Hab).
    destruct (add_usage_counter _ _ _ k H2 Hk) as (ab & c & Hab' & Hc & Habc).
    destruct (add_usage_counter _ _ _ k H3 Hk) as (b' & c' & Hb' & Hc' & Hbc).
    destruct (add_usage_counter _ _ _ k H4 Hk) as (a' & bc & Ha' & Hbc' & Ha_bc).
    rewrite (counter_of_stored _ _ _ Hab) in Hab'.
    rewrite (counter_of_stored _ _ _ Hbc) in Hbc'.
    rewrite Habc, Ha_bc. do 2 f_equal.
    assert (ab = a + b) by congruence. assert (bc = b' + c') by congruence.
    assert (a' = a) by congruence. assert (b' = b) by congruence.
    assert (c' = c) by congruence. lia. }
  intros total usage Hc. apply add_usage_cost_kept.
  unfold dict_get. now rewrite Hc.
Qed.

(** C10: a cost that is reported as zero is treated exactly like an absent
    cost: the call behaves as on the record without its cost entry, the
    total's cost entry stays as it was (none stays none), and the integer
    counters are added. *)
Theorem zero_cost_like_absent total usage v :
  usage !! "cost" = Some v -> zero_cost v = true ->
  add_usage total usage = add_usage total (delete "cost" usage) /\
  fst (add_usage total usage) !! "cost" = total !! "cost" /\
  (total !! "cost" = None -> fst (add_usage total usage) !! "cost" = None) /\
  ((forall k, k ∈ USAGE_KEYS ->
      exists a b, counter_of total k = Ok a /\ counter_of usage k = Ok b) ->
   snd (add_usage total usage) = Ok tt /\
   forall k, k ∈ USAGE_KEYS ->
     fst (add_usage total usage) !! k
       = Some (PInt (counter_val total k + counter_val usage k))).
Proof.
  intros Hv Hz.
  assert (Hfalsy : truthy (dict_get usage "cost") = false).
  { unfold dict_get. rewrite Hv. cbn. destruct v; cbn in *; try discriminate.
    - now rewrite Hz.
    - now rewrite Hz. }
  assert (Hkept : fst (add_usage total usage) !! "cost" = total !! "cost")
    by now apply add_usage_cost_kept.
  split; [|split; [exact Hkept|split; [intros E; now rewrite Hkept|]]].
  - unfold add_usage. rewrite Hfalsy.
    unfold dict_get. rewrite lookup_delete_eq. cbn [default truthy].
    rewrite (add_counters_ext USAGE_KEYS total usage (delete "cost" usage)).
    + reflexivity.
    + intros k Hk. rewrite lookup_delete_ne; [reflexivity|].
      intros E. now apply (counter_not_cost k).
  - intros Hconv.
    pose proof (add_counters_succeeds _ _ _ USAGE_KEYS_NoDup Hconv) as Hok.
    assert (Hrun : add_usage total usage = (fst (add_usage total usage), Ok tt)).
    { unfold add_usage. rewrite Hfalsy.
      destruct (add_counters USAGE_KEYS total usage) as [t1 r]. cbn in Hok.
      now subst r. }
    split; [now rewrite Hrun|].
    intros k Hk.
    destruct (add_usage_counter _ _ _ k Hrun Hk) as (a & b & Ha & Hb & Hl).
    now rewrite Hl, (counter_of_val _ _ _ Ha), (counter_of_val _ _ _ Hb).
Qed.

End accumulation_facts.

Lemma add_usage_associative_witness :
  counter_of (H := decimal_conv)
    (fst (add_usage_all (H := decimal_conv) total_ten [rec_A; rec_B; rec_C]))
    "prompt_tokens" = Ok 22.
Proof.
  destruct (add_usage_associative (H := decimal_conv)) as (_ & _ & Hsum & _).
  destruct (Hsum total_ten [rec_A; rec_B; rec_C]
              (fst (add_usage_all (H := decimal_conv) total_ten [rec_A; rec_B; rec_C]))
              "prompt_tokens" 10) as [Hc _].
  - apply (bool_decide_unpack _). vm_compute. reflexivity.
  - vm_compute. reflexivity.
  - vm_compute. reflexivity.
  - exact Hc.
Defined.

Lemma zero_cost_like_absent_witness :
  rec_free !! "cost" = Some (PFloat 0) /\
  fst (add_usage (H := decimal_conv) total_ten rec_free) !! "cost" = None /\
  fst (add_usage (H := decimal_conv) total_ten rec_free) !! "prompt_tokens"
    = Some (PInt 15).
Proof.
  assert (Hv : rec_free !! "cost" = Some (PFloat 0)) by (vm_compute; reflexivity).
  destruct (zero_cost_like_absent (H := decimal_conv) total_ten rec_free (PFloat 0) Hv)
    as (_ & _ & Hnone & Hadd); [vm_compute; reflexivity|].
  split; [exact Hv|]. split.
  - apply Hnone. vm_compute. reflexivity.
  - destruct Hadd as [_ Hk].
    + intros k Hk. apply list_elem_of_In in Hk. cbn in Hk.
      repeat (destruct Hk as [<-|Hk]; [eexists _, _; split; vm_compute; reflexivity|]).
      contradiction.
    + rewrite (Hk "prompt_tokens"); [vm_compute; reflexivity|].
      apply (bool_decide_unpack _). vm_compute. reflexivity.
Defined.


(* ===================================================================== *)
(** * Properties of the pricing fetch                                     *)
(* ===================================================================== *)


Section pricing_facts.
Context `{StrConv}.

Lemma dict_truthy_lookup (d : gmap string pyval) k v :
  d !! k = Some v -> truthy (PDict d) = true.
Proof.
  intros Hl. cbn. apply negb_true_iff, bool_decide_eq_false.
  intros ->. now rewrite lookup_empty in Hl.
Qed.




Lemma fetch_pricing_cases env inst reply :
  fetch_openrouter_pricing env inst reply = Ok ∅ \/
  (exists d, pricing_request reply = Ok d /\
             fetch_openrouter_pricing env inst reply = Ok d).
Proof.
  unfold fetch_openrouter_pricing.
  destruct (negb _); [now left|].
  destruct inst; cbn; [|now left].
  destruct (pricing_request reply) as [d|e]; cbn; [right; eauto|now left].
Qed.


End pricing_facts.


(* ===================================================================== *)
(** * Properties of cost reconciliation                                   *)
(* ===================================================================== *)

Section reconciliation_facts.
Context `{StrConv}.
Import LLMClient.

Lemma count_gets_app (xs ys : list event) :
  count_gets (xs ++ ys) = (count_gets xs + count_gets ys)%nat.
Proof. unfold count_gets. now rewrite filter_app, length_app. Qed.

Lemma count_gets_get url key t : count_gets [EvGet url key t] = 1%nat.
Proof. reflexivity. Qed.

Lemma count_gets_sleep ms : count_gets [EvSleep ms] = 0%nat.
Proof. reflexivity. Qed.

Lemma lookup_cost_run h url key w :
  lookup_cost h url key w =
    (attempt_outcome (replies h (count_gets (trace w))),
     record_event w (EvGet url key 5)).
Proof.
  unfold lookup_cost, mbind, requests_get, lift, attempt_outcome.
  destruct (replies h (count_gets (trace w))); reflexivity.
Qed.

(** The look-up, run: which requests are made and what is returned. *)
Lemma fetch_generation_cost_run h gid base key w :
  let url := generation_url base gid in
  let n := count_gets (trace w) in
  let w1 := record_event w (EvGet url key 5) in
  let w3 := record_event (record_event w1 (EvSleep 500)) (EvGet url key 5) in
  _fetch_generation_cost h gid base key w =
    if negb (_is_openrouter base) then (Ok None, w)
    else if negb (requests_installed h) then (Ok None, w)
    else
      match attempt_outcome (replies h n) with
      | Raise _ => (Ok None, w1)
      | Ok (Some c) => (Ok (Some c), w1)
      | Ok None =>
          match attempt_outcome (replies h (S n)) with
          | Ok r => (Ok r, w3)
          | Raise _ => (Ok None, w3)
          end
      end.
Proof.
  intros url n w1 w3. unfold _fetch_generation_cost.
  destruct (negb (_is_openrouter base)); [reflexivity|].
  unfold catch, mbind at 1, lift, import_requests.
  destruct (requests_installed h); cbn [negb]; [|reflexivity].
  unfold mbind at 1. rewrite lookup_cost_run. fold url n w1.
  destruct (attempt_outcome (replies h n)) as [[c|]|e]; try reflexivity.
  unfold mbind, sleep. rewrite lookup_cost_run.
  assert (Hn : count_gets (trace (record_event w1 (EvSleep 500))) = S n).
  { subst w1 n. cbn [record_event trace]. rewrite !count_gets_app.
    rewrite count_gets_get, count_gets_sleep. lia. }
  rewrite Hn. fold w3.
  destruct (attempt_outcome (replies h (S n))) as [r|e]; reflexivity.
Qed.

(** C2: cost reconciliation makes at most two look-ups, the second only
    after a first one that yielded no usable cost and after a pause of
    500 ms; it makes none when the route is not the aggregator; it never
    raises; and it returns nothing when neither attempt yields a cost,
    be it by a failed request, a time-out, a non-success status or a
    malformed body. *)
Theorem fetch_generation_cost_bounded h gid base key w :
  let run := _fetch_generation_cost h gid base key w in
  let url := generation_url base gid in
  let n := count_gets (trace w) in
  (exists r, fst run = Ok r) /\
  heap (snd run) = heap w /\ clients (snd run) = clients w /\
  (trace (snd run) = trace w \/
   trace (snd run) = (trace w ++ [EvGet url key 5])%list \/
   (trace (snd run)
      = (trace w ++ [EvGet url key 5; EvSleep 500; EvGet url key 5])%list /\
    attempt_outcome (replies h n) = Ok None)) /\
  (count_gets (trace (snd run)) <= count_gets (trace w) + 2)%nat /\
  (_is_openrouter base = false -> run = (Ok None, w)) /\
  (no_cost (replies h n) -> no_cost (replies h (S n)) -> fst run = Ok None) /\
  (forall e, no_cost (NoReply e)) /\
  (forall status body, status <> 200 -> no_cost (Reply status body)) /\
  (forall e, no_cost (Reply 200 (Raise e))).
Proof.
  intros run url n. subst run.
  rewrite (fetch_generation_cost_run h gid base key w). cbv zeta. fold url n.
  repeat split.
  - destruct (negb (_is_openrouter base)); [eauto|].
    destruct (negb (requests_installed h)); [eauto|].
    destruct (attempt_outcome (replies h n)) as [[c|]|e]; eauto.
    destruct (attempt_outcome (replies h (S n))) as [r|e]; eauto.
  - destruct (negb (_is_openrouter base)); [reflexivity|].
    destruct (negb (requests_installed h)); [reflexivity|].
    destruct (attempt_outcome (replies h n)) as [[c|]|e]; try reflexivity.
    destruct (attempt_outcome (replies h (S n))) as [r|e]; reflexivity.
  - destruct (negb (_is_openrouter base)); [reflexivity|].
    destruct (negb (requests_installed h)); [reflexivity|].
    destruct (attempt_outcome (replies h n)) as [[c|]|e]; try reflexivity.
    destruct (attempt_outcome (replies h (S n))) as [r|e]; reflexivity.
  - destruct (negb (_is_openrouter base)); [now left|].
    destruct (negb (requests_installed h)); [now left|].
    destruct (attempt_outcome (replies h n)) as [[c|]|e] eqn:E1;
      [right; left; reflexivity| |right; left; reflexivity].
    right; right. split; [|reflexivity].
    destruct (attempt_outcome (replies h (S n))) as [r|e];
      cbn [snd record_event trace]; rewrite <- !app_assoc; reflexivity.
  - destruct (negb (_is_openrouter base)); [cbn [snd]; lia|].
    destruct (negb (requests_installed h)); [cbn [snd]; lia|].
    destruct (attempt_outcome (replies h n)) as [[c|]|e];
      try (cbn [snd record_event trace]; rewrite count_gets_app, count_gets_get; lia).
    destruct (attempt_outcome (replies h (S n))) as [r|e];
      cbn [snd record_event trace];
      rewrite !count_gets_app, !count_gets_get, count_gets_sleep; lia.
  - intros ->. reflexivity.
  - intros H1 H2.
    destruct (negb (_is_openrouter base)); [reflexivity|].
    destruct (negb (requests_installed h)); [reflexivity|].
    destruct (attempt_outcome (replies h n)) as [[c|]|e] eqn:E1;
      [now destruct (H1 c)| |reflexivity].
    destruct (attempt_outcome (replies h (S n))) as [[c|]|e] eqn:E2;
      [now destruct (H2 c)|reflexivity|reflexivity].
  - intros e c. discriminate.
  - intros status body Hst c. cbn. unfold cost_of_response.
    destruct (Z.eqb_spec status 200); [contradiction|discriminate].
  - intros e c. cbn. discriminate.
Qed.

End reconciliation_facts.

Lemma fetch_generation_cost_bounded_witness :
  fst (LLMClient._fetch_generation_cost (H := decimal_conv) host_down
         "gen-1" OPENROUTER_URL "sk" empty_world) = Ok None /\
  LLMClient._fetch_generation_cost (H := decimal_conv) host_late_cost
    "gen-1" OPENROUTER_URL "sk" empty_world
  = (Ok (Some 0.25%float),
     {| heap := ∅; clients := ∅;
        trace := [EvGet "https://openrouter.ai/api/v1/generation?id=gen-1" "sk" 5;
                  EvSleep 500;
                  EvGet "https://openrouter.ai/api/v1/generation?id=gen-1" "sk" 5] |}).
Proof.
  split; [|vm_compute; reflexivity].
  pose proof (fetch_generation_cost_bounded (H := decimal_conv) host_down
                "gen-1" OPENROUTER_URL "sk" empty_world) as Hb.
  cbv zeta in Hb.
  destruct Hb as (_ & _ & _ & _ & _ & _ & Hnone & _ & Hstatus & _).
  apply Hnone.
  - apply Hstatus. discriminate.
  - intros c. discriminate.
Defined.

(* ===================================================================== *)
(** * Properties of usage normalisation                                   *)
(* ===================================================================== *)

Section normalisation_facts.
Context `{StrConv}.
Import LLMClient.

Implicit Types usage reported : gmap string pyval.

(** Each promotion leaves the record as it is or sets its own key to an
    integer. *)
Lemma promote_cached_result usage usage' :
  promote_cached usage = Ok usage' ->
  usage' = usage \/ exists n, usage' = <["cached_tokens" := PInt n]> usage.
Proof.
  unfold promote_cached. intros Hrun.
  destruct (negb _); [|inversion Hrun; now left].
  destruct (py_or _ _) as [| | | | | |details]; try (inversion Hrun; now left).
  destruct (truthy _); [|inversion Hrun; now left].
  destruct (py_int _) as [n|]; cbn [bind] in Hrun; [|discriminate].
  inversion Hrun. right. eauto.
Qed.

Lemma promote_cache_write_result usage usage' :
  promote_cache_write usage = Ok usage' ->
  usage' = usage \/ exists n, usage' = <["cache_write_tokens" := PInt n]> usage.
Proof.
  unfold promote_cache_write. intros Hrun.
  destruct (negb _); [|inversion Hrun; now left].
  destruct (py_or (dict_get usage "prompt_tokens_details") _)
    as [| | | | | |details]; try (inversion Hrun; now left).
  destruct (truthy _); [|inversion Hrun; now left].
  destruct (py_int _) as [n|]; cbn [bind] in Hrun; [|discriminate].
  inversion Hrun. right. eauto.
Qed.

Lemma normalize_usage_inv resp msg usage :
  normalize_usage resp = Ok (msg, usage) ->
  exists reported u1,
    response_message resp = Ok msg /\ response_usage resp = Ok reported /\
    promote_cached reported = Ok u1 /\ promote_cache_write u1 = Ok usage.
Proof.
  unfold normalize_usage. intros Hrun.
  destruct (response_message resp) as [m|]; cbn [bind] in Hrun; [|discriminate].
  destruct (response_usage resp) as [u0|]; cbn [bind] in Hrun; [|discriminate].
  destruct (promote_cached u0) as [u1|] eqn:E1; cbn [bind] in Hrun; [|discriminate].
  destruct (promote_cache_write u1) as [u2|] eqn:E2; cbn [bind] in Hrun; [|discriminate].
  inversion Hrun; subst. exists u0, u1. repeat split; assumption.
Qed.

Lemma counter_of_absent usage k : usage !! k = None -> counter_of usage k = Ok 0.
Proof. intros Hk. unfold counter_of, dict_get. now rewrite Hk. Qed.

Lemma first_truthy_or (d : gmap string pyval) :
  py_or (dict_get d "cache_write_tokens")
    (py_or (dict_get d "cache_creation_tokens")
       (dict_get d "cache_creation_input_tokens"))
  = match first_truthy d CACHE_WRITE_KEYS with
    | Some v => v
    | None => dict_get d "cache_creation_input_tokens"
    end.
Proof.
  unfold py_or. cbn [first_truthy CACHE_WRITE_KEYS].
  destruct (truthy (dict_get d "cache_write_tokens")); [reflexivity|].
  destruct (truthy (dict_get d "cache_creation_tokens")); [reflexivity|].
  destruct (truthy (dict_get d "cache_creation_input_tokens")); reflexivity.
Qed.

Lemma first_truthy_truthy (d : gmap string pyval) keys v :
  first_truthy d keys = Some v -> truthy v = true.
Proof.
  induction keys as [|k ks IH]; cbn; [discriminate|].
  destruct (truthy (dict_get d k)) eqn:E; [|exact IH].
  intros Hv; inversion Hv; subst. exact E.
Qed.

(** C1 (amended): the record that normalisation returns is the usage body
    of the provider with at most [cached_tokens] and [cache_write_tokens]
    set by promotion.  A counter that the provider omitted and that is not
    promoted stays absent, and the accumulator reads it as 0.  A body with
    only [total_tokens = 42] comes back as it is: the other four counters
    and the cost are absent. *)
Theorem normalize_usage_counters :
  (forall resp msg usage,
     normalize_usage resp = Ok (msg, usage) ->
     exists reported,
       response_usage resp = Ok reported /\
       (forall k, k <> "cached_tokens" -> k <> "cache_write_tokens" ->
          usage !! k = reported !! k) /\
       (usage !! "cached_tokens" = reported !! "cached_tokens" \/
        exists n, usage !! "cached_tokens" = Some (PInt n)) /\
       (usage !! "cache_write_tokens" = reported !! "cache_write_tokens" \/
        exists n, usage !! "cache_write_tokens" = Some (PInt n)) /\
       usage !! "cost" = reported !! "cost" /\
       (forall k, usage !! k = None -> counter_of usage k = Ok 0)) /\
  (forall resp msg reported,
     response_message resp = Ok msg ->
     response_usage resp = Ok reported ->
     truthy (dict_get reported "prompt_tokens_details") = false ->
     normalize_usage resp = Ok (msg, reported)) /\
  normalize_usage resp_total_only = Ok (PDict ∅, {[ "total_tokens" := PInt 42 ]}) /\
  (forall usage,
     usage = {[ "total_tokens" := PInt 42 ]} ->
     usage !! "total_tokens" = Some (PInt 42) /\
     usage !! "prompt_tokens" = None /\ usage !! "completion_tokens" = None /\
     usage !! "cached_tokens" = None /\ usage !! "cache_write_tokens" = None /\
     usage !! "cost" = None).
Proof.
  split.
  { intros resp msg usage Hrun.
    destruct (normalize_usage_inv _ _ _ Hrun) as (reported & u1 & _ & Hu & H1 & H2).
    exists reported. split; [exact Hu|].
    apply promote_cached_result in H1. apply promote_cache_write_result in H2.
    repeat split.
    - intros k Hk1 Hk2.
      destruct H2 as [->|[n2 ->]], H1 as [->|[n1 ->]];
        rewrite ?lookup_insert_ne by congruence; reflexivity.
    - destruct H2 as [->|[n2 ->]], H1 as [->|[n1 ->]];
        rewrite ?(lookup_insert_ne _ "cache_write_tokens") by discriminate;
        rewrite ?lookup_insert_eq; eauto.
    - destruct H2 as [->|[n2 ->]], H1 as [->|[n1 ->]];
        rewrite ?lookup_insert_eq; eauto;
        rewrite ?(lookup_insert_ne _ "cached_tokens") by discriminate; eauto.
    - destruct H2 as [->|[n2 ->]], H1 as [->|[n1 ->]];
        rewrite ?lookup_insert_ne by discriminate; reflexivity.
    - intros k. apply counter_of_absent. }
  split.
  { intros resp msg reported Hm Hu Hd.
    unfold normalize_usage. rewrite Hm, Hu. cbn [bind].
    assert (Hor : py_or (dict_get reported "prompt_tokens_details") (PDict ∅) = PDict ∅).
    { unfold py_or. now rewrite Hd. }
    assert (H1 : promote_cached reported = Ok reported).
    { unfold promote_cached. rewrite Hor. now destruct (negb _). }
    assert (H2 : promote_cache_write reported = Ok reported).
    { unfold promote_cache_write. rewrite Hor. now destruct (negb _). }
    now rewrite H1; cbn [bind]; rewrite H2. }
  split; [vm_compute; reflexivity|].
  intros usage ->. repeat split; reflexivity.
Qed.

(** C6 (amended): when the top-level [cache_write_tokens] is absent or
    zero, the nested details are searched under [cache_write_tokens],
    [cache_creation_tokens] and [cache_creation_input_tokens] in this
    order, and the first value that is non-zero (truthy) is promoted,
    converted by [int]; a value that is present but zero is passed over,
    and when no value is non-zero nothing is promoted. *)
Theorem cache_write_promotes_first_truthy usage :
  (truthy (dict_get usage "cache_write_tokens") = true ->
   promote_cache_write usage = Ok usage) /\
  (forall details,
     truthy (dict_get usage "cache_write_tokens") = false ->
     py_or (dict_get usage "prompt_tokens_details") (PDict ∅) = PDict details ->
     promote_cache_write usage =
       match first_truthy details CACHE_WRITE_KEYS with
       | Some v => n <- py_int v ;; Ok (<["cache_write_tokens" := PInt n]> usage)
       | None => Ok usage
       end) /\
  (forall details v n,
     truthy (dict_get usage "cache_write_tokens") = false ->
     py_or (dict_get usage "prompt_tokens_details") (PDict ∅) = PDict details ->
     first_truthy details CACHE_WRITE_KEYS = Some v ->
     py_int v = Ok n ->
     exists usage',
       promote_cache_write usage = Ok usage' /\
       usage' !! "cache_write_tokens" = Some (PInt n)).
Proof.
  assert (Hsearch : forall details,
     truthy (dict_get usage "cache_write_tokens") = false ->
     py_or (dict_get usage "prompt_tokens_details") (PDict ∅) = PDict details ->
     promote_cache_write usage =
       match first_truthy details CACHE_WRITE_KEYS with
       | Some v => n <- py_int v ;; Ok (<["cache_write_tokens" := PInt n]> usage)
       | None => Ok usage
       end).
  { intros details Htop Hdet. unfold promote_cache_write.
    rewrite Htop, Hdet. cbn [negb]. rewrite first_truthy_or.
    destruct (first_truthy details CACHE_WRITE_KEYS) as [v|] eqn:Ef.
    - now rewrite (first_truthy_truthy _ _ _ Ef).
    - cbn in Ef.
      destruct (truthy (dict_get details "cache_write_tokens")); [discriminate|].
      destruct (truthy (dict_get details "cache_creation_tokens")); [discriminate|].
      destruct (truthy (dict_get details "cache_creation_input_tokens"));
        [discriminate|reflexivity]. }
  split; [|split; [exact Hsearch|]].
  - intros Htop. unfold promote_cache_write. now rewrite Htop.
  - intros details v n Htop Hdet Hv Hn.
    rewrite (Hsearch details Htop Hdet), Hv, Hn. cbn [bind].
    eexists. split; [reflexivity|]. apply lookup_insert_eq.
Qed.

End normalisation_facts.

(** C1 (as stated) fails: the record returned for a body with only
    [total_tokens] has no [prompt_tokens] entry. *)
Lemma counters_not_all_present :
  ~ (forall (H : StrConv) resp msg usage,
       LLMClient.normalize_usage resp = Ok (msg, usage) ->
       forall k, k ∈ USAGE_KEYS -> is_Some (usage !! k)).
Proof.
  intros Hclaim.
  destruct (Hclaim decimal_conv resp_total_only (PDict ∅)
              {[ "total_tokens" := PInt 42 ]} eq_refl "prompt_tokens")
    as [v Hv].
  - apply (bool_decide_unpack _). vm_compute. reflexivity.
  - vm_compute in Hv. discriminate.
Qed.

Lemma normalize_usage_counters_witness :
  LLMClient.normalize_usage (H := decimal_conv) resp_creation
    = Ok (PDict ∅, usage_creation) /\
  exists reported,
    LLMClient.response_usage resp_creation = Ok reported /\
    usage_creation !! "prompt_tokens" = reported !! "prompt_tokens" /\
    usage_creation !! "cost" = reported !! "cost".
Proof.
  assert (Hrun : LLMClient.normalize_usage (H := decimal_conv) resp_creation
                 = Ok (PDict ∅, usage_creation)) by (vm_compute; reflexivity).
  split; [exact Hrun|].
  destruct (normalize_usage_counters (H := decimal_conv)) as (Hret & _).
  destruct (Hret resp_creation (PDict ∅) usage_creation Hrun)
    as (reported & Hrep & Hsame & _ & _ & Hcost & _).
  exists reported. split; [exact Hrep|]. split; [|exact Hcost].
  apply Hsame; discriminate.
Defined.

(** C6 (as stated) fails: with [cache_write_tokens = 0] and
    [cache_creation_tokens = 5] in the details, the first present value is
    0 and the value promoted is 5. *)
Lemma cache_write_not_first_present :
  ~ (forall (H : StrConv) usage details v,
       truthy (dict_get usage "cache_write_tokens") = false ->
       dict_get usage "prompt_tokens_details" = PDict details ->
       LLMClient.first_present details LLMClient.CACHE_WRITE_KEYS = Some v ->
       exists usage',
         LLMClient.promote_cache_write usage = Ok usage' /\
         usage' !! "cache_write_tokens" = Some v).
Proof.
  intros Hclaim.
  destruct (Hclaim decimal_conv usage_zero_write details_zero_write (PInt 0))
    as (usage' & Hrun & Hv); try (vm_compute; reflexivity).
  assert (Hcode : LLMClient.promote_cache_write (H := decimal_conv) usage_zero_write
                  = Ok (<["cache_write_tokens" := PInt 5]> usage_zero_write))
    by (vm_compute; reflexivity).
  rewrite Hcode in Hrun. injection Hrun as <-.
  rewrite lookup_insert_eq in Hv. discriminate Hv.
Qed.

Lemma cache_write_promotes_first_truthy_witness :
  exists usage',
    LLMClient.promote_cache_write (H := decimal_conv) usage_zero_write = Ok usage' /\
    usage' !! "cache_write_tokens" = Some (PInt 5).
Proof.
  destruct (cache_write_promotes_first_truthy (H := decimal_conv) usage_zero_write)
    as (_ & _ & Hprom).
  apply (Hprom details_zero_write (PInt 5) 5); vm_compute; reflexivity.
Defined.

(* ===================================================================== *)
(** * Properties of the request payload                                   *)
(* ===================================================================== *)

Section payload_facts.
Context `{StrConv}.
Import LLMClient.
Local Open Scope list_scope.

Lemma anthropic_routes_to_aggregator env model :
  _is_anthropic_model model = true ->
  _detect_provider env model
    = (OPENROUTER_URL, environ_get env "OPENROUTER_API_KEY", model) /\
  _is_openrouter OPENROUTER_URL = true.
Proof.
  intros Ha. split; [|reflexivity].
  now apply detect_provider_anthropic.
Qed.

Lemma set_last_snoc (init : list val) (x y : val) :
  set_last (init ++ [x]) y = init ++ [y].
Proof.
  unfold set_last. rewrite length_app. cbn [length].
  replace (Nat.pred (length init + 1)) with (length init + 0)%nat by lia.
  now rewrite insert_app_r.
Qed.

Lemma last_snoc_val (init : list val) (x : val) : last (init ++ [x]) = Some x.
Proof. apply last_snoc. Qed.

Lemma fresh_heap_none (hp : gmap loc obj) : hp !! fresh (dom hp) = None.
Proof. apply not_elem_of_dom, is_fresh. Qed.

(** The copy, run on a list object whose last entry is a mapping. *)
Lemma tools_with_cache_control_run l items init last_item fields w :
  heap w !! l = Some (OList items) ->
  items = init ++ [last_item] ->
  mapping_fields (heap w) last_item = Some fields ->
  let l' := fresh (dom (heap w)) in
  let hp1 := <[l' := OList items]> (heap w) in
  let d' := fresh (dom hp1) in
  tools_with_cache_control (VRef l) w =
    (Ok (VRef l'),
     with_heap w
       (<[l' := OList (init ++ [VRef d'])]>
          (<[d' := ODict (<["cache_control" := VLit cache_marker]> fields)]>
             (<[d' := ODict fields]> hp1)))).
Proof.
  intros Hl -> Hfields l' hp1 d'.
  assert (Hvf : val_fields last_item (with_heap w hp1) = (Ok fields, with_heap w hp1)).
  { destruct last_item as [v|d]; cbn in Hfields.
    - destruct v; try discriminate. inversion Hfields. reflexivity.
    - unfold val_fields, mbind, deref. cbn [with_heap heap].
      assert (Hne : l' ≠ d).
      { intros E. rewrite <- E in Hfields. unfold l' in Hfields.
        rewrite fresh_heap_none in Hfields. discriminate. }
      unfold hp1. rewrite lookup_insert_ne by exact Hne.
      destruct (heap w !! d) as [[|f]|]; try discriminate.
      inversion Hfields. reflexivity. }
  unfold tools_with_cache_control, val_iter, mbind, deref, alloc.
  rewrite Hl. cbn [ret]. unfold ret at 1. fold l' hp1.
  rewrite last_snoc_val, Hvf.
  unfold store, ret, with_heap. cbn [heap clients trace].
  fold d'. rewrite set_last_snoc. reflexivity.
Qed.

(** C4: for an Anthropic model, which is routed to the aggregator, and a
    non-empty tool list, the tool list of the payload is a new list that
    holds the tools of the input in order, except that its last entry is
    a new dictionary: the last tool with [cache_control] set to
    [{type: ephemeral, ttl: 1h}].  No object of the caller is updated:
    the original list and every tool dictionary are as before. *)
Theorem tools_cache_marker_copy_on_write env model messages l items init
    last_item fields effort max_tokens tool_choice w :
  _is_anthropic_model model = true ->
  heap w !! l = Some (OList items) ->
  items = init ++ [last_item] ->
  mapping_fields (heap w) last_item = Some fields ->
  let base_url := fst (fst (_detect_provider env model)) in
  let clean_model := snd (_detect_provider env model) in
  exists kwargs w' l' d',
    _is_openrouter base_url = true /\
    build_kwargs model clean_model (_is_openrouter base_url) messages (VRef l)
      effort max_tokens tool_choice w = (Ok kwargs, w') /\
    kwargs !! "tools" = Some (VRef l') /\
    kwargs !! "tool_choice" = Some (VLit (PStr tool_choice)) /\
    heap w' !! l' = Some (OList (init ++ [VRef d'])) /\
    heap w' !! d'
      = Some (ODict (<["cache_control" :=
                        VLit (PDict (<["type" := PStr "ephemeral"]>
                                       (<["ttl" := PStr "1h"]> ∅)))]> fields)) /\
    heap w !! l' = None /\ heap w !! d' = None /\ l' <> d' /\
    (forall x o, heap w !! x = Some o -> heap w' !! x = Some o) /\
    heap w' !! l = Some (OList items) /\
    mapping_fields (heap w') last_item = Some fields /\
    trace w' = trace w /\ clients w' = clients w.
Proof.
  intros Ha Hl Hitems Hfields base_url clean_model.
  destruct (anthropic_routes_to_aggregator env model Ha) as [Hroute Hor].
  subst base_url clean_model. rewrite Hroute. cbn [fst snd]. rewrite Hor.
  set (l' := fresh (dom (heap w))).
  set (hp1 := <[l' := OList items]> (heap w)).
  set (d' := fresh (dom hp1)).
  assert (Hl'none : heap w !! l' = None) by apply fresh_heap_none.
  assert (Hd'1 : hp1 !! d' = None) by apply fresh_heap_none.
  assert (Hne : l' ≠ d').
  { intros E. rewrite <- E in Hd'1. unfold hp1 in Hd'1.
    rewrite lookup_insert_eq in Hd'1. discriminate. }
  assert (Hd'none : heap w !! d' = None).
  { unfold hp1 in Hd'1. now rewrite lookup_insert_ne in Hd'1 by exact Hne. }
  assert (Hframe : forall x o, heap w !! x = Some o ->
            (<[l' := OList (init ++ [VRef d'])]>
               (<[d' := ODict (<["cache_control" := VLit cache_marker]> fields)]>
                  (<[d' := ODict fields]> hp1))) !! x = Some o).
  { intros x o Hx.
    assert (x ≠ l') by (intros ->; congruence).
    assert (x ≠ d') by (intros ->; congruence).
    unfold hp1. now rewrite !lookup_insert_ne by congruence. }
  exists (<["tool_choice" := VLit (PStr tool_choice)]>
            (<["tools" := VRef l']>
               (request_kwargs model model true messages effort max_tokens))),
         (with_heap w
            (<[l' := OList (init ++ [VRef d'])]>
               (<[d' := ODict (<["cache_control" := VLit cache_marker]> fields)]>
                  (<[d' := ODict fields]> hp1)))),
         l', d'.
  split; [reflexivity|]. split.
  { pose proof (tools_with_cache_control_run l items init last_item fields w
                  Hl Hitems Hfields) as Hrun.
    cbv zeta in Hrun. fold l' hp1 d' in Hrun.
    unfold build_kwargs. rewrite Ha. cbn [andb].
    assert (Hn : match items with [] => false | _ :: _ => true end = true)
      by (rewrite Hitems; now destruct init).
    cbv beta iota delta [val_truthy mbind deref ret]. rewrite Hl.
    cbv beta iota. rewrite Hn. cbv beta iota. rewrite Hrun. reflexivity. }
  cbn [heap with_heap trace clients].
  repeat split.
  - apply lookup_insert_eq.
  - rewrite lookup_insert_ne by exact Hne. apply lookup_insert_eq.
  - exact Hl'none.
  - exact Hd'none.
  - exact Hne.
  - exact Hframe.
  - now apply Hframe.
  - destruct last_item as [v|d]; [exact Hfields|].
    cbn in Hfields |- *.
    destruct (heap w !! d) as [o|] eqn:Ed; [|discriminate].
    now rewrite (Hframe d o Ed).
Qed.

End payload_facts.

Lemma tools_cache_marker_copy_on_write_witness :
  exists kwargs w' l' d',
    LLMClient.build_kwargs "anthropic/claude-3.7" "anthropic/claude-3.7" true
      (VLit (PList [])) (VRef 1%positive) "medium" 16384 "auto" world_two_tools
      = (Ok kwargs, w') /\
    kwargs !! "tools" = Some (VRef l') /\
    heap w' !! l' = Some (OList [VRef 2%positive; VRef d']) /\
    heap w' !! d'
      = Some (ODict (<["cache_control" :=
                        VLit (PDict (<["type" := PStr "ephemeral"]>
                                       (<["ttl" := PStr "1h"]> ∅)))]> tool_b)) /\
    heap w' !! 1%positive = Some (OList [VRef 2%positive; VRef 3%positive]) /\
    heap w' !! 3%positive = Some (ODict tool_b).
Proof.
  destruct (tools_cache_marker_copy_on_write ∅
              "anthropic/claude-3.7" (VLit (PList [])) 1%positive
              [VRef 2%positive; VRef 3%positive] [VRef 2%positive]
              (VRef 3%positive) tool_b "medium" 16384 "auto" world_two_tools)
    as (kwargs & w' & l' & d' & _ & Hrun & Htools & _ & Hlist & Hlast & _ & _ & _
        & Hframe & Horig & _); try reflexivity.
  exists kwargs, w', l', d'. repeat split; try assumption.
  now apply Hframe.
Defined.

(* ===================================================================== *)
(** * Properties of a whole chat call                                     *)
(* ===================================================================== *)

Section chat_facts.
Context `{StrConv}.
Import LLMClient.

Lemma silent_ret {A} (a : A) : silent (ret a).
Proof. intros w. reflexivity. Qed.

Lemma silent_lift {A} (r : res A) : silent (lift r).
Proof. intros w. reflexivity. Qed.

Lemma silent_mbind {A B} (c : M A) (k : A -> M B) :
  silent c -> (forall a, silent (k a)) -> silent (mbind c k).
Proof.
  intros Hc Hk w. unfold mbind. specialize (Hc w).
  destruct (c w) as [[a|e] w1]; cbn [snd] in *; [|exact Hc].
  now rewrite (Hk a w1).
Qed.

Lemma silent_alloc o : silent (alloc o).
Proof. intros w. reflexivity. Qed.

Lemma silent_store l o : silent (store l o).
Proof. intros w. reflexivity. Qed.

Lemma silent_deref l : silent (deref l).
Proof. intros w. unfold deref. now destruct (heap w !! l). Qed.

Lemma silent_val_truthy v : silent (val_truthy v).
Proof.
  destruct v; [apply silent_ret|].
  apply silent_mbind; [apply silent_deref|intros; apply silent_ret].
Qed.

Lemma silent_val_iter v : silent (val_iter v).
Proof.
  destruct v.
  - apply silent_mbind; [apply silent_lift|intros; apply silent_ret].
  - apply silent_mbind; [apply silent_deref|intros; apply silent_ret].
Qed.

Lemma silent_val_fields v : silent (val_fields v).
Proof.
  destruct v as [x|l].
  - destruct x; first [apply silent_ret|apply silent_lift].
  - apply silent_mbind; [apply silent_deref|].
    intros [|]; [apply silent_lift|apply silent_ret].
Qed.

Lemma silent_tools_with_cache_control tools :
  silent (tools_with_cache_control tools).
Proof.
  unfold tools_with_cache_control.
  apply silent_mbind; [apply silent_val_iter|intros items].
  apply silent_mbind; [apply silent_alloc|intros l'].
  destruct (last items); [|apply silent_ret].
  apply silent_mbind; [apply silent_val_fields|intros fields].
  apply silent_mbind; [apply silent_alloc|intros d'].
  apply silent_mbind; [apply silent_store|intros _].
  apply silent_mbind; [apply silent_store|intros _].
  apply silent_ret.
Qed.

Lemma silent_build_kwargs model clean is_or messages tools effort mt tc :
  silent (build_kwargs model clean is_or messages tools effort mt tc).
Proof.
  unfold build_kwargs.
  apply silent_mbind; [apply silent_val_truthy|intros [|]]; [|apply silent_ret].
  apply silent_mbind; [|intros; apply silent_ret].
  destruct (_ && _); [apply silent_tools_with_cache_control|apply silent_ret].
Qed.

Lemma silent_get_client h base key : silent (_get_client h base key).
Proof.
  intros w. unfold _get_client.
  destruct (clients w !! base); [reflexivity|].
  destruct (openai_installed h); reflexivity.
Qed.

(** The first half of [chat] makes no look-up, and what it returns is the
    outcome of the chat-completion request. *)
Lemma chat_request_spec h base key clean messages model tools effort mt tc w :
  let run := chat_request h base key clean messages model tools effort mt tc w in
  count_gets (trace (snd run)) = count_gets (trace w) /\
  (forall resp, fst run = Ok resp -> completion h = Ok resp).
Proof.
  cbv zeta. unfold chat_request, mbind.
  pose proof (silent_get_client h base key w) as Hc.
  destruct (_get_client h base key w) as [[c|e] w1]; cbn [snd fst] in *;
    [|split; [now rewrite Hc|discriminate]].
  pose proof (silent_build_kwargs model clean (_is_openrouter base) messages tools
                (normalize_reasoning_effort effort "medium") mt tc w1) as Hk.
  destruct (build_kwargs _ _ _ _ _ _ _ _ w1) as [[kwargs|e] w2]; cbn [snd fst] in *;
    [|split; [now rewrite Hk, Hc|discriminate]].
  unfold create. cbn [snd fst record_event trace]. split.
  - rewrite count_gets_app, Hk, Hc.
    change (count_gets [EvCreate base kwargs]) with 0%nat. lia.
  - now intros resp ->.
Qed.

(** With no tools and the SDK importable, the first half returns the
    outcome of the request. *)
Lemma chat_request_no_tools h base key clean messages model effort mt tc w :
  openai_installed h = true ->
  fst (chat_request h base key clean messages model (VLit PNone) effort mt tc w)
    = completion h.
Proof.
  intros Hi. unfold chat_request, mbind, _get_client. rewrite Hi.
  destruct (clients w !! base); reflexivity.
Qed.

(** C3 (amended): reconciliation is invoked only when the cost of the
    normalised usage record is absent, null or zero; a non-zero cost that
    the provider reported is returned as it is, and no look-up is made. *)
Theorem cost_reconciled_only_when_falsy h :
  (forall resp usage is_or base key w,
     truthy (dict_get usage "cost") = true ->
     reconcile_cost h resp usage is_or base key w = (Ok usage, w)) /\
  (forall resp usage is_or base key w,
     count_gets (trace (snd (reconcile_cost h resp usage is_or base key w)))
       <> count_gets (trace w) ->
     truthy (dict_get usage "cost") = false /\ is_or = true) /\
  (forall messages model tools effort mt tc w resp msg usage,
     completion h = Ok resp ->
     normalize_usage resp = Ok (msg, usage) ->
     truthy (dict_get usage "cost") = true ->
     let run := chat h messages model tools effort mt tc w in
     count_gets (trace (snd run)) = count_gets (trace w) /\
     (forall r, fst run = Ok r -> r = (msg, usage)) /\
     (tools = VLit PNone -> openai_installed h = true ->
      fst run = Ok (msg, usage))).
Proof.
  assert (Hkeep : forall resp usage is_or base key w,
            truthy (dict_get usage "cost") = true ->
            reconcile_cost h resp usage is_or base key w = (Ok usage, w)).
  { intros resp usage is_or base key w Hc. unfold reconcile_cost.
    now rewrite Hc. }
  split; [exact Hkeep|]. split.
  { intros resp usage is_or base key w Hchanged.
    destruct (truthy (dict_get usage "cost")) eqn:Hc.
    - rewrite (Hkeep resp usage is_or base key w Hc) in Hchanged. now destruct Hchanged.
    - split; [reflexivity|]. destruct is_or; [reflexivity|].
      unfold reconcile_cost in Hchanged. rewrite Hc in Hchanged.
      now destruct Hchanged. }
  intros messages model tools effort mt tc w resp msg usage Hresp Hnorm Hc.
  cbv zeta. unfold chat.
  destruct (_detect_provider (environ h) model) as [[base key] clean].
  pose proof (chat_request_spec h base key clean messages model tools effort mt tc w)
    as [Hquiet Hout].
  pose proof (chat_request_no_tools h base key clean messages model effort mt tc w)
    as Hplain.
  unfold mbind, lift, ret.
  destruct (chat_request h base key clean messages model tools effort mt tc w)
    as [[resp'|e] w1] eqn:Ereq; cbn [fst snd] in *.
  - specialize (Hout resp' eq_refl). rewrite Hresp in Hout.
    inversion Hout; subst resp'.
    rewrite Hnorm. cbn [fst snd].
    rewrite (Hkeep resp usage (_is_openrouter base) base key w1 Hc).
    cbn [fst snd]. repeat split; try assumption.
    now intros r Hr; inversion Hr.
  - repeat split; try assumption; [discriminate|].
    intros -> Hi. rewrite Ereq in Hplain. cbn [fst] in Hplain.
    rewrite <- (Hplain Hi) in Hresp. discriminate.
Qed.

End chat_facts.

(** C3 (as stated) fails: a cost of zero that the provider reported is
    looked up again and replaced. *)
Lemma cost_zero_overwritten :
  ~ (forall (H : StrConv) h messages model tools effort mt tc w resp reported msg usage,
       completion h = Ok resp ->
       LLMClient.response_usage resp = Ok reported ->
       is_Some (reported !! "cost") ->
       fst (LLMClient.chat h messages model tools effort mt tc w) = Ok (msg, usage) ->
       usage !! "cost" = reported !! "cost" /\
       count_gets (trace (snd (LLMClient.chat h messages model tools effort mt tc w)))
         = count_gets (trace w)).
Proof.
  intros Hclaim.
  destruct (Hclaim decimal_conv host_zero_cost (VLit (PList []))
              "anthropic/claude-3.7" (VLit PNone) "medium" 16384 "auto" empty_world
              (<["id" := PStr "gen-1"]> {[ "usage" := PDict {[ "cost" := PFloat 0 ]} ]})
              {[ "cost" := PFloat 0 ]} (PDict ∅) {[ "cost" := PFloat 0.25 ]})
    as [_ Hcount].
  - reflexivity.
  - vm_compute. reflexivity.
  - eexists. vm_compute. reflexivity.
  - vm_compute. reflexivity.
  - vm_compute in Hcount. discriminate.
Qed.

Lemma cost_reconciled_only_when_falsy_witness :
  fst (LLMClient.chat (H := decimal_conv) host_with_cost (VLit (PList []))
         "anthropic/claude-3.7" (VLit PNone) "medium" 16384 "auto" empty_world)
    = Ok (PDict ∅, {[ "cost" := PFloat 0.125 ]}) /\
  count_gets (trace (snd (LLMClient.chat (H := decimal_conv) host_with_cost
                            (VLit (PList [])) "anthropic/claude-3.7" (VLit PNone)
                            "medium" 16384 "auto" empty_world))) = 0%nat.
Proof.
  destruct (cost_reconciled_only_when_falsy (H := decimal_conv) host_with_cost)
    as (_ & _ & Hchat).
  destruct (Hchat (VLit (PList [])) "anthropic/claude-3.7" (VLit PNone)
              "medium" 16384 "auto" empty_world
              (<["id" := PStr "gen-1"]> {[ "usage" := PDict {[ "cost" := PFloat 0.125 ]} ]})
              (PDict ∅) {[ "cost" := PFloat 0.125 ]})
    as (Hquiet & _ & Hret); try (vm_compute; reflexivity).
  split; [|exact Hquiet].
  exact (Hret eq_refl eq_refl).
Defined.
(* ===================================================================== *)
(** * Properties of the reasoning effort                                  *)
(* ===================================================================== *)

Section effort_facts.

Lemma effort_member (v : string) :
  existsb (String.eqb v) EFFORTS = true <-> In v EFFORTS.
Proof.
  rewrite existsb_exists. split.
  - intros (x & Hx & Heq). apply String.eqb_eq in Heq. now subst.
  - intros Hin. exists v. split; [assumption|apply String.eqb_refl].
Qed.

Lemma clean_effort (v : string) : In v EFFORTS -> effort_text v = v.
Proof.
  cbn. intros [<-|[<-|[<-|[<-|[<-|[<-|[]]]]]]]; reflexivity.
Qed.

Lemma effort_order_known (v : string) :
  In v EFFORTS -> exists n, EFFORT_ORDER !! v = Some n /\ 0 <= n <= 5.
Proof.
  cbn. intros [<-|[<-|[<-|[<-|[<-|[<-|[]]]]]]];
    eexists; (split; [reflexivity|lia]).
Qed.

Lemma effort_order_unknown (v : string) :
  existsb (String.eqb v) EFFORTS = false -> EFFORT_ORDER !! v = None.
Proof.
  cbn [existsb EFFORTS]. rewrite !orb_false_iff.
  intros (E0 & E1 & E2 & E3 & E4 & E5 & _).
  apply String.eqb_neq in E0, E1, E2, E3, E4, E5.
  unfold EFFORT_ORDER.
  rewrite !lookup_insert_ne by congruence. apply lookup_empty.
Qed.

Lemma space_not_lowered (c : ascii) :
  is_space c = true -> lower_ascii c = c.
Proof.
  destruct c as [[] [] [] [] [] [] [] []]; try discriminate; reflexivity.
Qed.

Lemma spaceless_lower (s : string) : spaceless (lower s) -> spaceless s.
Proof.
  unfold spaceless. induction s as [|c s IH]; cbn; [constructor|].
  intros Hs. inversion Hs as [|? ? Hc Hrest]; subst. constructor; [|auto].
  destruct (is_space c) eqn:E; [|reflexivity].
  now rewrite (space_not_lowered c E), E in Hc.
Qed.

Lemma spaceless_effort (v : string) : In v EFFORTS -> spaceless v.
Proof.
  unfold spaceless. cbn.
  intros [<-|[<-|[<-|[<-|[<-|[<-|[]]]]]]]; repeat constructor.
Qed.

Lemma lstrip_blank (l s : string) :
  blank l -> lstrip (String.append l s) = lstrip s.
Proof.
  unfold blank. induction l as [|c l IH]; [reflexivity|].
  cbn. intros Hl. inversion Hl as [|? ? Hc Hrest]; subst.
  change (String.append (String c l) s) with (String c (String.append l s)).
  cbn [lstrip]. rewrite Hc. auto.
Qed.

Lemma lstrip_spaceless (s t : string) :
  spaceless s -> s <> "" -> lstrip (String.append s t) = String.append s t.
Proof.
  unfold spaceless. destruct s as [|c s]; [congruence|]. cbn.
  intros Hs _. inversion Hs as [|? ? Hc _]; subst.
  change (String.append (String c s) t) with (String c (String.append s t)).
  cbn [lstrip]. now rewrite Hc.
Qed.

Lemma rstrip_blank (r : string) : blank r -> rstrip r = "".
Proof.
  unfold blank. induction r as [|c r IH]; [reflexivity|].
  cbn. intros Hr. inversion Hr as [|? ? Hc Hrest]; subst.
  now rewrite IH, Hc.
Qed.

Lemma rstrip_spaceless (s r : string) :
  spaceless s -> blank r -> rstrip (String.append s r) = s.
Proof.
  unfold spaceless. induction s as [|c s IH]; intros Hs Hr.
  - now apply rstrip_blank.
  - cbn in Hs. inversion Hs as [|? ? Hc Hrest]; subst.
    change (String.append (String c s) r) with (String c (String.append s r)).
    cbn [rstrip]. rewrite (IH Hrest Hr).
    destruct s; [now rewrite Hc|reflexivity].
Qed.

Lemma clean_padded (l core r : string) :
  blank l -> blank r -> In (lower core) EFFORTS ->
  effort_text (String.append l (String.append core r)) = lower core.
Proof.
  intros Hl Hr Hin. unfold effort_text.
  assert (Hs : spaceless core) by now apply spaceless_lower, spaceless_effort.
  assert (Hne : core <> "").
  { intros ->. cbn in Hin. clear -Hin.
    destruct Hin as [E|[E|[E|[E|[E|[E|[]]]]]]]; discriminate E. }
  now rewrite lstrip_blank, lstrip_spaceless, rstrip_spaceless.
Qed.

(** X1: the normalised effort is one of the six efforts or the default,
    hence an effort as soon as the default is one; normalising is then
    idempotent; an effort written in any ASCII case, with ASCII white
    space around it, is recognised; and ASCII text that is not an effort
    once stripped and lower-cased gives the default. *)
Theorem normalize_reasoning_effort_allowed :
  (forall value dflt,
     In dflt EFFORTS -> In (normalize_reasoning_effort value dflt) EFFORTS) /\
  (forall value dflt,
     In (normalize_reasoning_effort value dflt) EFFORTS \/
     normalize_reasoning_effort value dflt = dflt) /\
  (forall value dflt,
     In dflt EFFORTS ->
     normalize_reasoning_effort (normalize_reasoning_effort value dflt) dflt
       = normalize_reasoning_effort value dflt) /\
  (forall l core r dflt,
     Forall (fun c => is_space c = true) (list_ascii_of_string l) ->
     Forall (fun c => is_space c = true) (list_ascii_of_string r) ->
     In (lower core) EFFORTS ->
     normalize_reasoning_effort (String.append l (String.append core r)) dflt
       = lower core) /\
  (forall value dflt,
     ascii_text value ->
     ~ In (lower (rstrip (lstrip value))) EFFORTS ->
     normalize_reasoning_effort value dflt = dflt).
Proof.
  assert (Hcases : forall value dflt,
            (In (effort_text value) EFFORTS /\
             normalize_reasoning_effort value dflt = effort_text value) \/
            (~ In (effort_text value) EFFORTS /\
             normalize_reasoning_effort value dflt = dflt)).
  { intros value dflt. unfold normalize_reasoning_effort. fold (effort_text value).
    destruct (existsb (String.eqb (effort_text value)) EFFORTS) eqn:E.
    - left. split; [now apply effort_member|reflexivity].
    - right. split; [|reflexivity].
      intros Hin. apply effort_member in Hin. congruence. }
  repeat split.
  - intros value dflt Hd. destruct (Hcases value dflt) as [[Hin ->]|[_ ->]]; assumption.
  - intros value dflt. destruct (Hcases value dflt) as [[Hin ->]|[_ ->]]; auto.
  - intros value dflt Hd.
    assert (Hin : In (normalize_reasoning_effort value dflt) EFFORTS).
    { destruct (Hcases value dflt) as [[Hin ->]|[_ ->]]; assumption. }
    destruct (Hcases (normalize_reasoning_effort value dflt) dflt) as [[_ ->]|[Hout _]].
    + now apply clean_effort.
    + rewrite clean_effort in Hout by assumption. contradiction.
  - intros l core r dflt Hl Hr Hin.
    pose proof (clean_padded l core r Hl Hr Hin) as Hclean.
    destruct (Hcases (String.append l (String.append core r)) dflt)
      as [[_ ->]|[Hout _]]; [exact Hclean|].
    rewrite Hclean in Hout. contradiction.
  - intros value dflt _ Hout.
    destruct (Hcases value dflt) as [[Hin _]|[_ ->]]; [contradiction|reflexivity].
Qed.

(** X2: the rank is between 0 and 5, follows the declared order of the
    efforts, is 3 (the rank of "medium") for ASCII text that is not an
    effort once stripped and lower-cased, and does not change when the
    effort is normalised first. *)
Theorem reasoning_rank_order :
  (forall value, 0 <= reasoning_rank value <= 5) /\
  (forall i v, EFFORTS !! i = Some v -> reasoning_rank v = Z.of_nat i) /\
  (forall value,
     ascii_text value ->
     ~ In (lower (rstrip (lstrip value))) EFFORTS -> reasoning_rank value = 3) /\
  (forall value,
     reasoning_rank (normalize_reasoning_effort value "medium")
       = reasoning_rank value).
Proof.
  assert (Hunknown : forall value,
            ~ In (effort_text value) EFFORTS -> reasoning_rank value = 3).
  { intros value Hout. unfold reasoning_rank. fold (effort_text value).
    rewrite effort_order_unknown; [reflexivity|].
    destruct (existsb _ _) eqn:E; [|reflexivity].
    apply effort_member in E. contradiction. }
  repeat split.
  - unfold reasoning_rank. fold (effort_text value).
    destruct (EFFORT_ORDER !! effort_text value) as [n|] eqn:E; cbn; [|lia].
    destruct (existsb (String.eqb (effort_text value)) EFFORTS) eqn:Ein.
    + apply effort_member, effort_order_known in Ein as (m & Hm & Hb).
      rewrite Hm in E. inversion E; subst. lia.
    + rewrite effort_order_unknown in E by assumption. discriminate E.
  - unfold reasoning_rank. fold (effort_text value).
    destruct (EFFORT_ORDER !! effort_text value) as [n|] eqn:E; cbn; [|lia].
    destruct (existsb (String.eqb (effort_text value)) EFFORTS) eqn:Ein.
    + apply effort_member, effort_order_known in Ein as (m & Hm & Hb).
      rewrite Hm in E. inversion E; subst. lia.
    + rewrite effort_order_unknown in E by assumption. discriminate E.
  - intros i v Hi.
    do 6 (destruct i as [|i]; [cbn in Hi; inversion Hi; reflexivity|]).
    discriminate Hi.
  - intros value _. exact (Hunknown value).
  - intros value. unfold normalize_reasoning_effort. fold (effort_text value).
    destruct (existsb (String.eqb (effort_text value)) EFFORTS) eqn:E.
    + apply effort_member in E. unfold reasoning_rank.
      fold (effort_text (effort_text value)) (effort_text value). now rewrite clean_effort.
    + rewrite (Hunknown value); [reflexivity|].
      intros Hin. apply effort_member in Hin. congruence.
Qed.

End effort_facts.

(* ===================================================================== *)
(** * Properties of the configured models                                 *)
(* ===================================================================== *)

Section model_list_facts.
Variable env : gmap string string.

(** X3: the list of available models starts with the default model, has no
    duplicates and at most three entries, and holds every model that is
    configured with a non-empty name. *)
Theorem available_models_distinct :
  (exists rest, available_models env = default_model env :: rest) /\
  NoDup (available_models env) /\
  (1 <= length (available_models env) <= 3)%nat /\
  (nonempty (environ_get env "OUROBOROS_MODEL_CODE") = true ->
   environ_get env "OUROBOROS_MODEL_CODE" ∈ available_models env) /\
  (nonempty (environ_get env "OUROBOROS_MODEL_LIGHT") = true ->
   environ_get env "OUROBOROS_MODEL_LIGHT" ∈ available_models env) /\
  (forall m, m ∈ available_models env ->
     m = default_model env \/
     m = environ_get env "OUROBOROS_MODEL_CODE" \/
     m = environ_get env "OUROBOROS_MODEL_LIGHT").
Proof.
  unfold available_models, default_model.
  generalize (environ_get_or env "OUROBOROS_MODEL" "gpt-4.1") as main.
  generalize (environ_get env "OUROBOROS_MODEL_CODE") as code.
  generalize (environ_get env "OUROBOROS_MODEL_LIGHT") as light.
  intros light code main.
  destruct (nonempty code) eqn:Hc, (nonempty light) eqn:Hl;
    destruct (String.eqb_spec code main) as [Hcm|Hcm];
    destruct (String.eqb_spec light main) as [Hlm|Hlm];
    destruct (String.eqb_spec light code) as [Hlc|Hlc];
    cbn [andb negb app length];
    (split; [eexists; reflexivity|]);
    (split; [rewrite ?NoDup_cons; repeat split; try apply NoDup_nil_2; set_solver|]);
    (split; [lia|]);
    (split; [intros Hne; try discriminate Hne; try (subst; congruence); set_solver|]);
    (split; [intros Hne; try discriminate Hne; try (subst; congruence); set_solver|]);
    intros m Hm; set_solver.
Qed.

End model_list_facts.

(* ===================================================================== *)
(** * Further properties of usage accumulation                            *)
(* ===================================================================== *)

Section accumulation_more.
Context `{StrConv}.
Local Open Scope list_scope.

Implicit Types total usage : gmap string pyval.

Lemma counter_val_insert_ne total k k' v :
  k ≠ k' -> counter_val (<[k := v]> total) k' = counter_val total k'.
Proof. intros Hne. unfold counter_val. now rewrite counter_of_insert_ne. Qed.

(** The loop over the counters stops at the first counter that does not
    convert: the counters before it are added, the rest is untouched. *)
Lemma add_counters_stops usage k e post pre : forall total,
  NoDup (pre ++ k :: post) ->
  (forall k', k' ∈ pre ->
     exists a b, counter_of total k' = Ok a /\ counter_of usage k' = Ok b) ->
  (counter_of total k = Raise e \/
   (exists a, counter_of total k = Ok a) /\ counter_of usage k = Raise e) ->
  exists total',
    add_counters (pre ++ k :: post) total usage = (total', Raise e) /\
    (forall k', k' ∈ pre ->
       total' !! k' = Some (PInt (counter_val total k' + counter_val usage k'))) /\
    (forall k', k' ∉ pre -> total' !! k' = total !! k').
Proof.
  induction pre as [|k0 pre IH]; intros total Hnd Hconv Hfail.
  - exists total. cbn [app add_counters]. unfold add_counter. split.
    + destruct Hfail as [->|[[a ->] ->]]; reflexivity.
    + split; [intros k' Hk'; now apply elem_of_nil in Hk'|reflexivity].
  - cbn [app] in Hnd. apply NoDup_cons in Hnd as [Hk0 Hnd].
    destruct (Hconv k0) as (a & b & Ha & Hb); [apply elem_of_cons; now left|].
    assert (Hk0k : k0 ≠ k).
    { intros ->. apply Hk0, elem_of_app. right. apply elem_of_cons. now left. }
    assert (Hk0pre : k0 ∉ pre).
    { intros Hin. apply Hk0, elem_of_app. now left. }
    destruct (IH (<[k0 := PInt (a + b)]> total) Hnd) as (total' & Hrun & Hadded & Hrest).
    + intros k' Hk'. destruct (Hconv k') as (a' & b' & Ha' & Hb');
        [apply elem_of_cons; now right|].
      exists a', b'. split; [|assumption].
      rewrite counter_of_insert_ne; [assumption|]. intros ->. contradiction.
    + rewrite counter_of_insert_ne by assumption. exact Hfail.
    + exists total'. cbn [app add_counters]. unfold add_counter.
      rewrite Ha, Hb. cbn [bind]. split; [exact Hrun|]. split.
      * intros k' Hk'. apply elem_of_cons in Hk' as [->|Hk'].
        -- rewrite (Hrest k0 Hk0pre), lookup_insert_eq.
           now rewrite (counter_of_val _ _ _ Ha), (counter_of_val _ _ _ Hb).
        -- rewrite (Hadded k' Hk'), counter_val_insert_ne; [reflexivity|].
           intros ->. contradiction.
      * intros k' Hk'. apply not_elem_of_cons in Hk' as [Hne Hk'].
        rewrite (Hrest k' Hk'). now apply lookup_insert_ne.
Qed.

(** X4: after a call that returns, the total holds all five counters as
    integers, whether or not either record mentioned them; and no call,
    returning or raising, touches an entry other than the five counters
    and the cost. *)
Theorem add_usage_completes_total total usage :
  (snd (add_usage total usage) = Ok tt ->
   forall k, k ∈ USAGE_KEYS ->
     fst (add_usage total usage) !! k
       = Some (PInt (counter_val total k + counter_val usage k))) /\
  (forall k, k ∉ USAGE_KEYS -> k <> "cost" ->
     fst (add_usage total usage) !! k = total !! k) /\
  (forall usage0,
     (forall k, k ∈ USAGE_KEYS -> usage0 !! k = None) -> usage0 !! "cost" = None ->
     snd (add_usage total usage0) = Ok tt ->
     forall k, k ∈ USAGE_KEYS ->
       fst (add_usage total usage0) !! k = Some (PInt (counter_val total k))).
Proof.
  assert (Hsum : forall u, snd (add_usage total u) = Ok tt ->
            forall k, k ∈ USAGE_KEYS ->
              fst (add_usage total u) !! k
                = Some (PInt (counter_val total k + counter_val u k))).
  { intros u Hok k Hk.
    destruct (add_usage total u) as [total' r] eqn:Erun. cbn [fst snd] in *.
    subst r.
    destruct (add_usage_counter _ _ _ k Erun Hk) as (a & b & Ha & Hb & Hl).
    now rewrite Hl, (counter_of_val _ _ _ Ha), (counter_of_val _ _ _ Hb). }
  split; [apply Hsum|]. split.
  - intros k Hk Hcost. unfold add_usage.
    pose proof (add_counters_frame USAGE_KEYS total usage k Hk) as Hfr.
    destruct (add_counters USAGE_KEYS total usage) as [t1 [[]|e]];
      cbn [fst] in *; [|exact Hfr].
    destruct (truthy (dict_get usage "cost")); [|exact Hfr].
    destruct (cost_sum t1 usage); cbn [fst]; [|exact Hfr].
    rewrite lookup_insert_ne by congruence. exact Hfr.
  - intros usage0 Hnone Hcost Hok k Hk.
    rewrite (Hsum usage0 Hok k Hk). do 2 f_equal.
    unfold counter_val. rewrite (counter_of_absent usage0 k (Hnone k Hk)). lia.
Qed.

(** X5: the update is not atomic.  When a counter does not convert, the call
    raises with the counters before it (in the fixed visiting order)
    already added and everything else as it was; when only the cost does
    not convert, it raises with all five counters already added. *)
Theorem add_usage_partial_on_error total usage :
  (forall pre k post e,
     USAGE_KEYS = pre ++ k :: post ->
     (forall k', k' ∈ pre ->
        exists a b, counter_of total k' = Ok a /\ counter_of usage k' = Ok b) ->
     (counter_of total k = Raise e \/
      (exists a, counter_of total k = Ok a) /\ counter_of usage k = Raise e) ->
     snd (add_usage total usage) = Raise e /\
     (forall k', k' ∈ pre ->
        fst (add_usage total usage) !! k'
          = Some (PInt (counter_val total k' + counter_val usage k'))) /\
     (forall k', k' ∉ pre -> fst (add_usage total usage) !! k' = total !! k')) /\
  (forall e,
     (forall k, k ∈ USAGE_KEYS ->
        exists a b, counter_of total k = Ok a /\ counter_of usage k = Ok b) ->
     truthy (dict_get usage "cost") = true ->
     cost_sum total usage = Raise e ->
     snd (add_usage total usage) = Raise e /\
     (forall k, k ∈ USAGE_KEYS ->
        fst (add_usage total usage) !! k
          = Some (PInt (counter_val total k + counter_val usage k))) /\
     fst (add_usage total usage) !! "cost" = total !! "cost").
Proof.
  split.
  - intros pre k post e Hkeys Hconv Hfail.
    pose proof USAGE_KEYS_NoDup as Hnd. rewrite Hkeys in Hnd.
    destruct (add_counters_stops usage k e post pre total Hnd Hconv Hfail)
      as (total' & Hrun & Hadded & Hrest).
    unfold add_usage. rewrite Hkeys, Hrun. cbn [fst snd]. auto.
  - intros e Hconv Hcost Hraise.
    pose proof (add_counters_succeeds _ _ _ USAGE_KEYS_NoDup Hconv) as Hok.
    pose proof (add_counters_frame USAGE_KEYS total usage "cost" cost_not_counter)
      as Hfr.
    unfold add_usage.
    destruct (add_counters USAGE_KEYS total usage) as [t1 r] eqn:Eloop.
    cbn [fst snd] in *. subst r. rewrite Hcost.
    assert (Hsame : cost_sum t1 usage = cost_sum total usage).
    { unfold cost_sum, dict_get. now rewrite Hfr. }
    rewrite Hsame, Hraise. cbn [fst snd]. repeat split; [|exact Hfr].
    intros k Hk.
    destruct (add_counters_sum _ _ _ _ USAGE_KEYS_NoDup Eloop k Hk)
      as (a & b & Ha & Hb & Hl).
    now rewrite Hl, (counter_of_val _ _ _ Ha), (counter_of_val _ _ _ Hb).
Qed.

End accumulation_more.

(* ===================================================================== *)
(** * Properties of the client cache                                      *)
(* ===================================================================== *)

Section client_cache_facts.
Import LLMClient.

(** X6: once a handle exists for an endpoint, every later request for that
    endpoint returns the same handle and changes nothing, whatever
    credential is passed; a handle that is built carries the credential
    of the first request, [X-Title], and [HTTP-Referer] exactly for the
    aggregator; handles of other endpoints, the store and the trace are
    never touched. *)
Theorem get_client_cached h base key w c w1 :
  _get_client h base key w = (Ok c, w1) ->
  (forall h' key', _get_client h' base key' w1 = (Ok c, w1)) /\
  clients w1 !! base = Some c /\
  (forall other, other <> base -> clients w1 !! other = clients w !! other) /\
  heap w1 = heap w /\ trace w1 = trace w /\
  (clients w !! base = None ->
   client_base_url c = base /\ client_api_key c = key /\
   client_headers c !! "X-Title" = Some "Ouroboros" /\
   (client_headers c !! "HTTP-Referer" = Some "https://github.com/razzant/ouroboros"
      <-> _is_openrouter base = true) /\
   (_is_openrouter base = false -> client_headers c !! "HTTP-Referer" = None)).
Proof.
  unfold _get_client. intros Hrun.
  destruct (clients w !! base) as [c0|] eqn:Ecache.
  - inversion Hrun; subst c0 w1. repeat split; try reflexivity; try assumption.
    + intros h' key'. now rewrite Ecache.
    + discriminate.
    + discriminate.
    + discriminate.
    + discriminate.
    + discriminate.
    + discriminate.
  - destruct (openai_installed h); [|discriminate Hrun].
    inversion Hrun; subst c w1. cbn [clients heap trace].
    repeat split.
    + intros h' key'. now rewrite lookup_insert_eq.
    + apply lookup_insert_eq.
    + intros other Hne. now apply lookup_insert_ne.
    + destruct (_is_openrouter base); reflexivity.
    + destruct (_is_openrouter base); [reflexivity|discriminate].
    + destruct (_is_openrouter base); [reflexivity|]. cbn. discriminate.
    + intros ->. reflexivity.
Qed.

End client_cache_facts.

(* ===================================================================== *)
(** * Further properties of cost reconciliation                           *)
(* ===================================================================== *)

Section reconciliation_more.
Context `{StrConv}.
Import LLMClient.

(** X7: the second look-up is made only after a first look-up that completed
    without a cost.  A first look-up that yields the cost returns it after
    one request; a first look-up that raises (request failed, malformed
    body, cost that [float] rejects) ends the reconciliation with nothing
    after one request; neither sleeps. *)
Theorem fetch_generation_cost_single_attempt h gid base key w :
  _is_openrouter base = true -> requests_installed h = true ->
  let reply := replies h (count_gets (trace w)) in
  let once := record_event w (EvGet (generation_url base gid) key 5) in
  (forall c, attempt_outcome reply = Ok (Some c) ->
     _fetch_generation_cost h gid base key w = (Ok (Some c), once)) /\
  (forall e, attempt_outcome reply = Raise e ->
     _fetch_generation_cost h gid base key w = (Ok None, once)) /\
  (attempt_outcome reply = Ok None ->
   count_gets (trace (snd (_fetch_generation_cost h gid base key w)))
     = S (S (count_gets (trace w))) /\
   fst (_fetch_generation_cost h gid base key w)
     = match attempt_outcome (replies h (S (count_gets (trace w)))) with
       | Ok r => Ok r
       | Raise _ => Ok None
       end).
Proof.
  intros Hor Hinst reply once.
  pose proof (fetch_generation_cost_run h gid base key w) as Hrun.
  cbv zeta in Hrun. rewrite Hor, Hinst in Hrun. cbn [negb] in Hrun.
  fold reply once in Hrun. rewrite Hrun. repeat split.
  - now intros c ->.
  - now intros e ->.
  - match goal with Hnone : attempt_outcome reply = Ok None |- _ => rewrite Hnone end.
    destruct (attempt_outcome (replies h (S (count_gets (trace w)))));
      cbn [snd record_event trace]; subst once; cbn [record_event trace];
      rewrite !count_gets_app, !count_gets_get, count_gets_sleep; lia.
  - match goal with Hnone : attempt_outcome reply = Ok None |- _ => rewrite Hnone end.
    now destruct (attempt_outcome (replies h (S (count_gets (trace w))))).
Qed.

(** X8: which cost a generation body yields: a non-zero [total_cost] wins;
    without one the [cost] of [usage] is taken, a zero included; a body
    with neither yields nothing; a non-success status yields nothing
    whatever the body. *)
Theorem cost_of_response_precedence (data : gmap string pyval) (json : gmap string pyval) :
  json !! "data" = Some (PDict data) ->
  (forall status body, status <> 200 -> cost_of_response status body = Ok None) /\
  (truthy (dict_get data "total_cost") = true ->
   cost_of_response 200 (Ok (PDict json))
     = (f <- py_float (dict_get data "total_cost") ;; Ok (Some f))) /\
  (truthy (dict_get data "total_cost") = false ->
   data !! "usage" = None ->
   cost_of_response 200 (Ok (PDict json)) = Ok None) /\
  (forall usage v,
     truthy (dict_get data "total_cost") = false ->
     data !! "usage" = Some (PDict usage) ->
     usage !! "cost" = Some v -> v <> PNone ->
     cost_of_response 200 (Ok (PDict json)) = (f <- py_float v ;; Ok (Some f))) /\
  (forall usage,
     truthy (dict_get data "total_cost") = false ->
     data !! "usage" = Some (PDict usage) ->
     usage !! "cost" = Some (PInt 0) ->
     cost_of_response 200 (Ok (PDict json)) = Ok (Some 0%float)).
Proof.
  intros Hdata.
  assert (Hd : py_or (dict_get json "data") (PDict ∅) = PDict data).
  { unfold py_or, dict_get. rewrite Hdata. cbn.
    destruct (bool_decide (data = ∅)) eqn:E; [|reflexivity].
    apply bool_decide_eq_true in E. now subst. }
  assert (Hfall : forall usage v,
     truthy (dict_get data "total_cost") = false ->
     data !! "usage" = Some (PDict usage) ->
     usage !! "cost" = Some v -> v <> PNone ->
     cost_of_response 200 (Ok (PDict json)) = (f <- py_float v ;; Ok (Some f))).
  { intros usage v Htc Hu Hv Hnn.
    unfold cost_of_response, generation_cost. cbn [Z.eqb Pos.eqb bind py_get].
    rewrite Hd. cbn [py_get bind]. rewrite Htc. cbn [py_get_or bind].
    unfold dict_get_or. rewrite Hu. cbn [default py_get bind].
    unfold id. cbn [py_get bind]. unfold dict_get. rewrite Hv.
    cbn [default from_option id]. now destruct v. }
  repeat split.
  - intros status body Hst. unfold cost_of_response.
    destruct (Z.eqb_spec status 200); [contradiction|reflexivity].
  - intros Htc. unfold cost_of_response, generation_cost.
    cbn [Z.eqb Pos.eqb bind py_get]. rewrite Hd. cbn [py_get bind].
    rewrite Htc. cbn [bind].
    destruct (dict_get data "total_cost"); try reflexivity. discriminate Htc.
  - intros Htc Hu. unfold cost_of_response, generation_cost.
    cbn [Z.eqb Pos.eqb bind py_get]. rewrite Hd. cbn [py_get bind].
    rewrite Htc. cbn [py_get_or bind]. unfold dict_get_or. rewrite Hu.
    reflexivity.
  - exact Hfall.
  - intros usage Htc Hu Hv.
    rewrite (Hfall usage (PInt 0) Htc Hu Hv) by discriminate. reflexivity.
Qed.

End reconciliation_more.

(* ===================================================================== *)
(** * Routing and the aggregator                                          *)
(* ===================================================================== *)

Section aggregator_facts.
Variable env : gmap string string.

Lemma route_cases (model : string) :
  (startswith_any model AGGREGATOR_PREFIXES = true /\
   _detect_provider env model
     = (OPENROUTER_URL, environ_get env "OPENROUTER_API_KEY", model)) \/
  (startswith_any model AGGREGATOR_PREFIXES = false /\
   exists name,
     _detect_provider env model = (OPENAI_URL, environ_get env "OPENAI_API_KEY", name) \/
     _detect_provider env model = (GOOGLE_URL, environ_get env "GOOGLE_API_KEY", name)).
Proof.
  destruct (prefixes_exclusive model) as (Ho & Hg & Ha & Hx).
  unfold AGGREGATOR_PREFIXES.
  change (startswith_any model ["anthropic/"; "x-ai/"; "meta-llama/"; "qwen/"])
    with (startswith model "anthropic/"
          || startswith_any model ["x-ai/"; "meta-llama/"; "qwen/"]).
  unfold _detect_provider.
  destruct (startswith model "openai/") eqn:Eo.
  - destruct (Ho eq_refl) as (_ & _ & -> & ->). right. split; [reflexivity|eauto].
  - destruct (startswith model "google/" || startswith model "gemini") eqn:Eg.
    + right. split; [|eauto].
      destruct (startswith model "anthropic/") eqn:Ea.
      * destruct (Ha eq_refl) as (_ & E1 & E2). rewrite E1, E2 in Eg. discriminate Eg.
      * destruct (startswith_any model ["x-ai/"; "meta-llama/"; "qwen/"]) eqn:Ex;
          [|reflexivity].
        destruct (Hx eq_refl) as (_ & E1 & E2 & _). rewrite E1, E2 in Eg.
        discriminate Eg.
    + destruct (startswith model "anthropic/") eqn:Ea; [left; now split|].
      destruct (startswith_any model ["x-ai/"; "meta-llama/"; "qwen/"]) eqn:Ex.
      * left. now split.
      * right. split; [reflexivity|eauto].
Qed.

(** X9: a model goes to the aggregator exactly when its identifier starts
    with "anthropic/", "x-ai/", "meta-llama/" or "qwen/", whatever the
    order of the routing rules; the aggregator always gets the identifier
    unchanged; and the credential always belongs to the endpoint. *)
Theorem detect_provider_aggregator_iff (model : string) :
  let '(base_url, api_key, name) := _detect_provider env model in
  _is_openrouter base_url = startswith_any model AGGREGATOR_PREFIXES /\
  (_is_openrouter base_url = true ->
   name = model /\ api_key = environ_get env "OPENROUTER_API_KEY") /\
  (base_url = OPENAI_URL /\ api_key = environ_get env "OPENAI_API_KEY" \/
   base_url = GOOGLE_URL /\ api_key = environ_get env "GOOGLE_API_KEY" \/
   base_url = OPENROUTER_URL /\ api_key = environ_get env "OPENROUTER_API_KEY").
Proof.
  destruct (route_cases model) as [[Hp ->]|[Hp [name [-> | ->]]]]; rewrite Hp;
    (split; [reflexivity|]); (split; [intros E; try discriminate E; auto|]); auto.
Qed.

End aggregator_facts.

(* ===================================================================== *)
(** * Further properties of a chat call                                   *)
(* ===================================================================== *)

Section chat_more.
Context `{StrConv}.
Import LLMClient.
Local Open Scope list_scope.

Lemma val_truthy_world v w : snd (val_truthy v w) = w.
Proof.
  destruct v; [reflexivity|]. unfold val_truthy, mbind, deref.
  now destruct (heap w !! l).
Qed.

Lemma val_iter_world v w : snd (val_iter v w) = w.
Proof.
  destruct v as [x|l]; unfold val_iter, mbind, lift, deref.
  - now destruct (py_iter x).
  - now destruct (heap w !! l).
Qed.

Lemma val_fields_world v w : snd (val_fields v w) = w.
Proof.
  destruct v as [x|l]; unfold val_fields.
  - now destruct x.
  - unfold mbind, deref. destruct (heap w !! l) as [[|]|]; reflexivity.
Qed.

Lemma keeps_ret {A} (a : A) : keeps_objects (ret a).
Proof. intros w x o Hx. exact Hx. Qed.

Lemma keeps_lift {A} (r : res A) : keeps_objects (lift r).
Proof. intros w x o Hx. exact Hx. Qed.

Lemma keeps_mbind {A B} (c : M A) (k : A -> M B) :
  keeps_objects c -> (forall a, keeps_objects (k a)) -> keeps_objects (mbind c k).
Proof.
  intros Hc Hk w x o Hx. unfold mbind. specialize (Hc w x o Hx).
  destruct (c w) as [[a|e] w1]; cbn [snd] in *; [|exact Hc].
  now apply Hk.
Qed.

Lemma keeps_tools_with_cache_control tools :
  keeps_objects (tools_with_cache_control tools).
Proof.
  intros w x o Hx. unfold tools_with_cache_control, mbind.
  pose proof (val_iter_world tools w) as Hw0.
  destruct (val_iter tools w) as [[items|e] w0]; cbn [snd] in *; subst w0;
    [|exact Hx].
  unfold alloc at 1.
  set (l' := fresh (dom (heap w))).
  set (hp1 := <[l' := OList items]> (heap w)).
  assert (Hxl : x ≠ l').
  { intros ->. subst l'. rewrite fresh_heap_none in Hx. discriminate Hx. }
  assert (Hx1 : hp1 !! x = Some o) by (unfold hp1; now rewrite lookup_insert_ne).
  destruct (last items) as [last_item|]; [|exact Hx1].
  pose proof (val_fields_world last_item (with_heap w hp1)) as Hw1.
  destruct (val_fields last_item (with_heap w hp1)) as [[fields|e] w1];
    cbn [snd] in *; subst w1; [|exact Hx1].
  unfold alloc, store, ret. cbn [snd heap with_heap].
  set (d' := fresh (dom hp1)).
  assert (Hxd : x ≠ d').
  { intros ->. subst d'. rewrite fresh_heap_none in Hx1. discriminate Hx1. }
  now rewrite !lookup_insert_ne by congruence.
Qed.

Lemma keeps_build_kwargs model clean is_or messages tools effort mt tc :
  keeps_objects (build_kwargs model clean is_or messages tools effort mt tc).
Proof.
  unfold build_kwargs. apply keeps_mbind.
  - intros w x o Hx. now rewrite val_truthy_world.
  - intros [|]; [|apply keeps_ret].
    apply keeps_mbind; [|intros; apply keeps_ret].
    destruct (_ && _); [apply keeps_tools_with_cache_control|apply keeps_ret].
Qed.

Lemma get_client_heap h base key w : heap (snd (_get_client h base key w)) = heap w.
Proof.
  unfold _get_client. destruct (clients w !! base); [reflexivity|].
  destruct (openai_installed h); reflexivity.
Qed.

Lemma fetch_generation_cost_ok h gid base key w :
  exists r, fst (_fetch_generation_cost h gid base key w) = Ok r /\
            heap (snd (_fetch_generation_cost h gid base key w)) = heap w.
Proof.
  rewrite (fetch_generation_cost_run h gid base key w). cbv zeta.
  destruct (negb (_is_openrouter base)); [eauto|].
  destruct (negb (requests_installed h)); [eauto|].
  destruct (attempt_outcome _) as [[c|]|e]; eauto.
  destruct (attempt_outcome _) as [r|e]; eauto.
Qed.

Lemma reconcile_cost_cases h resp usage is_or base key w :
  reconcile_cost h resp usage is_or base key w = (Ok usage, w) \/
  (truthy (dict_get usage "cost") = false /\ is_or = true /\
   truthy (py_or (dict_get resp "id") (PStr "")) = true /\
   exists r,
     fst (_fetch_generation_cost h (py_format (py_or (dict_get resp "id") (PStr "")))
            base key w) = Ok r /\
     reconcile_cost h resp usage is_or base key w
       = (Ok match r with
             | Some c => <["cost" := PFloat c]> usage
             | None => usage
             end,
          snd (_fetch_generation_cost h (py_format (py_or (dict_get resp "id") (PStr "")))
                 base key w))).
Proof.
  unfold reconcile_cost.
  destruct (truthy (dict_get usage "cost")); [now left|].
  destruct is_or; [|now left]. cbn [negb andb].
  destruct (truthy (py_or (dict_get resp "id") (PStr ""))); [|now left].
  right. repeat split.
  destruct (fetch_generation_cost_ok h
              (py_format (py_or (dict_get resp "id") (PStr ""))) base key w)
    as (r & Hr & _).
  exists r. split; [exact Hr|]. unfold mbind.
  destruct (_fetch_generation_cost _ _ _ _ w) as [r' w']. cbn [fst snd] in *.
  subst r'. now destruct r.
Qed.

Lemma reconcile_cost_heap h resp usage is_or base key w :
  heap (snd (reconcile_cost h resp usage is_or base key w)) = heap w.
Proof.
  destruct (reconcile_cost_cases h resp usage is_or base key w)
    as [->|(_ & _ & _ & r & _ & ->)]; [reflexivity|]. cbn [snd].
  now destruct (fetch_generation_cost_ok h
                  (py_format (py_or (dict_get resp "id") (PStr ""))) base key w)
    as (r' & _ & ->).
Qed.

Lemma keeps_chat_request h base key clean messages model tools effort mt tc :
  keeps_objects (chat_request h base key clean messages model tools effort mt tc).
Proof.
  unfold chat_request. apply keeps_mbind.
  - intros w x o Hx. now rewrite get_client_heap.
  - intros _. apply keeps_mbind; [apply keeps_build_kwargs|].
    intros kwargs w x o Hx. exact Hx.
Qed.

Lemma keeps_chat h messages model tools effort mt tc :
  keeps_objects (chat h messages model tools effort mt tc).
Proof.
  unfold chat.
  destruct (_detect_provider (environ h) model) as [[base key] clean].
  apply keeps_mbind; [apply keeps_chat_request|intros resp].
  apply keeps_mbind; [apply keeps_lift|intros normalized].
  apply keeps_mbind; [|intros; apply keeps_ret].
  intros w x o Hx. now rewrite reconcile_cost_heap.
Qed.

(** X10: [chat] never updates an object that exists when it is called: the
    messages, the tool list and every tool are the same afterwards,
    whatever the route and whether the call returns or raises. *)
Theorem chat_keeps_objects h messages model tools effort mt tc w x o :
  heap w !! x = Some o ->
  heap (snd (chat h messages model tools effort mt tc w)) !! x = Some o.
Proof. apply keeps_chat. Qed.

(** What the first half of [chat] leaves in the trace: nothing when it
    raised before the request, else exactly the request, made with the
    keyword arguments that [build_kwargs] returned. *)
Lemma chat_request_trace h base key clean messages model tools effort mt tc w :
  let run := chat_request h base key clean messages model tools effort mt tc w in
  ((exists e, fst run = Raise e) /\ trace (snd run) = trace w) \/
  (fst run = completion h /\
   exists kwargs w0,
     trace (snd run) = trace w ++ [EvCreate base kwargs] /\
     fst (build_kwargs model clean (_is_openrouter base) messages tools
            (normalize_reasoning_effort effort "medium") mt tc w0) = Ok kwargs).
Proof.
  cbv zeta. unfold chat_request, mbind.
  pose proof (silent_get_client h base key w) as Hc.
  destruct (_get_client h base key w) as [[c|e] w1]; cbn [snd fst] in *;
    [|left; split; [eauto|exact Hc]].
  pose proof (silent_build_kwargs model clean (_is_openrouter base) messages tools
                (normalize_reasoning_effort effort "medium") mt tc w1) as Hk.
  destruct (build_kwargs _ _ _ _ _ _ _ _ w1) as [[kwargs|e] w2] eqn:Eb;
    cbn [snd fst] in *; [|left; split; [eauto|now rewrite Hk]].
  right. unfold create. cbn [fst snd record_event trace]. split; [reflexivity|].
  exists kwargs, w1. rewrite Eb. cbn [fst]. split; [now rewrite Hk, Hc|reflexivity].
Qed.

(** X11: a failure of the chat-completion request surfaces: [chat] raises,
    makes no cost look-up and does not retry (the trace grows by at most
    one request); with the client available and no tools it raises the
    exception of the request itself. *)
Theorem chat_request_failure_surfaces h messages model tools effort mt tc w e :
  completion h = Raise e ->
  let run := chat h messages model tools effort mt tc w in
  (exists e', fst run = Raise e') /\
  count_gets (trace (snd run)) = count_gets (trace w) /\
  (length (trace (snd run)) <= S (length (trace w)))%nat /\
  (tools = VLit PNone -> openai_installed h = true -> fst run = Raise e).
Proof.
  intros Hfail. cbv zeta. unfold chat.
  destruct (_detect_provider (environ h) model) as [[base key] clean].
  pose proof (chat_request_trace h base key clean messages model tools effort mt tc w)
    as Htr.
  pose proof (chat_request_no_tools h base key clean messages model effort mt tc w)
    as Hplain.
  cbv zeta in Htr. unfold mbind, lift, ret.
  destruct (chat_request h base key clean messages model tools effort mt tc w)
    as [r w1] eqn:Ereq. cbn [fst snd] in *.
  assert (Hr : exists e', r = Raise e').
  { destruct Htr as [[He _]|[-> _]]; [exact He|]. rewrite Hfail. eauto. }
  destruct Hr as [e' ->]. cbn [fst snd]. repeat split.
  - eauto.
  - destruct Htr as [[_ ->]|[_ (kwargs & w0 & -> & _)]]; [reflexivity|].
    rewrite count_gets_app. change (count_gets [EvCreate base kwargs]) with 0%nat. lia.
  - destruct Htr as [[_ ->]|[_ (kwargs & w0 & -> & _)]]; [lia|].
    rewrite length_app. cbn. lia.
  - intros -> Hi. rewrite Ereq in Hplain. cbn [fst] in Hplain.
    specialize (Hplain Hi). congruence.
Qed.

(** X12: a model that is not routed to the aggregator never triggers a cost
    look-up: [chat] makes no GET request and returns the normalised usage
    record as it is. *)
Theorem chat_direct_route_no_lookup h messages model tools effort mt tc w :
  startswith_any model AGGREGATOR_PREFIXES = false ->
  let run := chat h messages model tools effort mt tc w in
  count_gets (trace (snd run)) = count_gets (trace w) /\
  (forall msg usage,
     fst run = Ok (msg, usage) ->
     exists resp, completion h = Ok resp /\ normalize_usage resp = Ok (msg, usage)) /\
  (forall resp msg usage,
     completion h = Ok resp -> normalize_usage resp = Ok (msg, usage) ->
     tools = VLit PNone -> openai_installed h = true ->
     fst run = Ok (msg, usage)).
Proof.
  intros Hdirect. cbv zeta. unfold chat.
  assert (Hbase : _is_openrouter (fst (fst (_detect_provider (environ h) model))) = false).
  { destruct (route_cases (environ h) model) as [[Hp _]|[_ [name [-> | ->]]]];
      [congruence|reflexivity|reflexivity]. }
  destruct (_detect_provider (environ h) model) as [[base key] clean].
  cbn [fst] in Hbase.
  pose proof (chat_request_spec h base key clean messages model tools effort mt tc w)
    as [Hquiet Hout].
  pose proof (chat_request_no_tools h base key clean messages model effort mt tc w)
    as Hplain.
  assert (Hrec : forall resp usage w1,
            reconcile_cost h resp usage (_is_openrouter base) base key w1
              = (Ok usage, w1)).
  { intros resp usage w1. unfold reconcile_cost. rewrite Hbase.
    now rewrite andb_false_r. }
  unfold mbind, lift, ret.
  destruct (chat_request h base key clean messages model tools effort mt tc w)
    as [[resp|e] w1] eqn:Ereq; cbn [fst snd] in *.
  - specialize (Hout resp eq_refl).
    destruct (normalize_usage resp) as [[msg usage]|e] eqn:En; cbn [fst snd].
    + rewrite Hrec. cbn [fst snd]. repeat split; [exact Hquiet| |].
      * intros msg' usage' E. inversion E; subst. eauto.
      * intros resp' msg' usage' Hresp Hn _ _. congruence.
    + repeat split; [exact Hquiet|discriminate|].
      intros resp' msg' usage' Hresp Hn _ _. congruence.
  - repeat split; [exact Hquiet|discriminate|].
    intros resp msg usage Hresp Hn -> Hi. rewrite Ereq in Hplain. cbn [fst] in Hplain.
    specialize (Hplain Hi). congruence.
Qed.

(** X13: reconciliation never raises and changes the usage record at most in
    its cost: when the look-up yields a cost it is stored, otherwise the
    record is returned as it is; a response without an id is not looked
    up at all. *)
Theorem reconcile_cost_fills_only_cost h resp usage is_or base key w :
  exists usage',
    fst (reconcile_cost h resp usage is_or base key w) = Ok usage' /\
    (forall k, k <> "cost" -> usage' !! k = usage !! k) /\
    (usage' = usage \/
     exists c, usage' = <["cost" := PFloat c]> usage /\
               fst (_fetch_generation_cost h
                      (py_format (py_or (dict_get resp "id") (PStr ""))) base key w)
                 = Ok (Some c)) /\
    (truthy (py_or (dict_get resp "id") (PStr "")) = false ->
     reconcile_cost h resp usage is_or base key w = (Ok usage, w)) /\
    (forall c,
       truthy (dict_get usage "cost") = false -> is_or = true ->
       truthy (py_or (dict_get resp "id") (PStr "")) = true ->
       fst (_fetch_generation_cost h
              (py_format (py_or (dict_get resp "id") (PStr ""))) base key w)
         = Ok (Some c) ->
       usage' = <["cost" := PFloat c]> usage).
Proof.
  destruct (reconcile_cost_cases h resp usage is_or base key w)
    as [Hsame|(Hc & Hor & Hid & r & Hr & Hrun)].
  - exists usage. rewrite Hsame. cbn [fst]. repeat split; auto.
    intros c Hc Hor Hid Hr. unfold reconcile_cost in Hsame.
    rewrite Hc, Hor, Hid in Hsame. cbn [negb andb] in Hsame.
    unfold mbind in Hsame.
    destruct (_fetch_generation_cost _ _ _ _ w) as [r' w']. cbn [fst] in Hr.
    subst r'. cbn in Hsame. inversion Hsame as [[Hu Hw]].
    now rewrite Hu.
  - rewrite Hrun. cbn [fst]. eexists. split; [reflexivity|]. repeat split.
    + intros k Hk. destruct r; [now apply lookup_insert_ne|reflexivity].
    + destruct r as [c|]; [right; eauto|now left].
    + intros Hnoid. congruence.
    + intros c _ _ _ Hc'. rewrite Hr in Hc'. now inversion Hc'.
Qed.

End chat_more.

(* ===================================================================== *)
(** * Further properties of the request payload                           *)
(* ===================================================================== *)

Section payload_more.
Import LLMClient.
Local Open Scope list_scope.

Lemma request_kwargs_lookup model clean is_or messages effort mt :
  let kwargs := request_kwargs model clean is_or messages effort mt in
  kwargs !! "model" = Some (VLit (PStr clean)) /\
  kwargs !! "messages" = Some messages /\
  kwargs !! "max_tokens" = Some (VLit (PInt mt)) /\
  kwargs !! "extra_body"
    = Some (VLit (PDict (request_extra_body model is_or effort))) /\
  kwargs !! "tools" = None /\ kwargs !! "tool_choice" = None.
Proof.
  cbv zeta. unfold request_kwargs. repeat split;
    rewrite ?lookup_insert_eq, ?lookup_insert_ne by congruence;
    rewrite ?lookup_insert_eq, ?lookup_insert_ne by congruence;
    rewrite ?lookup_insert_eq, ?lookup_insert_ne by congruence;
    rewrite ?lookup_insert_eq, ?lookup_insert_ne by congruence;
    try reflexivity; apply lookup_empty.
Qed.

(** What [build_kwargs] returns when it returns: the request as first
    built, and the tools and the tool choice together or not at all. *)
Lemma build_kwargs_result model clean is_or messages tools effort mt tc w kwargs w' :
  build_kwargs model clean is_or messages tools effort mt tc w = (Ok kwargs, w') ->
  (kwargs = request_kwargs model clean is_or messages effort mt /\
   fst (val_truthy tools w) = Ok false /\ w' = w) \/
  (exists sent,
     kwargs = <["tool_choice" := VLit (PStr tc)]>
                (<["tools" := sent]>
                   (request_kwargs model clean is_or messages effort mt)) /\
     fst (val_truthy tools w) = Ok true /\
     (is_or && _is_anthropic_model model = false -> sent = tools /\ w' = w)).
Proof.
  unfold build_kwargs, mbind. intros Hrun.
  pose proof (val_truthy_world tools w) as Hw.
  destruct (val_truthy tools w) as [[[|]|e] w0]; cbn [fst snd] in *; subst w0.
  - right.
    destruct (is_or && _is_anthropic_model model).
    + destruct (tools_with_cache_control tools w) as [[sent|e] w1];
        [|discriminate Hrun].
      inversion Hrun; subst. exists sent. repeat split; discriminate.
    + inversion Hrun; subst. exists tools. repeat split; reflexivity.
  - left. inversion Hrun; subst. repeat split; reflexivity.
  - discriminate Hrun.
Qed.

(** X14: the payload carries [tools] and [tool_choice] exactly when the tools
    given are truthy (a missing, null or empty list sends neither).
    Unless the model is an Anthropic model on the aggregator, the tools
    are passed as the very object that the caller gave and nothing is
    allocated.  Model, messages and max_tokens are always those of the
    call. *)
Theorem tools_sent_iff_given model clean is_or messages tools effort mt tc w kwargs w' :
  build_kwargs model clean is_or messages tools effort mt tc w = (Ok kwargs, w') ->
  (is_Some (kwargs !! "tools") <-> fst (val_truthy tools w) = Ok true) /\
  (is_Some (kwargs !! "tools") <-> kwargs !! "tool_choice" = Some (VLit (PStr tc))) /\
  (is_or && _is_anthropic_model model = false ->
   fst (val_truthy tools w) = Ok true ->
   kwargs !! "tools" = Some tools /\ w' = w) /\
  (fst (val_truthy tools w) = Ok false ->
   kwargs !! "tools" = None /\ kwargs !! "tool_choice" = None /\ w' = w) /\
  kwargs !! "model" = Some (VLit (PStr clean)) /\
  kwargs !! "messages" = Some messages /\
  kwargs !! "max_tokens" = Some (VLit (PInt mt)).
Proof.
  intros Hrun.
  destruct (request_kwargs_lookup model clean is_or messages effort mt)
    as (Hmodel & Hmsg & Hmt & _ & Hnotools & Hnochoice).
  destruct (build_kwargs_result _ _ _ _ _ _ _ _ _ _ _ Hrun)
    as [(-> & Hfalse & ->)|(sent & -> & Htrue & Hsame)].
  - rewrite Hnotools, Hnochoice, Hfalse. repeat split; try assumption;
      try discriminate; try (intros [? E]; discriminate E).
  - rewrite Htrue.
    rewrite (lookup_insert_ne _ "tool_choice" "tools") by congruence.
    rewrite !lookup_insert_eq.
    rewrite !(lookup_insert_ne _ "tool_choice") by congruence.
    rewrite !(lookup_insert_ne _ "tools") by congruence.
    repeat split; try assumption; try discriminate; eauto.
    + match goal with Hno : _ && _ = false |- _ => now destruct (Hsame Hno) as [-> _] end.
    + match goal with Hno : _ && _ = false |- _ => now destruct (Hsame Hno) as [_ ->] end.
Qed.

(** X15: every request that [chat] makes names the canonical model and carries
    a reasoning extension whose effort is one of the six efforts and whose
    trace is excluded; the provider pin is present exactly for an
    Anthropic model on the aggregator. *)
Theorem chat_request_reasoning h base key clean messages model tools effort mt tc w
    endpoint kwargs :
  trace (snd (chat_request h base key clean messages model tools effort mt tc w))
    = trace w ++ [EvCreate endpoint kwargs] ->
  endpoint = base /\
  kwargs !! "model" = Some (VLit (PStr clean)) /\
  exists extra_body reasoning e,
    kwargs !! "extra_body" = Some (VLit (PDict extra_body)) /\
    extra_body !! "reasoning" = Some (PDict reasoning) /\
    reasoning !! "effort" = Some (PStr e) /\ In e EFFORTS /\
    reasoning !! "exclude" = Some (PBool true) /\
    (is_Some (extra_body !! "provider")
       <-> _is_openrouter base && _is_anthropic_model model = true).
Proof.
  intros Htrace.
  pose proof (chat_request_trace h base key clean messages model tools effort mt tc w)
    as Hcases.
  cbv zeta in Hcases.
  destruct Hcases as [[_ Hsame]|[_ (kwargs' & w0 & Hsent & Hbuilt)]].
  - rewrite Hsame in Htrace. apply (f_equal length) in Htrace.
    rewrite length_app in Htrace. cbn in Htrace. lia.
  - rewrite Hsent in Htrace. apply app_inv_head in Htrace.
    inversion Htrace; subst endpoint kwargs'. split; [reflexivity|].
    destruct (build_kwargs model clean (_is_openrouter base) messages tools
                (normalize_reasoning_effort effort "medium") mt tc w0)
      as [r w1] eqn:Eb. cbn [fst] in Hbuilt. subst r.
    destruct (request_kwargs_lookup model clean (_is_openrouter base) messages
                (normalize_reasoning_effort effort "medium") mt)
      as (Hmodel & _ & _ & Hextra & _).
    assert (Hkeep : kwargs !! "model" = Some (VLit (PStr clean)) /\
                    kwargs !! "extra_body"
                      = Some (VLit (PDict (request_extra_body model
                                 (_is_openrouter base)
                                 (normalize_reasoning_effort effort "medium"))))).
    { destruct (build_kwargs_result _ _ _ _ _ _ _ _ _ _ _ Eb)
        as [(-> & _)|(sent & -> & _)]; [now split|].
      now rewrite !lookup_insert_ne by congruence. }
    destruct Hkeep as [Hm He]. split; [exact Hm|].
    exists (request_extra_body model (_is_openrouter base)
              (normalize_reasoning_effort effort "medium")),
           (<["effort" := PStr (normalize_reasoning_effort effort "medium")]>
              (<["exclude" := PBool true]> ∅)),
           (normalize_reasoning_effort effort "medium").
    split; [exact He|]. unfold request_extra_body.
    assert (Hin : In (normalize_reasoning_effort effort "medium") EFFORTS).
    { unfold normalize_reasoning_effort.
      destruct (existsb _ EFFORTS) eqn:E; [|cbn; tauto].
      apply existsb_exists in E as (x & Hx & Heq).
      apply String.eqb_eq in Heq. now subst. }
    destruct (_is_openrouter base && _is_anthropic_model model);
      rewrite ?(lookup_insert_ne _ "provider" "reasoning") by congruence;
      rewrite ?lookup_insert_eq, ?lookup_singleton_eq;
      repeat split; try reflexivity; try exact Hin; eauto.
    + intros [? E]. rewrite lookup_singleton_ne in E by congruence. discriminate E.
    + discriminate.
Qed.

End payload_more.

(* ===================================================================== *)
(** * Further properties of usage normalisation                           *)
(* ===================================================================== *)

Section normalisation_more.
Context `{StrConv}.
Import LLMClient.

Implicit Types usage details : gmap string pyval.

(** X16: the promotion of [cached_tokens]: a non-zero top-level value is never
    replaced; otherwise a non-zero value of the nested details is
    promoted, converted by [int]; nested details that are missing, null,
    not a dictionary, or hold no non-zero value change nothing. *)
Theorem cached_tokens_promotion usage :
  (truthy (dict_get usage "cached_tokens") = true ->
   promote_cached usage = Ok usage) /\
  (forall details,
     truthy (dict_get usage "cached_tokens") = false ->
     dict_get usage "prompt_tokens_details" = PDict details ->
     truthy (dict_get details "cached_tokens") = true ->
     promote_cached usage
       = (n <- py_int (dict_get details "cached_tokens") ;;
          Ok (<["cached_tokens" := PInt n]> usage))) /\
  (forall details,
     dict_get usage "prompt_tokens_details" = PDict details ->
     truthy (dict_get details "cached_tokens") = false ->
     promote_cached usage = Ok usage) /\
  (forall v,
     dict_get usage "prompt_tokens_details" = v ->
     (forall details, v <> PDict details) ->
     promote_cached usage = Ok usage).
Proof.
  unfold promote_cached. repeat split.
  - now intros ->.
  - intros details -> Hd Hn. cbn [negb]. unfold py_or. rewrite Hd.
    destruct (truthy (PDict details)) eqn:Et.
    + now rewrite Hn.
    + cbn in Et. apply negb_false_iff, bool_decide_eq_true in Et. subst details.
      unfold dict_get in Hn. rewrite lookup_empty in Hn. discriminate Hn.
  - intros details Hd Hn. destruct (negb _); [|reflexivity].
    unfold py_or. rewrite Hd.
    destruct (truthy (PDict details)) eqn:Et.
    + now rewrite Hn.
    + unfold dict_get. now rewrite lookup_empty.
  - intros v Hv Hnd. destruct (negb _); [|reflexivity].
    unfold py_or. rewrite Hv.
    destruct (truthy v) eqn:Et.
    + destruct v; try reflexivity. now destruct (Hnd d).
    + unfold dict_get. now rewrite lookup_empty.
Qed.

(** X17: normalisation is not total.  A non-zero nested [cached_tokens] that
    [int] rejects (a list, a non-numeric string) makes it raise, and then
    [chat] raises that exception after the request has been made, with no
    cost look-up. *)
Theorem normalize_usage_raises_on_bad_detail resp msg usage details e :
  response_message resp = Ok msg ->
  response_usage resp = Ok usage ->
  truthy (dict_get usage "cached_tokens") = false ->
  dict_get usage "prompt_tokens_details" = PDict details ->
  truthy (dict_get details "cached_tokens") = true ->
  py_int (dict_get details "cached_tokens") = Raise e ->
  normalize_usage resp = Raise e /\
  (forall h messages model effort mt tc w,
     completion h = Ok resp -> openai_installed h = true ->
     let run := chat h messages model (VLit PNone) effort mt tc w in
     fst run = Raise e /\
     count_gets (trace (snd run)) = count_gets (trace w) /\
     length (trace (snd run)) = S (length (trace w))).
Proof.
  intros Hm Hu Htop Hd Hn Hint.
  assert (Hnorm : normalize_usage resp = Raise e).
  { unfold normalize_usage. rewrite Hm, Hu. cbn [bind].
    unfold promote_cached. rewrite Htop. cbn [negb]. unfold py_or. rewrite Hd.
    assert (Ht : truthy (PDict details) = true).
    { cbn. apply negb_true_iff, bool_decide_eq_false. intros ->.
      unfold dict_get in Hn. rewrite lookup_empty in Hn. discriminate Hn. }
    rewrite Ht, Hn, Hint. reflexivity. }
  split; [exact Hnorm|].
  intros h messages model effort mt tc w Hresp Hi. cbv zeta. unfold chat.
  destruct (_detect_provider (environ h) model) as [[base key] clean].
  pose proof (chat_request_no_tools h base key clean messages model effort mt tc w Hi)
    as Hplain.
  pose proof (chat_request_trace h base key clean messages model (VLit PNone)
                effort mt tc w) as Htr.
  cbv zeta in Htr. unfold mbind, lift.
  destruct (chat_request h base key clean messages model (VLit PNone) effort mt tc w)
    as [r w1]. cbn [fst snd] in *. rewrite Hplain, Hresp, Hnorm. cbn [fst snd].
  destruct Htr as [[[e' He'] _]|[_ (kwargs & w0 & -> & _)]]; [congruence|].
  repeat split.
  - rewrite count_gets_app. change (count_gets [EvCreate base kwargs]) with 0%nat. lia.
  - rewrite length_app. cbn. lia.
Qed.

(** X18: a response without choices and without usage is not an error: the
    message and the usage record are empty.  The first choice is what
    counts, and a first choice that is not a dictionary raises. *)
Theorem normalize_usage_sparse_response resp :
  (truthy (dict_get resp "choices") = false ->
   response_message resp = Ok (PDict ∅)) /\
  (truthy (dict_get resp "usage") = false -> response_usage resp = Ok ∅) /\
  (truthy (dict_get resp "choices") = false ->
   truthy (dict_get resp "usage") = false ->
   normalize_usage resp = Ok (PDict ∅, ∅)) /\
  (forall first rest,
     dict_get resp "choices" = PList (PDict first :: rest) ->
     response_message resp = Ok (py_or (dict_get first "message") (PDict ∅))) /\
  (forall first rest,
     dict_get resp "choices" = PList (first :: rest) ->
     (forall d, first <> PDict d) ->
     response_message resp = Raise AttributeError).
Proof.
  assert (Hmsg : truthy (dict_get resp "choices") = false ->
                 response_message resp = Ok (PDict ∅)).
  { intros Hc. unfold response_message, py_or. rewrite Hc. reflexivity. }
  assert (Huse : truthy (dict_get resp "usage") = false ->
                 response_usage resp = Ok ∅).
  { intros Hu. unfold response_usage, py_or. now rewrite Hu. }
  repeat split; try assumption.
  - intros Hc Hu. unfold normalize_usage. rewrite (Hmsg Hc), (Huse Hu). reflexivity.
  - intros first rest Hc. unfold response_message, py_or. rewrite Hc. reflexivity.
  - intros first rest Hc Hnd. unfold response_message, py_or. rewrite Hc.
    cbn [truthy first_item bind].
    destruct first; try reflexivity. now destruct (Hnd d).
Qed.

End normalisation_more.

(* ===================================================================== *)
(** * Further properties of the pricing fetch                             *)
(* ===================================================================== *)

Section pricing_more.
Context `{StrConv}.
Local Open Scope list_scope.

Lemma price_entry_kept model id ps :
  price_entry model = Ok (Some (id, ps)) ->
  startswith_any id PRICING_PREFIXES = true /\
  exists entry, model = PDict entry /\ entry !! "id" = Some (PStr id).
Proof.
  unfold price_entry. intros Hrun.
  destruct model as [| | | | | |entry]; cbn [py_get_or bind] in Hrun;
    try discriminate Hrun.
  unfold dict_get_or in Hrun.
  destruct (entry !! "id") as [[| | | |s| |]|] eqn:Eid;
    cbn [from_option Datatypes.id bind] in Hrun;
    try discriminate Hrun.
  destruct (startswith_any s PRICING_PREFIXES) eqn:Ep; cbn [negb] in Hrun;
    [|discriminate Hrun].
  destruct (entry_prices _) as [[ps'|]|]; cbn [bind option_map] in Hrun;
    try discriminate Hrun.
  inversion Hrun; subst. split; [exact Ep|]. eauto.
Qed.

Lemma price_entries_origin models : forall acc d id ps,
  price_entries models acc = Ok d -> d !! id = Some ps ->
  acc !! id = Some ps \/
  exists model, model ∈ models /\ price_entry model = Ok (Some (id, ps)).
Proof.
  induction models as [|m ms IH]; intros acc d id ps Hrun Hl.
  - cbn in Hrun. inversion Hrun; subst. now left.
  - cbn [price_entries] in Hrun.
    destruct (price_entry m) as [r|] eqn:Em; cbn [bind] in Hrun; [|discriminate Hrun].
    destruct (IH _ d id ps Hrun Hl) as [Hacc|(model & Hin & Hm)].
    + destruct r as [[id0 ps0]|]; [|now left].
      destruct (decide (id0 = id)) as [->|Hne].
      * rewrite lookup_insert_eq in Hacc. inversion Hacc; subst.
        right. exists m. split; [apply elem_of_cons; now left|exact Em].
      * rewrite lookup_insert_ne in Hacc by assumption. now left.
    + right. exists model. split; [apply elem_of_cons; now right|exact Hm].
Qed.

Lemma price_entries_raises models : forall acc,
  Exists (fun model => exists e, price_entry model = Raise e) models ->
  exists e, price_entries models acc = Raise e.
Proof.
  induction models as [|m ms IH]; intros acc Hbad; [inversion Hbad|].
  cbn [price_entries].
  destruct (price_entry m) as [r|e] eqn:Em; cbn [bind]; [|eauto].
  inversion Hbad as [? ? [e He]|? ? Hrest]; subst; [congruence|].
  now apply IH.
Qed.

(** X19: every key of the fetched mapping starts with one of the six tracked
    vendor prefixes and is the id of an entry of the catalogue, whose
    derived prices are the ones stored. *)
Theorem pricing_keys_tracked env inst reply d id ps :
  fetch_openrouter_pricing env inst reply = Ok d ->
  d !! id = Some ps ->
  startswith_any id PRICING_PREFIXES = true /\
  exists status data models items entry,
    reply = Reply status (Ok data) /\
    py_get_or data "data" (PList []) = Ok models /\
    py_iter models = Ok items /\
    PDict entry ∈ items /\ entry !! "id" = Some (PStr id) /\
    price_entry (PDict entry) = Ok (Some (id, ps)).
Proof.
  intros Hrun Hl.
  destruct (fetch_pricing_cases env inst reply) as [Hempty|(d' & Hreq & Hfetch)].
  - rewrite Hempty in Hrun. inversion Hrun; subst.
    rewrite lookup_empty in Hl. discriminate Hl.
  - rewrite Hfetch in Hrun. inversion Hrun; subst d'.
    unfold pricing_request in Hreq. destruct reply as [status body|e];
      [|discriminate Hreq].
    destruct (raise_for_status status); cbn [bind] in Hreq; [|discriminate Hreq].
    destruct body as [data|]; cbn [bind] in Hreq; [|discriminate Hreq].
    destruct (py_get_or data "data" (PList [])) as [models|] eqn:Em;
      cbn [bind] in Hreq; [|discriminate Hreq].
    destruct (py_iter models) as [items|] eqn:Ei; cbn [bind] in Hreq;
      [|discriminate Hreq].
    destruct (price_entries_origin items ∅ d id ps Hreq Hl)
      as [Hacc|(model & Hin & Hm)].
    + rewrite lookup_empty in Hacc. discriminate Hacc.
    + destruct (price_entry_kept model id ps Hm) as (Hp & entry & -> & Hid).
      split; [exact Hp|]. exists status, data, models, items, entry.
      repeat split; assumption.
Qed.

(** X20: the fetch is all or nothing: one entry of the catalogue that makes
    the loop raise discards every other entry, and the result is the
    empty mapping.  Such entries are an entry that is not an object, an id
    that is not a string, and a tracked entry whose prompt price [float]
    rejects. *)
Theorem pricing_one_bad_entry_discards_all env inst status data models items :
  py_get_or data "data" (PList []) = Ok models ->
  py_iter models = Ok items ->
  Exists (fun model => exists e, price_entry model = Raise e) items ->
  fetch_openrouter_pricing env inst (Reply status (Ok data)) = Ok ∅ /\
  (forall v, (forall d, v <> PDict d) -> exists e, price_entry v = Raise e) /\
  (forall entry v, entry !! "id" = Some v -> (forall s, v <> PStr s) ->
     price_entry (PDict entry) = Raise AttributeError) /\
  (forall entry id pricing v e,
     entry !! "id" = Some (PStr id) -> startswith_any id PRICING_PREFIXES = true ->
     entry !! "pricing" = Some (PDict pricing) ->
     pricing !! "prompt" = Some v -> truthy v = true -> py_float v = Raise e ->
     price_entry (PDict entry) = Raise e).
Proof.
  intros Hm Hi Hbad. split; [|split; [|split]].
  - destruct (fetch_pricing_cases env inst (Reply status (Ok data)))
      as [Hempty|(d & Hreq & _)]; [exact Hempty|].
    unfold pricing_request in Hreq.
    destruct (raise_for_status status); cbn [bind] in Hreq; [|discriminate Hreq].
    rewrite Hm in Hreq. cbn [bind] in Hreq. rewrite Hi in Hreq. cbn [bind] in Hreq.
    destruct (price_entries_raises items ∅ Hbad) as [e He]. congruence.
  - intros v Hv. unfold price_entry.
    destruct v; cbn [py_get_or bind]; eauto. now destruct (Hv d).
  - intros entry v Hid Hv. unfold price_entry. cbn [py_get_or bind].
    unfold dict_get_or. rewrite Hid. cbn [default bind].
    destruct v; try reflexivity. now destruct (Hv s).
  - intros entry id pricing v e Hid Hp Hpricing Hprompt Hv He.
    unfold price_entry. cbn [py_get_or bind]. unfold dict_get_or.
    rewrite Hid, Hpricing. cbn [from_option Datatypes.id bind]. rewrite Hp.
    cbn [negb bind]. unfold entry_prices.
    rewrite (dict_truthy_lookup pricing "prompt" v Hprompt).
    cbn [negb py_get py_get_or bind]. unfold dict_get, dict_get_or.
    rewrite Hprompt. cbn [from_option Datatypes.id]. rewrite Hv. cbn [negb bind].
    rewrite He. reflexivity.
Qed.

End pricing_more.

(* ===================================================================== *)
(** * Properties of the vision query                                      *)
(* ===================================================================== *)

Section vision_facts.
Context `{StrConv}.
Import LLMClient.
Local Open Scope list_scope.

Lemma image_part_dict (img : gmap string pyval) :
  (forall url, img !! "url" = Some url ->
     image_part (PDict img) = Ok (Some (image_url_part url))) /\
  (sendable img = false -> image_part (PDict img) = Ok None) /\
  (sendable img = true -> exists p, image_part (PDict img) = Ok (Some p)).
Proof.
  unfold sendable, image_part. cbn [py_in bind py_item py_get_or py_keys].
  repeat split.
  - intros url Hu. rewrite Hu. rewrite bool_decide_eq_true_2 by eauto. reflexivity.
  - intros Hno. apply orb_false_iff in Hno as [-> ->]. reflexivity.
  - intros Hyes.
    destruct (img !! "url") as [u|] eqn:Eu.
    + rewrite bool_decide_eq_true_2 by eauto. eauto.
    + rewrite bool_decide_eq_false_2 by (intros [? E]; discriminate E).
      rewrite bool_decide_eq_false_2 in Hyes by (intros [? E]; discriminate E).
      cbn [orb] in Hyes. rewrite Hyes.
      apply bool_decide_eq_true in Hyes as [b Hb]. rewrite Hb. cbn [bind]. eauto.
Qed.

Lemma image_part_not_dict (v : pyval) :
  (forall d, v <> PDict d) -> exists e, image_part v = Raise e.
Proof.
  intros Hv. unfold image_part.
  destruct v as [| | | |s|l|d]; cbn [py_in bind]; eauto.
  - destruct (contains "url" s); cbn [py_item bind]; [eauto|].
    destruct (contains "base64" s); cbn [py_get_or py_keys bind]; eauto.
  - destruct (existsb _ l); cbn [py_item bind]; [eauto|].
    destruct (existsb _ l); cbn [py_get_or py_keys bind]; eauto.
  - now destruct (Hv d).
Qed.

Lemma image_parts_dicts (images : list (gmap string pyval)) :
  exists parts,
    image_parts (map PDict images) = Ok parts /\
    length parts = length (filter (fun img => sendable img = true) images).
Proof.
  induction images as [|img rest (parts & Hrun & Hlen)]; [now exists []|].
  cbn [map image_parts]. rewrite Hrun.
  destruct (image_part_dict img) as (_ & Hskip & Hsend).
  destruct (sendable img) eqn:Es.
  - destruct (Hsend eq_refl) as [p ->]. cbn [bind]. eexists. split; [reflexivity|].
    rewrite filter_cons_True by assumption. cbn. now rewrite Hlen.
  - rewrite (Hskip eq_refl). cbn [bind]. exists parts. split; [reflexivity|].
    rewrite filter_cons_False; [assumption|]. congruence.
Qed.

Lemma image_parts_app xs : forall ys px py,
  image_parts xs = Ok px -> image_parts ys = Ok py ->
  image_parts (xs ++ ys) = Ok (px ++ py).
Proof.
  induction xs as [|x xs IH]; intros ys px py Hx Hy.
  - cbn in Hx. inversion Hx; subst. exact Hy.
  - cbn [image_parts app] in *.
    destruct (image_part x) as [part|]; cbn [bind] in *; [|discriminate Hx].
    destruct (image_parts xs) as [rest|] eqn:Er; cbn [bind] in *; [|discriminate Hx].
    rewrite (IH ys rest py eq_refl Hy). cbn [bind].
    inversion Hx; subst. now destruct part.
Qed.

Lemma image_parts_raises images :
  Exists (fun v => forall d, v <> PDict d) images ->
  exists e, image_parts images = Raise e.
Proof.
  induction images as [|img rest IH]; intros Hbad; [inversion Hbad|].
  cbn [image_parts].
  inversion Hbad as [? ? Hv|? ? Hrest]; subst.
  - destruct (image_part_not_dict img Hv) as [e ->]. eauto.
  - destruct (image_part img); cbn [bind]; [|eauto].
    destruct (IH Hrest) as [e ->]. eauto.
Qed.

(** X21: the content of a vision query: the prompt, then one part for each
    image that has a "url" or a "base64" key, in the order of the images;
    an image with a "url" is sent by its url, whether or not it has
    "base64" too; an image with neither is skipped.  An image that is not
    a dictionary makes the query raise before anything is sent. *)
Theorem vision_query_content h prompt model mt effort w :
  (forall images : list (gmap string pyval),
     exists parts,
       image_parts (map PDict images) = Ok parts /\
       length parts = length (filter (fun img => sendable img = true) images) /\
       vision_query h prompt (map PDict images) model mt effort w
         = mbind (chat h (VLit (vision_messages prompt parts)) model (VLit PNone)
                    effort mt "auto")
             (fun answered =>
                mbind (lift (py_get (fst answered) "content"))
                  (fun content => ret (py_or content (PStr ""), snd answered))) w) /\
  (forall (img : gmap string pyval) url,
     img !! "url" = Some url ->
     image_parts [PDict img] = Ok [image_url_part url]) /\
  (forall img : gmap string pyval,
     sendable img = false -> image_parts [PDict img] = Ok []) /\
  (forall xs ys px py,
     image_parts xs = Ok px -> image_parts ys = Ok py ->
     image_parts (xs ++ ys) = Ok (px ++ py)) /\
  (forall images,
     Exists (fun v => forall d, v <> PDict d) images ->
     exists e, vision_query h prompt images model mt effort w = (Raise e, w)).
Proof.
  repeat split.
  - intros images. destruct (image_parts_dicts images) as (parts & Hrun & Hlen).
    exists parts. repeat split; try assumption.
    unfold vision_query. unfold mbind at 1, lift at 1. now rewrite Hrun.
  - intros img url Hu. destruct (image_part_dict img) as (Hurl & _).
    cbn [image_parts]. now rewrite (Hurl url Hu).
  - intros img Hno. destruct (image_part_dict img) as (_ & Hskip & _).
    cbn [image_parts]. now rewrite (Hskip Hno).
  - apply image_parts_app.
  - intros images Hbad. destruct (image_parts_raises images Hbad) as [e He].
    exists e. unfold vision_query, mbind at 1, lift at 1. now rewrite He.
Qed.




End vision_facts.

(* ===================================================================== *)
(** * The further properties, run                                         *)
(* ===================================================================== *)

Lemma get_client_cached_witness :
  exists c w1,
    LLMClient._get_client host_down OPENROUTER_URL "sk" empty_world = (Ok c, w1) /\
    LLMClient._get_client host_failing OPENROUTER_URL "other" w1 = (Ok c, w1) /\
    client_api_key c = "sk" /\
    client_headers c !! "HTTP-Referer" = Some "https://github.com/razzant/ouroboros".
Proof.
  destruct (LLMClient._get_client host_down OPENROUTER_URL "sk" empty_world)
    as [[c|e] w1] eqn:Erun; [|vm_compute in Erun; discriminate Erun].
  destruct (get_client_cached host_down OPENROUTER_URL "sk" empty_world c w1 Erun)
    as (Hagain & _ & _ & _ & _ & Hnew).
  destruct (Hnew eq_refl) as (_ & Hkey & _ & Href & _).
  exists c, w1. repeat split; [apply Hagain|exact Hkey|].
  apply Href. vm_compute. reflexivity.
Defined.

Lemma fetch_generation_cost_single_attempt_witness :
  LLMClient._fetch_generation_cost (H := decimal_conv) host_with_cost
    "gen-1" OPENROUTER_URL "sk" empty_world
  = (Ok (Some 0.25%float),
     record_event empty_world
       (EvGet (LLMClient.generation_url OPENROUTER_URL "gen-1") "sk" 5)).
Proof.
  pose proof (fetch_generation_cost_single_attempt (H := decimal_conv) host_with_cost
                "gen-1" OPENROUTER_URL "sk" empty_world) as Hrun.
  cbv zeta in Hrun.
  destruct Hrun as (Hone & _); [vm_compute; reflexivity|reflexivity|].
  apply Hone. vm_compute. reflexivity.
Defined.

Lemma cost_of_response_precedence_witness :
  LLMClient.cost_of_response (H := decimal_conv) 200
    (Ok (PDict {[ "data" := PDict data_usage_cost ]})) = Ok (Some 0.5%float).
Proof.
  destruct (cost_of_response_precedence (H := decimal_conv) data_usage_cost
              {[ "data" := PDict data_usage_cost ]})
    as (_ & _ & _ & Husage & _); [vm_compute; reflexivity|].
  rewrite (Husage {[ "cost" := PFloat 0.5 ]} (PFloat 0.5));
    try (vm_compute; reflexivity).
  discriminate.
Defined.

Lemma chat_keeps_objects_witness :
  heap (snd (LLMClient.chat (H := decimal_conv) host_with_cost (VLit (PList []))
               "anthropic/claude-3.7" (VRef 1%positive) "medium" 16384 "auto"
               world_two_tools)) !! 3%positive
    = Some (ODict tool_b).
Proof.
  apply (chat_keeps_objects (H := decimal_conv)). vm_compute. reflexivity.
Defined.

Lemma chat_request_failure_surfaces_witness :
  fst (LLMClient.chat (H := decimal_conv) host_failing (VLit (PList []))
         "anthropic/claude-3.7" (VLit PNone) "medium" 16384 "auto" empty_world)
    = Raise TransportError /\
  count_gets (trace (snd (LLMClient.chat (H := decimal_conv) host_failing
                            (VLit (PList [])) "anthropic/claude-3.7" (VLit PNone)
                            "medium" 16384 "auto" empty_world))) = 0%nat.
Proof.
  pose proof (chat_request_failure_surfaces (H := decimal_conv) host_failing
                (VLit (PList [])) "anthropic/claude-3.7" (VLit PNone) "medium" 16384
                "auto" empty_world TransportError eq_refl) as Hrun.
  cbv zeta in Hrun. destruct Hrun as (_ & Hquiet & _ & Hsame).
  split; [exact (Hsame eq_refl eq_refl)|exact Hquiet].
Defined.

Lemma chat_direct_route_no_lookup_witness :
  fst (LLMClient.chat (H := decimal_conv) host_zero_cost (VLit (PList []))
         "gpt-4.1" (VLit PNone) "medium" 16384 "auto" empty_world)
    = Ok (PDict ∅, {[ "cost" := PFloat 0 ]}) /\
  count_gets (trace (snd (LLMClient.chat (H := decimal_conv) host_zero_cost
                            (VLit (PList [])) "gpt-4.1" (VLit PNone)
                            "medium" 16384 "auto" empty_world))) = 0%nat.
Proof.
  pose proof (chat_direct_route_no_lookup (H := decimal_conv) host_zero_cost
                (VLit (PList [])) "gpt-4.1" (VLit PNone) "medium" 16384
                "auto" empty_world) as Hrun.
  cbv zeta in Hrun. destruct Hrun as (Hquiet & _ & Hret); [vm_compute; reflexivity|].
  split; [|exact Hquiet].
  apply (Hret (<["id" := PStr "gen-1"]> {[ "usage" := PDict {[ "cost" := PFloat 0 ]} ]}));
    vm_compute; reflexivity.
Defined.

Lemma tools_sent_iff_given_witness :
  exists kwargs,
    LLMClient.build_kwargs "gpt-4.1" "gpt-4.1" false (VLit (PList []))
      (VRef 1%positive) "medium" 16384 "auto" world_two_tools
      = (Ok kwargs, world_two_tools) /\
    kwargs !! "tools" = Some (VRef 1%positive) /\
    kwargs !! "tool_choice" = Some (VLit (PStr "auto")).
Proof.
  destruct (LLMClient.build_kwargs "gpt-4.1" "gpt-4.1" false (VLit (PList []))
              (VRef 1%positive) "medium" 16384 "auto" world_two_tools)
    as [[kwargs|e] w'] eqn:Erun; [|vm_compute in Erun; discriminate Erun].
  destruct (tools_sent_iff_given _ _ _ _ _ _ _ _ _ _ _ Erun)
    as (_ & Hchoice & Hsame & _).
  destruct Hsame as [Htools ->]; [reflexivity|vm_compute; reflexivity|].
  exists kwargs. repeat split; [exact Htools|].
  apply Hchoice. rewrite Htools. eauto.
Defined.

Lemma chat_request_reasoning_witness :
  exists kwargs extra_body reasoning,
    trace (snd (LLMClient.chat_request host_with_cost OPENROUTER_URL "sk"
                  "anthropic/claude-3.7" (VLit (PList [])) "anthropic/claude-3.7"
                  (VLit PNone) " HIGH " 16384 "auto" empty_world))
      = [EvCreate OPENROUTER_URL kwargs] /\
    kwargs !! "extra_body" = Some (VLit (PDict extra_body)) /\
    extra_body !! "reasoning" = Some (PDict reasoning) /\
    reasoning !! "exclude" = Some (PBool true) /\
    is_Some (extra_body !! "provider").
Proof.
  pose (kwargs := LLMClient.request_kwargs "anthropic/claude-3.7" "anthropic/claude-3.7"
                    true (VLit (PList [])) "high" 16384).
  assert (Hrun : trace (snd (LLMClient.chat_request host_with_cost OPENROUTER_URL "sk"
                  "anthropic/claude-3.7" (VLit (PList [])) "anthropic/claude-3.7"
                  (VLit PNone) " HIGH " 16384 "auto" empty_world))
                 = (trace empty_world ++ [EvCreate OPENROUTER_URL kwargs])%list)
    by (vm_compute; reflexivity).
  destruct (chat_request_reasoning _ _ _ _ _ _ _ _ _ _ _ _ _ Hrun)
    as (_ & _ & extra_body & reasoning & e & Hbody & Hreason & _ & _ & Hexclude & Hpin).
  exists kwargs, extra_body, reasoning. repeat split; try assumption.
  apply Hpin. vm_compute. reflexivity.
Defined.

Lemma normalize_usage_raises_on_bad_detail_witness :
  LLMClient.normalize_usage (H := decimal_conv) resp_bad_cached = Raise ValueError /\
  fst (LLMClient.chat (H := decimal_conv) host_bad_cached (VLit (PList []))
         "anthropic/claude-3.7" (VLit PNone) "medium" 16384 "auto" empty_world)
    = Raise ValueError.
Proof.
  destruct (normalize_usage_raises_on_bad_detail (H := decimal_conv) resp_bad_cached
              (PDict ∅) usage_bad_cached details_bad_cached ValueError)
    as (Hraise & Hchat); try (vm_compute; reflexivity).
  split; [exact Hraise|].
  pose proof (Hchat host_bad_cached (VLit (PList [])) "anthropic/claude-3.7"
                "medium" 16384 "auto" empty_world eq_refl eq_refl) as Hrun.
  cbv zeta in Hrun. apply Hrun.
Defined.

Lemma pricing_keys_tracked_witness :
  startswith_any "qwen/q" PRICING_PREFIXES = true /\
  exists entry,
    entry !! "id" = Some (PStr "qwen/q") /\
    price_entry (H := decimal_conv) (PDict entry)
      = Ok (Some ("qwen/q", (0.25, 0.1, 0)%float)).
Proof.
  assert (Hfetch : exists d,
            fetch_openrouter_pricing (H := decimal_conv) env_with_key true
              (Reply 200 (Ok catalogue)) = Ok d /\
            d !! "qwen/q" = Some (0.25, 0.1, 0)%float).
  { eexists. split; vm_compute; reflexivity. }
  destruct Hfetch as (d & Hrun & Hl).
  destruct (pricing_keys_tracked (H := decimal_conv) env_with_key true
              (Reply 200 (Ok catalogue)) d "qwen/q" (0.25, 0.1, 0)%float Hrun Hl)
    as (Hp & _ & _ & _ & _ & entry & _ & _ & _ & _ & Hid & Hentry).
  split; [exact Hp|]. exists entry. split; assumption.
Defined.

Lemma pricing_one_bad_entry_discards_all_witness :
  fetch_openrouter_pricing (H := decimal_conv) env_with_key true
    (Reply 200 (Ok catalogue_bad)) = Ok ∅.
Proof.
  destruct (pricing_one_bad_entry_discards_all (H := decimal_conv) env_with_key true
              200 catalogue_bad (PList catalogue_entries_bad) catalogue_entries_bad)
    as (Hempty & _); [reflexivity|reflexivity| |exact Hempty].
  apply Exists_cons_tl, Exists_cons_hd. exists AttributeError.
  vm_compute. reflexivity.
Defined.
